(** * Tor_unveil: a shallow embedding of the analytic pipeline

    The development follows the Python sources module by module:

    - [Flow], [TorNode], [Correlation], [models] :
      [backend/src/db/models.py]
    - [pcap_ingest]         : [src/collector/pcap_ingest.py]
    - [tor_extractor]       : [backend/src/parser/tor_extractor.py]
    - [correlation_engine]  : [backend/src/correlator/correlation_engine.py]
    - [confidence]          : [src/scorer/confidence.py]

    [py] and [base64] hold the built-ins and the standard-library functions
    the sources call; [spec] words the rules of the specification; [fixtures]
    holds its scenarios and the fixtures of the unit tests; [inv] holds the
    predicates of the statements. The properties come last.

    Python [int] is [Z]; Python [float] is the kernel's binary64 [float], so
    every arithmetic step rounds as CPython's does; [str] is [string], each
    character a code point below 256 (the texts of the pipeline are
    addresses, protocol names and base64, all ASCII); [bytes] is
    [list byte]; a [set] of strings is a list without
    repetition; a [datetime] is the number of microseconds since the epoch
    (its resolution) and a [timedelta] a difference of two of them. Code
    that can raise returns a [result]; objects that are mutated are passed
    in and returned. *)

From Stdlib Require Import ZArith List String Ascii Bool Lia Floats.
From Stdlib.Strings Require Import Byte.
From Stdlib Require Import DecimalString Permutation Sorted.
Import ListNotations.

Set Warnings "-inexact-float".
Set Implicit Arguments.

Open Scope string_scope.
Open Scope list_scope.
Open Scope Z_scope.

(* ================================================================= *)
(** * Python values and built-ins used by the sources *)

Module py.

(** Exceptions that the modelled code can raise. *)
Inductive exn : Type :=
| ValueError (msg : string)
| ZeroDivisionError (msg : string)
| KeyError (key : string)
| TypeError (msg : string)
| IntegrityError (msg : string)
| OverflowError (msg : string).

Inductive result (A : Type) : Type :=
| Ok (a : A)
| Raise (e : exn).

Arguments Ok {A} a.
Arguments Raise {A} e.

Definition bind {A B : Type} (m : result A) (k : A -> result B) : result B :=
  match m with
  | Ok a => k a
  | Raise e => Raise e
  end.

Definition is_ok {A : Type} (m : result A) : bool :=
  match m with Ok _ => true | Raise _ => false end.

(** ** [int] and [float] *)

Definition Z2SF (z : Z) : spec_float :=
  match z with
  | Z0 => S754_zero false
  | Zpos p => S754_finite false p 0
  | Zneg p => S754_finite true p 0
  end.

(** [float(n)] for an [int]: the nearest binary64 value. *)
Definition float_of_int (n : Z) : float :=
  SF2Prim (binary_normalize prec emax n 0 false).

(** [a / b] on two [int]s, [b] non-zero: the exact quotient, rounded once.
    (CPython raises [OverflowError] where the quotient is beyond the range
    of a float; no count of the store comes near.) *)
Definition int_truediv (a b : Z) : float :=
  SF2Prim (SFdiv prec emax (Z2SF a) (Z2SF b)).

(** [a / b] on two [float]s. *)
Definition float_div (a b : float) : result float :=
  if PrimFloat.eqb b 0%float
  then Raise (ZeroDivisionError "float division by zero")
  else Ok (PrimFloat.div a b).

(** [min(a, b)] and [max(a, b)]: the first argument is kept unless the second
    one is strictly smaller (resp. larger). *)
Definition min (a b : float) : float := if PrimFloat.ltb b a then b else a.
Definition max (a b : float) : float := if PrimFloat.ltb a b then b else a.

(** [sum(xs)] over floats, accumulated left to right from [0], each
    addition rounded (CPython from 3.12 on also carries a compensation
    term). *)
Definition sum (xs : list float) : float :=
  fold_left PrimFloat.add xs 0%float.

(** [timedelta.total_seconds()] of a difference given in microseconds:
    the microseconds divided by [10**6]. *)
Definition total_seconds (micros : Z) : float := int_truediv micros 1000000.

(** ** [str] *)

(** [str(n)] for an [int]. *)
Definition str (n : Z) : string := NilZero.string_of_int (Z.to_int n).

(** [s.split(sep)] for a one-character separator. *)
Fixpoint split_aux (sep : ascii) (cur : string) (s : string) : list string :=
  match s with
  | EmptyString => [cur]
  | String c s' =>
      if Ascii.eqb c sep
      then cur :: split_aux sep EmptyString s'
      else split_aux sep (cur ++ String c EmptyString)%string s'
  end.

Definition split (sep : ascii) (s : string) : list string :=
  split_aux sep EmptyString s.

(** [s.startswith(p)]. *)
Definition startswith (s p : string) : bool := String.prefix p s.

(** Whitespace as [int()] sees it, [Py_UNICODE_ISSPACE]: among the code
    points below 256 these are 9 to 13, 28 to 32, 133 and 160. *)
Definition isspace (c : ascii) : bool :=
  let n := Z.of_nat (nat_of_ascii c) in
  ((9 <=? n) && (n <=? 13)) || ((28 <=? n) && (n <=? 32))
  || (n =? 133) || (n =? 160).

Fixpoint lstrip (s : string) : string :=
  match s with
  | EmptyString => EmptyString
  | String c s' => if isspace c then lstrip s' else s
  end.

Fixpoint rstrip (s : string) : string :=
  match s with
  | EmptyString => EmptyString
  | String c s' =>
      match rstrip s' with
      | EmptyString => if isspace c then EmptyString else String c EmptyString
      | r => String c r
      end
  end.

Definition digit_val (c : ascii) : option Z :=
  let n := Z.of_nat (nat_of_ascii c) in
  if (48 <=? n) && (n <=? 57) then Some (n - 48) else None.

(** The digits after the first one: a digit, or one underscore followed by
    a digit. *)
Fixpoint int_digits (acc : Z) (s : string) : option Z :=
  match s with
  | EmptyString => Some acc
  | String c s' =>
      match digit_val c with
      | Some d => int_digits (10 * acc + d) s'
      | None =>
          if Ascii.eqb c "_"%char then
            match s' with
            | String c2 s'' =>
                match digit_val c2 with
                | Some d => int_digits (10 * acc + d) s''
                | None => None
                end
            | EmptyString => None
            end
          else None
      end
  end.

Definition int_unsigned (s : string) : option Z :=
  match s with
  | String c s' =>
      match digit_val c with
      | Some d => int_digits d s'
      | None => None
      end
  | EmptyString => None
  end.

Definition int_literal (s : string) : option Z :=
  match s with
  | String "+" s' => int_unsigned s'
  | String "-" s' => option_map Z.opp (int_unsigned s')
  | _ => int_unsigned s
  end.

(** [repr(s)] for a [str]: single quotes unless the text holds a single
    quote and no double quote; the quote in use and the backslash are
    escaped, tab, newline and return are written with their letter, and
    the other code points that are not printable (below 32, 127 to 160, and
    173) as [\xhh]. *)
Definition quote1 : ascii := "'"%char.
Definition quote2 : ascii := ascii_of_nat 34.
Definition backslash : ascii := ascii_of_nat 92.

Definition hex_digit (n : Z) : ascii :=
  nth (Z.to_nat n) (list_ascii_of_string "0123456789abcdef") "0"%char.

Definition isprintable (c : ascii) : bool :=
  let n := Z.of_nat (nat_of_ascii c) in
  ((32 <=? n) && (n <? 127)) || ((161 <=? n) && negb (n =? 173)).

Definition repr_char (quote : ascii) (c : ascii) : string :=
  let n := Z.of_nat (nat_of_ascii c) in
  if Ascii.eqb c quote || Ascii.eqb c backslash
  then String backslash (String c EmptyString)
  else if n =? 9 then String backslash "t"
  else if n =? 10 then String backslash "n"
  else if n =? 13 then String backslash "r"
  else if isprintable c then String c EmptyString
  else String backslash
         (String "x" (String (hex_digit (n / 16))
                        (String (hex_digit (n mod 16)) EmptyString))).

Definition has_char (c : ascii) (s : string) : bool :=
  existsb (Ascii.eqb c) (list_ascii_of_string s).

Definition repr (s : string) : string :=
  let quote :=
    if has_char quote1 s && negb (has_char quote2 s) then quote2 else quote1 in
  String quote
    (String.concat EmptyString (map (repr_char quote) (list_ascii_of_string s))
     ++ String quote EmptyString)%string.

(** [int(s)] for a [str] in base 10. The message of the error holds the
    [repr] of the argument, cut to 200 characters ([%.200R]). (CPython from
    3.11 on also refuses a literal of more than 4300 digits; a text of the
    store's 45-character address column does not reach that.) *)
Definition int (s : string) : result Z :=
  match int_literal (rstrip (lstrip s)) with
  | Some n => Ok n
  | None =>
      Raise (ValueError
               ("invalid literal for int() with base 10: "
                ++ String.substring 0 200 (repr s))%string)
  end.

(** ** Lists and sets of [str] *)

(** [x in l], for a list or a set. *)
Definition contains (x : string) (l : list string) : bool :=
  existsb (String.eqb x) l.

(** [s.add(x)] for a set, kept without repetition. *)
Definition set_add (x : string) (s : list string) : list string :=
  if contains x s then s else s ++ [x].

(** ** [bytes] *)

Definition bytes := list byte.

(** A bytes literal written with its ASCII characters. *)
Definition b (s : string) : bytes := list_byte_of_string s.

(** [data[:n]]. *)
Definition slice_to {A : Type} (n : nat) (data : list A) : list A := firstn n data.

Fixpoint bytes_startswith (data p : bytes) : bool :=
  match p, data with
  | [], _ => true
  | _ :: _, [] => false
  | x :: p', y :: data' => Byte.eqb x y && bytes_startswith data' p'
  end.

(** [p in data] for two [bytes]: [p] occurs as a contiguous slice. *)
Fixpoint bytes_contains (data p : bytes) : bool :=
  bytes_startswith data p ||
  match data with
  | [] => false
  | _ :: data' => bytes_contains data' p
  end.

(** [len(set(data))]. *)
Definition distinct_count (data : bytes) : Z :=
  Z.of_nat (List.length (nodup Byte.byte_eq_dec data)).

End py.

Notation "x <- m ;; k" := (py.bind m (fun x => k))
  (at level 61, m at next level, right associativity).

(* ================================================================= *)
(** * The [base64] functions of the Python standard library

    [base64.b64encode] and [base64.b64decode] (with its default
    [validate=False]) as CPython's [binascii] implements them. *)

Module base64.

Definition alphabet : string :=
  "ABCDEFGHIJKLMNOPQRSTUVWXYZabcdefghijklmnopqrstuvwxyz0123456789+/".

Definition byte_of_Z (z : Z) : byte :=
  match Byte.of_N (Z.to_N (z mod 256)) with
  | Some x => x
  | None => x00
  end.

Definition Z_of_byte (x : byte) : Z := Z.of_N (Byte.to_N x).

Definition enc (v : Z) : ascii :=
  match String.get (Z.to_nat v) alphabet with
  | Some c => c
  | None => "="%char
  end.

Fixpoint b2a (data : py.bytes) : string :=
  match data with
  | [] => EmptyString
  | [x] =>
      let x := Z_of_byte x in
      String (enc (Z.shiftr x 2))
        (String (enc (Z.shiftl (Z.land x 3) 4)) "==")
  | [x; y] =>
      let x := Z_of_byte x in
      let y := Z_of_byte y in
      String (enc (Z.shiftr x 2))
        (String (enc (Z.lor (Z.shiftl (Z.land x 3) 4) (Z.shiftr y 4)))
           (String (enc (Z.shiftl (Z.land y 15) 2)) "="))
  | x :: y :: z :: rest =>
      let x := Z_of_byte x in
      let y := Z_of_byte y in
      let z := Z_of_byte z in
      String (enc (Z.shiftr x 2))
        (String (enc (Z.lor (Z.shiftl (Z.land x 3) 4) (Z.shiftr y 4)))
           (String (enc (Z.lor (Z.shiftl (Z.land y 15) 2) (Z.shiftr z 6)))
              (String (enc (Z.land z 63)) (b2a rest))))
  end.

(** [base64.b64encode(data).decode('utf-8')]. *)
Definition b64encode (data : py.bytes) : string := b2a data.

(** The value of a character of the alphabet. *)
Definition dec (c : ascii) : option Z :=
  let n := Z.of_nat (nat_of_ascii c) in
  if (65 <=? n) && (n <=? 90) then Some (n - 65)
  else if (97 <=? n) && (n <=? 122) then Some (n - 97 + 26)
  else if (48 <=? n) && (n <=? 57) then Some (n - 48 + 52)
  else if n =? 43 then Some 62
  else if n =? 47 then Some 63
  else None.

(** The decoding loop of [binascii.a2b_base64] in its lenient mode:
    characters outside the alphabet are skipped, a pad sequence that closes
    a quad ends the parse, and leftover characters of an open quad are an
    error ([binascii.Error], a [ValueError]). [out] is the decoded data so
    far. *)
Fixpoint a2b (s : string) (quad_pos : Z) (leftchar : Z) (pads : Z)
         (out : py.bytes) : py.result py.bytes :=
  match s with
  | EmptyString =>
      if quad_pos =? 0 then py.Ok out
      else if quad_pos =? 1
           then py.Raise (py.ValueError "Invalid base64-encoded string")
           else py.Raise (py.ValueError "Incorrect padding")
  | String c s' =>
      if Ascii.eqb c "="%char then
        if 2 <=? quad_pos then
          if 4 <=? quad_pos + (pads + 1) then py.Ok out
          else a2b s' quad_pos leftchar (pads + 1) out
        else a2b s' quad_pos leftchar pads out
      else
        match dec c with
        | None => a2b s' quad_pos leftchar pads out
        | Some v =>
            if quad_pos =? 0 then a2b s' 1 v 0 out
            else if quad_pos =? 1 then
              a2b s' 2 (Z.land v 15) 0
                  (out ++ [byte_of_Z (Z.lor (Z.shiftl leftchar 2) (Z.shiftr v 4))])
            else if quad_pos =? 2 then
              a2b s' 3 (Z.land v 3) 0
                  (out ++ [byte_of_Z (Z.lor (Z.shiftl leftchar 4) (Z.shiftr v 2))])
            else
              a2b s' 0 0 0
                  (out ++ [byte_of_Z (Z.lor (Z.shiftl leftchar 6) v)])
        end
  end.

Fixpoint isascii (s : string) : bool :=
  match s with
  | EmptyString => true
  | String c s' => (Z.of_nat (nat_of_ascii c) <? 128) && isascii s'
  end.

(** [base64.b64decode(s)] for a [str]. *)
Definition b64decode (s : string) : py.result py.bytes :=
  if isascii s then a2b s 0 0 0 []
  else py.Raise
         (py.ValueError "string argument should contain only ASCII characters").

End base64.

(* ================================================================= *)
(** * [db/models.py]: the persisted entities and the database manager

    A row is a record of its columns; [created_at], [updated_at] and
    [last_seen], which no stage reads, are left out, and so are the [Alert]
    and [Report] tables. [DateTime] columns hold microseconds. The columns
    that the stages leave unset or test for [None] are options. *)

Module Flow.
Record t : Type := mk {
  id : Z;
  src_ip : string;
  src_port : Z;
  dst_ip : string;
  dst_port : Z;
  protocol : string;
  ts_start : Z;
  ts_end : option Z;
  pkt_count : Z;
  byte_count : Z;
  payload_sample : option string;
  possible_tor_handshake : bool;
  relay_comm : bool;
  directory_fetch : bool;
  obfsproxy_candidate : bool;
  confidence_score : float;
  confidence_category : option string
}.

(** Attribute assignments made by the classifier and the scorer. *)
Definition set_indicators (f : t) (handshake relay directory obfs : bool) : t :=
  mk (id f) (src_ip f) (src_port f) (dst_ip f) (dst_port f) (protocol f)
     (ts_start f) (ts_end f) (pkt_count f) (byte_count f) (payload_sample f)
     handshake relay directory obfs
     (confidence_score f) (confidence_category f).

Definition set_possible_tor_handshake (f : t) (v : bool) : t :=
  set_indicators f v (relay_comm f) (directory_fetch f) (obfsproxy_candidate f).

Definition set_relay_comm (f : t) (v : bool) : t :=
  set_indicators f (possible_tor_handshake f) v (directory_fetch f)
    (obfsproxy_candidate f).

Definition set_directory_fetch (f : t) (v : bool) : t :=
  set_indicators f (possible_tor_handshake f) (relay_comm f) v
    (obfsproxy_candidate f).

Definition set_obfsproxy_candidate (f : t) (v : bool) : t :=
  set_indicators f (possible_tor_handshake f) (relay_comm f)
    (directory_fetch f) v.

Definition set_confidence (f : t) (score : float) (category : string) : t :=
  mk (id f) (src_ip f) (src_port f) (dst_ip f) (dst_port f) (protocol f)
     (ts_start f) (ts_end f) (pkt_count f) (byte_count f) (payload_sample f)
     (possible_tor_handshake f) (relay_comm f) (directory_fetch f)
     (obfsproxy_candidate f) score (Some category).

Definition set_id (f : t) (k : Z) : t :=
  mk k (src_ip f) (src_port f) (dst_ip f) (dst_port f) (protocol f)
     (ts_start f) (ts_end f) (pkt_count f) (byte_count f) (payload_sample f)
     (possible_tor_handshake f) (relay_comm f) (directory_fetch f)
     (obfsproxy_candidate f) (confidence_score f) (confidence_category f).
End Flow.

Module TorNode.
Record t : Type := mk {
  id : Z;
  ip_address : string;
  port : Z;
  fingerprint : option string;
  nickname : option string;
  flags : option (list string);
  country_code : option string;
  asn : option string;
  bandwidth : option Z
}.
End TorNode.

(** A value of the free-form [evidence] mapping of a correlation. *)
Inductive ev_value : Type :=
| EvFloat (x : float)
| EvStr (s : string)
| EvBool (v : bool).

Module Correlation.
Record t : Type := mk {
  id : Z;
  flow_id : Z;
  correlated_flow_id : Z;
  correlation_weight : float;
  correlation_type : string;
  evidence : list (string * ev_value)
}.
End Correlation.

Module models.

(** The three tables the pipeline reads and writes, in primary-key order. *)
Record Tables : Type := mkTables {
  flows : list Flow.t;
  tor_nodes : list TorNode.t;
  correlations : list Correlation.t
}.

Definition empty_tables : Tables := mkTables [] [] [].

(** [DatabaseManager]: the committed tables, and the number of sessions
    handed out by [get_session] and not closed yet. *)
Record DatabaseManager : Type := mkDB {
  committed : Tables;
  open_sessions : nat
}.

(** A [Session] is the view of the tables inside the current transaction. *)
Definition Session : Type := Tables.

Definition get_session (db : DatabaseManager) : Session * DatabaseManager :=
  (committed db, mkDB (committed db) (S (open_sessions db))).

Definition commit (s : Session) (db : DatabaseManager) : DatabaseManager :=
  mkDB s (open_sessions db).

Definition rollback (db : DatabaseManager) : Session := committed db.

Definition close (db : DatabaseManager) : DatabaseManager :=
  mkDB (committed db) (Nat.pred (open_sessions db)).

(** The key SQLite gives a new row of an [INTEGER PRIMARY KEY] table: one
    more than the largest key in use. *)
Definition next_id (ids : list Z) : Z := 1 + fold_right Z.max 0 ids.

(** [session.bulk_save_objects(objs)] for new [Flow] objects. *)
Fixpoint bulk_save_flows (objs : list Flow.t) (s : Session) : Session :=
  match objs with
  | [] => s
  | f :: objs' =>
      let f' := Flow.set_id f (next_id (map Flow.id (flows s))) in
      bulk_save_flows objs'
        (mkTables (flows s ++ [f']) (tor_nodes s) (correlations s))
  end.

(** [session.query(TorNode).filter_by(ip_address=ip).first()]. *)
Definition tor_node_by_ip (s : Session) (ip : string) : option TorNode.t :=
  find (fun n => String.eqb (TorNode.ip_address n) ip) (tor_nodes s).

(** What the driver binds into an [INTEGER] parameter: a signed 64-bit
    value. *)
Definition sqlite_int (n : Z) : bool :=
  (- 2 ^ 63 <=? n) && (n <? 2 ^ 63).

(** [session.query(Flow).filter_by(id=flow_id).first()]. The driver raises
    [OverflowError] on a parameter outside the 64-bit range, before any row
    is read. *)
Definition flow_by_id (s : Session) (flow_id : Z) : py.result (option Flow.t) :=
  if sqlite_int flow_id
  then py.Ok (find (fun f => Flow.id f =? flow_id) (flows s))
  else py.Raise (py.OverflowError "Python int too large to convert to SQLite INTEGER").

End models.

(* ================================================================= *)
(** * [collector/pcap_ingest.py]: flow reconstruction *)

Module pcap_ingest.

(** [FlowKey]: the directional 5-tuple. *)
Record FlowKey : Type := mkFlowKey {
  src_ip : string;
  src_port : Z;
  dst_ip : string;
  dst_port : Z;
  proto : string
}.

(** [FlowKey.__eq__]. *)
Definition FlowKey_eq (a c : FlowKey) : bool :=
  String.eqb (src_ip a) (src_ip c) &&
  (src_port a =? src_port c) &&
  String.eqb (dst_ip a) (dst_ip c) &&
  (dst_port a =? dst_port c) &&
  String.eqb (proto a) (proto c).

(** [FlowRecord]: the accumulator of one flow. *)
Record FlowRecord : Type := mkFlowRecord {
  key : FlowKey;
  ts_start : Z;
  ts_end : Z;
  pkt_count : Z;
  byte_count : Z;
  payload_sample : option py.bytes
}.

(** [FlowRecord.__init__]. *)
Definition FlowRecord_init (k : FlowKey) (timestamp : Z) : FlowRecord :=
  mkFlowRecord k timestamp timestamp 0 0 None.

(** Truth value of an [Optional[bytes]]. *)
Definition truthy (p : option py.bytes) : bool :=
  match p with
  | Some (_ :: _) => true
  | _ => false
  end.

(** [FlowRecord.update]. *)
Definition update (self : FlowRecord) (timestamp : Z)
           (payload : option py.bytes) (pkt_size : Z) : FlowRecord :=
  mkFlowRecord (key self) (ts_start self)
    timestamp
    (pkt_count self + 1)
    (byte_count self + pkt_size)
    (if truthy payload && negb (truthy (payload_sample self))
     then option_map (py.slice_to 512) payload
     else payload_sample self).

(** [FlowRecord.to_flow_model]; the columns it leaves out take their
    defaults and the key is given by the store on insertion. *)
Definition to_flow_model (self : FlowRecord) : Flow.t :=
  let payload_encoded :=
    if truthy (payload_sample self)
    then option_map base64.b64encode (payload_sample self)
    else None in
  Flow.mk 0
    (src_ip (key self)) (src_port (key self))
    (dst_ip (key self)) (dst_port (key self)) (proto (key self))
    (ts_start self) (Some (ts_end self))
    (pkt_count self) (byte_count self)
    payload_encoded
    false false false false 0%float None.

(** What [process_packet] reads of a scapy packet: its first [IP] and
    [IPv6] layers (source, destination), its [TCP] and [UDP] layers (source
    port, destination port), the load of its [Raw] layer, its time as the
    code stores it (the naive local [datetime] that
    [datetime.fromtimestamp(float(packet.time))] gives, in microseconds;
    where the local UTC offset changes during a capture, the order of these
    times is not the order of the timestamps) and its length
    [len(packet)], which is positive: a packet with a network layer has
    that layer's header. *)
Record Packet : Type := mkPacket {
  IP : option (string * string);
  IPv6 : option (string * string);
  TCP : option (Z * Z);
  UDP : option (Z * Z);
  Raw : option py.bytes;
  time : Z;
  len : positive
}.

(** The [Dict[FlowKey, FlowRecord]] of the ingestor, in insertion order. *)
Definition FlowDict : Type := list (FlowKey * FlowRecord).

Definition dict_contains (k : FlowKey) (d : FlowDict) : bool :=
  existsb (fun kv => FlowKey_eq k (fst kv)) d.

(** [d[k] = v]: an existing key keeps its place. *)
Fixpoint dict_set (k : FlowKey) (v : FlowRecord) (d : FlowDict) : FlowDict :=
  match d with
  | [] => [(k, v)]
  | (k', v') :: d' =>
      if FlowKey_eq k k' then (k', v) :: d' else (k', v') :: dict_set k v d'
  end.

(** [d[k].m()] for a method [m] that mutates the record in place. *)
Fixpoint dict_modify (k : FlowKey) (m : FlowRecord -> FlowRecord)
         (d : FlowDict) : FlowDict :=
  match d with
  | [] => []
  | (k', v') :: d' =>
      if FlowKey_eq k k' then (k', m v') :: d' else (k', v') :: dict_modify k m d'
  end.

Definition values (d : FlowDict) : list FlowRecord := map snd d.

(** [PcapIngestor]. *)
Record PcapIngestor : Type := mkPcapIngestor {
  db_manager : models.DatabaseManager;
  batch_size : Z;
  flows : FlowDict
}.

(** [PcapIngestor.__init__]. *)
Definition PcapIngestor_init (db : models.DatabaseManager) (batch : Z)
  : PcapIngestor :=
  mkPcapIngestor db batch [].

(** The key [process_packet] builds, or [None] when it skips the packet. *)
Definition packet_key (packet : Packet) : option FlowKey :=
  match (match IP packet with
         | Some a => Some a
         | None => IPv6 packet
         end) with
  | None => None
  | Some (src, dst) =>
      match TCP packet with
      | Some (sport, dport) => Some (mkFlowKey src sport dst dport "TCP")
      | None =>
          match UDP packet with
          | Some (sport, dport) => Some (mkFlowKey src sport dst dport "UDP")
          | None => None
          end
      end
  end.

(** [PcapIngestor.process_packet]. *)
Definition process_packet (self : PcapIngestor) (packet : Packet)
  : option FlowKey * PcapIngestor :=
  match packet_key packet with
  | None => (None, self)
  | Some flow_key =>
      let payload := Raw packet in
      let timestamp := time packet in
      let pkt_size := Z.pos (len packet) in
      let flows1 :=
        if negb (dict_contains flow_key (flows self))
        then dict_set flow_key (FlowRecord_init flow_key timestamp) (flows self)
        else flows self in
      let flows2 :=
        dict_modify flow_key
          (fun r => update r timestamp payload pkt_size) flows1 in
      (Some flow_key,
       mkPcapIngestor (db_manager self) (batch_size self) flows2)
  end.

(** [PcapIngestor._flush_flows]. *)
Definition _flush_flows (self : PcapIngestor) : PcapIngestor :=
  match flows self with
  | [] => self
  | _ :: _ =>
      let '(session, db1) := models.get_session (db_manager self) in
      let flow_models := map to_flow_model (values (flows self)) in
      let session1 := models.bulk_save_flows flow_models session in
      let db2 := models.commit session1 db1 in
      let db3 := models.close db2 in
      mkPcapIngestor db3 (batch_size self) (flows self)
  end.

(** One turn of the streaming loop of [ingest_pcap]. *)
Definition streaming_step (self : PcapIngestor) (packet : Packet)
  : PcapIngestor :=
  let self1 := snd (process_packet self packet) in
  if batch_size self1 <=? Z.of_nat (List.length (flows self1))
  then _flush_flows self1
  else self1.

(** One turn of the eager loop of [ingest_pcap]. *)
Definition eager_step (self : PcapIngestor) (packet : Packet) : PcapIngestor :=
  snd (process_packet self packet).

(** [PcapIngestor.ingest_pcap], on the packets the capture file holds. *)
Definition ingest_pcap (self : PcapIngestor) (pcap : list Packet)
           (streaming : bool) : Z * PcapIngestor :=
  let self0 := mkPcapIngestor (db_manager self) (batch_size self) [] in
  let self1 :=
    if streaming
    then fold_left streaming_step pcap self0
    else fold_left eager_step pcap self0 in
  let self2 := _flush_flows self1 in
  (Z.of_nat (List.length (flows self2)), self2).

End pcap_ingest.

(* ================================================================= *)
(** * [parser/tor_extractor.py]: the relay directory and the classifier *)

Module tor_extractor.

Definition TOR_PORTS : list Z := [9001; 9030; 9050; 9051; 9150].

Definition TLS_CLIENT_HELLO : py.bytes := [x16; x03].

Definition TOR_HANDSHAKE_PATTERNS : list py.bytes :=
  [ [x00; x00; x00]; [x03; x00] ].

(** One record of the directory snapshot: a [dict] in which every key may
    be missing. *)
Record NodeData : Type := mkNodeData {
  nd_ip_address : option string;
  nd_port : option Z;
  nd_fingerprint : option string;
  nd_nickname : option string;
  nd_flags : option (list string);
  nd_country_code : option string;
  nd_asn : option string;
  nd_bandwidth : option Z
}.

(** [d.get(k, default)]. *)
Definition get {A : Type} (v : option A) (default : A) : A :=
  match v with Some x => x | None => default end.

(** [TorExtractor]: the database manager and the [tor_node_ips] cache. *)
Record TorExtractor : Type := mkTorExtractor {
  db_manager : models.DatabaseManager;
  tor_node_ips : list string
}.


(** Insertion of one [TorNode] row: [ip_address] is unique, and so is
    [fingerprint] among the rows that have one. *)
Definition insert_tor_node (n : TorNode.t) (s : models.Session)
  : py.result models.Session :=
  if existsb (fun m => String.eqb (TorNode.ip_address m) (TorNode.ip_address n))
       (models.tor_nodes s)
  then py.Raise (py.IntegrityError "UNIQUE constraint failed: tor_nodes.ip_address")
  else if
    match TorNode.fingerprint n with
    | Some fp =>
        existsb (fun m => match TorNode.fingerprint m with
                          | Some fp' => String.eqb fp' fp
                          | None => false
                          end) (models.tor_nodes s)
    | None => false
    end
  then py.Raise (py.IntegrityError "UNIQUE constraint failed: tor_nodes.fingerprint")
  else
    let k := models.next_id (map TorNode.id (models.tor_nodes s)) in
    let n' := TorNode.mk k (TorNode.ip_address n) (TorNode.port n)
                (TorNode.fingerprint n) (TorNode.nickname n) (TorNode.flags n)
                (TorNode.country_code n) (TorNode.asn n) (TorNode.bandwidth n) in
    py.Ok (models.mkTables (models.flows s) (models.tor_nodes s ++ [n'])
             (models.correlations s)).

(** The session writes the objects added since the last flush; it does so
    before each query and on commit. *)
Fixpoint flush (pending : list TorNode.t) (s : models.Session)
  : py.result models.Session :=
  match pending with
  | [] => py.Ok s
  | n :: pending' => s1 <- insert_tor_node n s ;; flush pending' s1
  end.

(** The [TorNode] built from one snapshot record with address [ip]. *)
Definition node_of_data (ip : string) (node_data : NodeData) : TorNode.t :=
  TorNode.mk 0 ip
    (get (nd_port node_data) 9001)
    (nd_fingerprint node_data)
    (nd_nickname node_data)
    (Some (get (nd_flags node_data) []))
    (nd_country_code node_data)
    (nd_asn node_data)
    (nd_bandwidth node_data).

(** The [for] loop of [_load_tor_nodes]: the session, the objects added and
    not flushed yet, and the cache, which keeps what was added to it when
    the loop raises. *)
Fixpoint load_loop (tor_nodes : list NodeData) (s : models.Session)
         (pending : list TorNode.t) (ips : list string)
  : py.result (models.Session * list TorNode.t) * list string :=
  match tor_nodes with
  | [] => (py.Ok (s, pending), ips)
  | node_data :: rest =>
      match nd_ip_address node_data with
      | None => (py.Raise (py.KeyError "ip_address"), ips)
      | Some ip =>
          match flush pending s with
          | py.Raise e => (py.Raise e, ips)
          | py.Ok s1 =>
              match models.tor_node_by_ip s1 ip with
              | Some _existing => load_loop rest s1 [] ips
              | None =>
                  load_loop rest s1 [node_of_data ip node_data] (py.set_add ip ips)
              end
          end
      end
  end.

(** [TorExtractor._load_tor_nodes]. *)
Definition _load_tor_nodes (self : TorExtractor) (tor_nodes : list NodeData)
  : py.result unit * TorExtractor :=
  let '(session, db1) := models.get_session (db_manager self) in
  let '(r, ips) := load_loop tor_nodes session [] (tor_node_ips self) in
  match (sp <- r ;; flush (snd sp) (fst sp)) with
  | py.Ok session1 =>
      (py.Ok tt, mkTorExtractor (models.close (models.commit session1 db1)) ips)
  | py.Raise e =>
      (py.Raise e,
       let _session := models.rollback db1 in
       mkTorExtractor (models.close db1) ips)
  end.

(** [TorExtractor.__init__]. *)
Definition TorExtractor_init (db : models.DatabaseManager)
           (tor_nodes : option (list NodeData))
  : py.result unit * TorExtractor :=
  let self := mkTorExtractor db [] in
  match tor_nodes with
  | Some (n :: l) => _load_tor_nodes self (n :: l)
  | _ => (py.Ok tt, self)
  end.

(** [TorExtractor._check_obfsproxy_patterns]. *)
Definition common_markers : list py.bytes :=
  [ py.b "HTTP/"; py.b "GET "; py.b "POST "; py.b "SSH-"; py.b "220 ";
    py.b "CONNECT" ].

Definition _check_obfsproxy_patterns (payload : py.bytes) : bool :=
  if Z.of_nat (List.length payload) <? 20 then false
  else
    let has_marker :=
      existsb (fun marker => py.bytes_contains (py.slice_to 100 payload) marker)
        common_markers in
    if negb has_marker && (100 <? Z.of_nat (List.length payload)) then
      let unique_bytes := py.distinct_count (py.slice_to 100 payload) in
      if 50 <? unique_bytes then true else false
    else false.

(** Truth value of the [payload_sample] column. *)
Definition has_payload (f : Flow.t) : bool :=
  match Flow.payload_sample f with
  | Some (String _ _) => true
  | _ => false
  end.

(** [TorExtractor._analyze_flow]: the flow after the assignments, and the
    returned [is_tor]. *)
Definition _analyze_flow (self : TorExtractor) (flow : Flow.t) : Flow.t * bool :=
  let is_tor := false in
  let '(flow, is_tor) :=
    if py.contains (Flow.dst_ip flow) (tor_node_ips self)
    then (Flow.set_relay_comm flow true, true) else (flow, is_tor) in
  let '(flow, is_tor) :=
    if existsb (Z.eqb (Flow.dst_port flow)) TOR_PORTS
    then (Flow.set_relay_comm flow true, true) else (flow, is_tor) in
  let '(flow, is_tor) :=
    if Flow.dst_port flow =? 9030
    then (Flow.set_directory_fetch flow true, true) else (flow, is_tor) in
  if has_payload flow then
    match base64.b64decode (get (Flow.payload_sample flow) EmptyString) with
    | py.Raise _ => (flow, is_tor)
    | py.Ok payload =>
        let '(flow, is_tor) :=
          if py.bytes_startswith payload TLS_CLIENT_HELLO
             && existsb (fun pattern => py.bytes_contains payload pattern)
                  TOR_HANDSHAKE_PATTERNS
          then (Flow.set_possible_tor_handshake flow true, true)
          else (flow, is_tor) in
        if _check_obfsproxy_patterns payload
        then (Flow.set_obfsproxy_candidate flow true, true)
        else (flow, is_tor)
    end
  else (flow, is_tor).

(** The [while] loop of [analyze_flows]. Each turn reads one batch in key
    order, classifies its flows in place and commits. With a [batch_size]
    below 1 and a non-empty table the loop does not end; [fuel] bounds the
    number of turns and [None] says it was used up. *)
Fixpoint analyze_loop (fuel : nat) (self : TorExtractor) (batch_size : Z)
         (total_flows offset : Z) (session : models.Session)
         (db : models.DatabaseManager) (tor_flow_count : Z)
  : option (Z * models.DatabaseManager) :=
  if offset <? total_flows then
    match fuel with
    | O => None
    | S fuel' =>
        let before := firstn (Z.to_nat offset) (models.flows session) in
        let rest := skipn (Z.to_nat offset) (models.flows session) in
        let batch := firstn (Z.to_nat batch_size) rest in
        let after := skipn (Z.to_nat batch_size) rest in
        let analysed := map (_analyze_flow self) batch in
        let hits := Z.of_nat (List.length (filter snd analysed)) in
        let session1 :=
          models.mkTables (before ++ map fst analysed ++ after)
            (models.tor_nodes session) (models.correlations session) in
        analyze_loop fuel' self batch_size total_flows (offset + batch_size)
          session1 (models.commit session1 db) (tor_flow_count + hits)
    end
  else Some (tor_flow_count, db).

(** [TorExtractor.analyze_flows]. *)
Definition analyze_flows (self : TorExtractor) (batch_size : Z)
  : option (Z * TorExtractor) :=
  let '(session, db1) := models.get_session (db_manager self) in
  let total_flows := Z.of_nat (List.length (models.flows session)) in
  match analyze_loop (S (Z.to_nat total_flows)) self batch_size total_flows 0
          session db1 0 with
  | Some (n, db2) => Some (n, mkTorExtractor (models.close db2) (tor_node_ips self))
  | None => None
  end.

End tor_extractor.

(* ================================================================= *)
(** * [correlator/correlation_engine.py]: pairwise correlation

    The in-memory [networkx] graph is only written by [correlate_flows]
    and read by the chain queries; it is left out here. *)

Module correlation_engine.

(** [CorrelationEngine]: the database manager and the [timedelta] window,
    in microseconds. *)
Record CorrelationEngine : Type := mkCorrelationEngine {
  db_manager : models.DatabaseManager;
  time_window : Z
}.

(** [CorrelationEngine.__init__]. *)
Definition CorrelationEngine_init (db : models.DatabaseManager)
           (time_window_seconds : Z) : CorrelationEngine :=
  mkCorrelationEngine db (time_window_seconds * 1000000).

(** [CorrelationEngine._is_internal_ip]. *)
Definition _is_internal_ip (ip : string) (known_internal : option (list string))
  : py.result bool :=
  if match known_internal with
     | Some (k :: l) => py.contains ip (k :: l)
     | _ => false
     end
  then py.Ok true
  else if py.startswith ip "10." then py.Ok true
  else if py.startswith ip "192.168." then py.Ok true
  else if py.startswith ip "172." then
    let parts := py.split "."%char ip in
    if 2 <=? Z.of_nat (List.length parts) then
      second_octet <- py.int (nth 1 parts EmptyString) ;;
      if (16 <=? second_octet) && (second_octet <=? 31)
      then py.Ok true
      else py.Ok false
    else py.Ok false
  else py.Ok false.

(** [session.query(Flow.src_ip).distinct().all()]. *)
Fixpoint distinct (l : list string) (seen : list string) : list string :=
  match l with
  | [] => []
  | x :: l' =>
      if py.contains x seen then distinct l' seen else x :: distinct l' (x :: seen)
  end.

Fixpoint internal_ips_loop (ips : list string) (internal_ips : list string)
  : py.result (list string) :=
  match ips with
  | [] => py.Ok internal_ips
  | src_ip :: rest =>
      v <- _is_internal_ip src_ip None ;;
      internal_ips_loop rest
        (if v then py.set_add src_ip internal_ips else internal_ips)
  end.

(** [CorrelationEngine._get_internal_ips]. *)
Definition _get_internal_ips (session : models.Session)
  : py.result (list string) :=
  internal_ips_loop (distinct (map Flow.src_ip (models.flows session)) []) [].

(** Truth value of the [flags] column. *)
Definition has_flags (n : TorNode.t) : bool :=
  match TorNode.flags n with
  | Some (_ :: _) => true
  | _ => false
  end.

(** [flag in node.flags]. *)
Definition flag_in (flag : string) (n : TorNode.t) : py.result bool :=
  match TorNode.flags n with
  | Some l => py.Ok (py.contains flag l)
  | None => py.Raise (py.TypeError "argument of type 'NoneType' is not iterable")
  end.

(** [CorrelationEngine._check_entry_exit_pattern]. *)
Definition _check_entry_exit_pattern (flow1 flow2 : Flow.t)
           (session : models.Session) : py.result bool :=
  let tor_node1 := models.tor_node_by_ip session (Flow.dst_ip flow1) in
  let tor_node2 := models.tor_node_by_ip session (Flow.dst_ip flow2) in
  pattern1 <-
    match tor_node1 with
    | Some n1 =>
        if has_flags n1 then
          g <- flag_in "Guard" n1 ;;
          if g then
            match tor_node2 with
            | Some n2 => flag_in "Exit" n2
            | None => py.Ok false
            end
          else py.Ok false
        else py.Ok false
    | None => py.Ok false
    end ;;
  if pattern1 then py.Ok true
  else
    match tor_node1, tor_node2 with
    | Some _, None => py.Ok true
    | _, _ => py.Ok false
    end.

Definition Evidence : Type := list (string * ev_value).

(** [evidence[k] = v] for the keys of [_calculate_correlation], each of
    which is assigned once. *)
Definition ev_set (k : string) (v : ev_value) (evidence : Evidence) : Evidence :=
  evidence ++ [(k, v)].

Fixpoint ev_get (k : string) (evidence : Evidence) : option ev_value :=
  match evidence with
  | [] => None
  | (k', v) :: rest => if String.eqb k k' then Some v else ev_get k rest
  end.

(** [abs((flow2.ts_start - flow1.ts_start).total_seconds())]. *)
Definition time_diff_seconds (flow1 flow2 : Flow.t) : float :=
  PrimFloat.abs (py.total_seconds (Flow.ts_start flow2 - Flow.ts_start flow1)).

Definition timing_score_of (time_diff : float) : float :=
  if PrimFloat.ltb time_diff 1%float then 0.4%float
  else if PrimFloat.ltb time_diff 5%float then 0.3%float
  else if PrimFloat.ltb time_diff 10%float then 0.2%float
  else 0.1%float.

(** [CorrelationEngine._calculate_correlation]. *)
Definition _calculate_correlation (flow1 flow2 : Flow.t)
           (session : models.Session) : py.result (float * Evidence) :=
  let weight := 0%float in
  let evidence : Evidence := [] in
  let time_diff := time_diff_seconds flow1 flow2 in
  let timing_score := timing_score_of time_diff in
  let weight := PrimFloat.add weight timing_score in
  let evidence := ev_set "timing_diff_seconds" (EvFloat time_diff) evidence in
  let evidence := ev_set "timing_score" (EvFloat timing_score) evidence in
  is_entry_exit <- _check_entry_exit_pattern flow1 flow2 session ;;
  let '(weight, evidence) :=
    if is_entry_exit
    then (PrimFloat.add weight 0.3%float,
          ev_set "entry_exit_pattern" (EvBool true)
            (ev_set "type" (EvStr "entry_exit") evidence))
    else (weight, evidence) in
  we <-
    (if (0 <? Flow.pkt_count flow1) && (0 <? Flow.pkt_count flow2) then
       let avg_size1 := py.int_truediv (Flow.byte_count flow1) (Flow.pkt_count flow1) in
       let avg_size2 := py.int_truediv (Flow.byte_count flow2) (Flow.pkt_count flow2) in
       size_ratio <- py.float_div (py.min avg_size1 avg_size2)
                                  (py.max avg_size1 avg_size2) ;;
       let size_score := PrimFloat.mul size_ratio 0.2%float in
       py.Ok (PrimFloat.add weight size_score,
              ev_set "size_similarity" (EvFloat size_score) evidence)
     else py.Ok (weight, evidence)) ;;
  let '(weight, evidence) := we in
  let '(weight, evidence) :=
    if String.eqb (Flow.src_ip flow1) (Flow.src_ip flow2)
    then (PrimFloat.add weight 0.1%float,
          ev_set "same_source" (EvBool true) evidence)
    else (weight, evidence) in
  py.Ok (weight, evidence).

(** The flows with at least one indicator, ordered by [ts_start]. SQL
    leaves the order of rows with equal [ts_start] open; here they stay in
    key order. *)
Definition is_tor_related (f : Flow.t) : bool :=
  Flow.possible_tor_handshake f || Flow.relay_comm f ||
  Flow.directory_fetch f || Flow.obfsproxy_candidate f.

Fixpoint insert_by_ts_start (f : Flow.t) (l : list Flow.t) : list Flow.t :=
  match l with
  | [] => [f]
  | g :: l' =>
      if Flow.ts_start f <=? Flow.ts_start g
      then f :: g :: l'
      else g :: insert_by_ts_start f l'
  end.

Definition order_by_ts_start (l : list Flow.t) : list Flow.t :=
  fold_right insert_by_ts_start [] l.

Definition tor_flows_query (session : models.Session) : list Flow.t :=
  order_by_ts_start (filter is_tor_related (models.flows session)).

(** [session.add(Correlation(...))]: the row gets the next key. *)
Definition add_correlation (flow1 flow2 : Flow.t) (weight : float)
           (evidence : Evidence) (session : models.Session) : models.Session :=
  let k := models.next_id (map Correlation.id (models.correlations session)) in
  let type :=
    match ev_get "type" evidence with
    | Some (EvStr t) => t
    | _ => "timing"
    end in
  models.mkTables (models.flows session) (models.tor_nodes session)
    (models.correlations session ++
     [Correlation.mk k (Flow.id flow1) (Flow.id flow2) weight type evidence]).

(** The body of the inner loop once the pair is inside the window: the
    weight is computed and the row is added when it reaches the minimum. *)
Definition correlate_pair (min_correlation_weight : float)
           (flow1 flow2 : Flow.t) (session : models.Session)
           (correlation_count : Z) : py.result (models.Session * Z) :=
  we <- _calculate_correlation flow1 flow2 session ;;
  let '(weight, evidence) := we in
  if PrimFloat.leb min_correlation_weight weight
  then py.Ok (add_correlation flow1 flow2 weight evidence session,
              correlation_count + 1)
  else py.Ok (session, correlation_count).

(** The inner loop over [tor_flows[i+1:]]. *)
Fixpoint inner_loop (self : CorrelationEngine) (min_correlation_weight : float)
         (internal_ips : list string) (flow1 : Flow.t) (rest : list Flow.t)
         (session : models.Session) (correlation_count : Z)
  : py.result (models.Session * Z) :=
  match rest with
  | [] => py.Ok (session, correlation_count)
  | flow2 :: rest' =>
      internal2 <- _is_internal_ip (Flow.src_ip flow2) (Some internal_ips) ;;
      if negb internal2
      then inner_loop self min_correlation_weight internal_ips flow1 rest'
             session correlation_count
      else
        let time_diff := time_diff_seconds flow1 flow2 in
        if PrimFloat.ltb (py.total_seconds (time_window self)) time_diff
        then py.Ok (session, correlation_count)
        else
          sc <- correlate_pair min_correlation_weight flow1 flow2 session
                  correlation_count ;;
          inner_loop self min_correlation_weight internal_ips flow1 rest'
            (fst sc) (snd sc)
  end.

(** The outer loop over [enumerate(tor_flows)]. *)
Fixpoint outer_loop (self : CorrelationEngine) (min_correlation_weight : float)
         (internal_ips : list string) (tor_flows : list Flow.t)
         (session : models.Session) (correlation_count : Z)
  : py.result (models.Session * Z) :=
  match tor_flows with
  | [] => py.Ok (session, correlation_count)
  | flow1 :: rest =>
      internal1 <- _is_internal_ip (Flow.src_ip flow1) (Some internal_ips) ;;
      if negb internal1
      then outer_loop self min_correlation_weight internal_ips rest session
             correlation_count
      else
        sc <- inner_loop self min_correlation_weight internal_ips flow1 rest
                session correlation_count ;;
        outer_loop self min_correlation_weight internal_ips rest
          (fst sc) (snd sc)
  end.

(** [CorrelationEngine.correlate_flows]. *)
Definition correlate_flows (self : CorrelationEngine)
           (min_correlation_weight : float)
  : py.result Z * CorrelationEngine :=
  let '(session, db1) := models.get_session (db_manager self) in
  let correlation_count := 0 in
  let tor_flows := tor_flows_query session in
  match (internal_ips <- _get_internal_ips session ;;
         outer_loop self min_correlation_weight internal_ips tor_flows
           session correlation_count) with
  | py.Ok (session1, n) =>
      (py.Ok n,
       mkCorrelationEngine (models.close (models.commit session1 db1))
         (time_window self))
  | py.Raise e =>
      let _session := models.rollback db1 in
      (py.Raise e, mkCorrelationEngine (models.close db1) (time_window self))
  end.

(** [CorrelationEngine.get_flow_correlations], as a query on a session. *)
Definition correlations_of (session : models.Session) (flow_id : Z)
  : list Correlation.t :=
  filter (fun c => (Correlation.flow_id c =? flow_id)
                   || (Correlation.correlated_flow_id c =? flow_id))
    (models.correlations session).

End correlation_engine.

(* ================================================================= *)
(** * [scorer/confidence.py]: confidence scoring *)

Module confidence.

(** [ScoreComponents]. *)
Record ScoreComponents : Type := mkScoreComponents {
  tor_node_match : float;
  timing_correlation : float;
  payload_similarity : float;
  unusual_patterns : float;
  total : float
}.

(** [ConfidenceScorer.WEIGHTS]. *)
Definition WEIGHTS_tor_node_match : Z := 40.
Definition WEIGHTS_timing_correlation : Z := 30.
Definition WEIGHTS_payload_similarity : Z := 20.
Definition WEIGHTS_unusual_patterns : Z := 10.

(** [ConfidenceScorer.CATEGORIES], in the order of the dictionary. *)
Definition CATEGORIES : list (string * (Z * Z)) :=
  [ ("Low", (0, 30)); ("Medium", (30, 60)); ("High", (60, 85));
    ("Critical", (85, 100)) ].

(** [ConfidenceScorer]. *)
Record ConfidenceScorer : Type := mkConfidenceScorer {
  db_manager : models.DatabaseManager
}.

(** [score += max_score * factor] under a condition. *)
Definition add_if (cond : bool) (max_score : Z) (factor : float) (score : float)
  : float :=
  if cond
  then PrimFloat.add score (PrimFloat.mul (py.float_of_int max_score) factor)
  else score.

Definition flag_in (flag : string) (flags : option (list string)) : bool :=
  match flags with
  | Some l => py.contains flag l
  | None => false
  end.

(** [ConfidenceScorer._score_tor_node_match]. *)
Definition _score_tor_node_match (flow : Flow.t) (session : models.Session)
  : float :=
  let score := 0%float in
  let max_score := WEIGHTS_tor_node_match in
  let tor_node := models.tor_node_by_ip session (Flow.dst_ip flow) in
  let score :=
    match tor_node with
    | Some n =>
        let score := add_if true max_score 0.5%float score in
        if correlation_engine.has_flags n then
          let score := add_if (flag_in "Guard" (TorNode.flags n)) max_score 0.2%float score in
          let score := add_if (flag_in "Exit" (TorNode.flags n)) max_score 0.2%float score in
          add_if (flag_in "Fast" (TorNode.flags n)) max_score 0.1%float score
        else score
    | None => score
    end in
  let score := add_if (Flow.relay_comm flow) max_score 0.3%float score in
  let score := add_if (Flow.directory_fetch flow) max_score 0.2%float score in
  let score := add_if (Flow.possible_tor_handshake flow) max_score 0.3%float score in
  let score := add_if (Flow.obfsproxy_candidate flow) max_score 0.4%float score in
  py.min score (py.float_of_int max_score).

(** [ConfidenceScorer._score_timing_correlation]. *)
Definition _score_timing_correlation (flow : Flow.t) (session : models.Session)
  : float :=
  let max_score := py.float_of_int WEIGHTS_timing_correlation in
  let correlations := correlation_engine.correlations_of session (Flow.id flow) in
  match correlations with
  | [] => 0%float
  | _ :: _ =>
      let total_weight := py.sum (map Correlation.correlation_weight correlations) in
      let correlation_count := Z.of_nat (List.length correlations) in
      let count_score :=
        if 5 <=? correlation_count then PrimFloat.mul max_score 0.5%float
        else if 3 <=? correlation_count then PrimFloat.mul max_score 0.3%float
        else if 1 <=? correlation_count then PrimFloat.mul max_score 0.2%float
        else 0%float in
      let avg_weight :=
        if 0 <? correlation_count
        then PrimFloat.div total_weight (py.float_of_int correlation_count)
        else 0%float in
      let weight_score :=
        PrimFloat.mul (PrimFloat.mul avg_weight max_score) 0.5%float in
      let score := PrimFloat.add count_score weight_score in
      py.min score max_score
  end.

(** [ConfidenceScorer._score_payload_patterns]. *)
Definition _score_payload_patterns (flow : Flow.t) : float :=
  let score := 0%float in
  let max_score := WEIGHTS_payload_similarity in
  if negb (tor_extractor.has_payload flow) then 0%float
  else
    let score := add_if (Flow.possible_tor_handshake flow) max_score 0.6%float score in
    let score := add_if (Flow.obfsproxy_candidate flow) max_score 0.8%float score in
    let score := add_if (10000 <? Flow.byte_count flow) max_score 0.2%float score in
    py.min score (py.float_of_int max_score).

(** [ConfidenceScorer._score_unusual_patterns]. *)
Definition _score_unusual_patterns (flow : Flow.t) : float :=
  let score := 0%float in
  let max_score := WEIGHTS_unusual_patterns in
  let score :=
    add_if (existsb (Z.eqb (Flow.dst_port flow)) [9001; 9030; 9050; 9051; 9150])
      max_score 0.5%float score in
  let score := add_if (100 <? Flow.pkt_count flow) max_score 0.3%float score in
  let score :=
    match Flow.ts_end flow with
    | Some ts_end =>
        let duration := py.total_seconds (ts_end - Flow.ts_start flow) in
        add_if (PrimFloat.ltb 60%float duration) max_score 0.2%float score
    | None => score
    end in
  py.min score (py.float_of_int max_score).

(** [ConfidenceScorer._calculate_score]. *)
Definition _calculate_score (flow : Flow.t) (session : models.Session)
  : ScoreComponents :=
  let c1 := _score_tor_node_match flow session in
  let c2 := _score_timing_correlation flow session in
  let c3 := _score_payload_patterns flow in
  let c4 := _score_unusual_patterns flow in
  let total :=
    PrimFloat.add (PrimFloat.add (PrimFloat.add c1 c2) c3) c4 in
  let total := py.max 0%float (py.min 100%float total) in
  mkScoreComponents c1 c2 c3 c4 total.

(** [ConfidenceScorer._get_category]. *)
Fixpoint category_loop (items : list (string * (Z * Z))) (score : float)
  : string :=
  match items with
  | [] => "Critical"
  | (category, (min_score, max_score)) :: rest =>
      if PrimFloat.leb (py.float_of_int min_score) score
         && PrimFloat.ltb score (py.float_of_int max_score)
      then category
      else category_loop rest score
  end.

Definition _get_category (score : float) : string :=
  category_loop CATEGORIES score.

(** [ConfidenceScorer.score_all_flows]. *)
Definition score_one (session : models.Session) (flow : Flow.t) : Flow.t :=
  let score_components := _calculate_score flow session in
  Flow.set_confidence flow (total score_components)
    (_get_category (total score_components)).

Definition score_all_flows (self : ConfidenceScorer) : Z * ConfidenceScorer :=
  let '(session, db1) := models.get_session (db_manager self) in
  let flows := models.flows session in
  let session1 :=
    models.mkTables (map (score_one session) flows)
      (models.tor_nodes session) (models.correlations session) in
  let scored_count := Z.of_nat (List.length flows) in
  (scored_count,
   mkConfidenceScorer (models.close (models.commit session1 db1))).

(** [ConfidenceScorer.score_flow]: the session is closed on both exits. *)
Definition score_flow (self : ConfidenceScorer) (flow_id : Z)
  : py.result (float * ScoreComponents) * ConfidenceScorer :=
  let '(session, db1) := models.get_session (db_manager self) in
  match models.flow_by_id session flow_id with
  | py.Raise e => (py.Raise e, mkConfidenceScorer (models.close db1))
  | py.Ok None =>
      (py.Raise (py.ValueError ("Flow " ++ py.str flow_id ++ " not found")%string),
       mkConfidenceScorer (models.close db1))
  | py.Ok (Some flow) =>
      let score_components := _calculate_score flow session in
      (py.Ok (total score_components, score_components),
       mkConfidenceScorer (models.close db1))
  end.

End confidence.

(* ================================================================= *)
(** * The rules of the specification, as it words them *)

Module spec.

(** Payload patterns: start at 0, +12 if [possible_handshake], +16 if
    [obfuscated_candidate], +4 if [byte_count > 10000], clamp to 20. *)
Definition payload_component (flow : Flow.t) : float :=
  let s := 0%float in
  let s := PrimFloat.add s (if Flow.possible_tor_handshake flow then 12%float else 0%float) in
  let s := PrimFloat.add s (if Flow.obfsproxy_candidate flow then 16%float else 0%float) in
  let s := PrimFloat.add s (if 10000 <? Flow.byte_count flow then 4%float else 0%float) in
  py.min s 20%float.

(** No marker of rule R5 occurs in the first 100 bytes. *)
Definition no_marker (payload : py.bytes) : bool :=
  forallb (fun marker => negb (py.bytes_contains (firstn 100 payload) marker))
    [ py.b "HTTP/"; py.b "GET "; py.b "POST "; py.b "SSH-"; py.b "220 ";
      py.b "CONNECT" ].

(** Rule R5: length at least 100, no marker in the first 100 bytes, more
    than 50 distinct byte values among them. *)
Definition R5 (payload : py.bytes) : bool :=
  (100 <=? Z.of_nat (List.length payload))
  && no_marker payload
  && (50 <? py.distinct_count (firstn 100 payload)).

(** Rule R5 with the length bound the classifier applies: more than 100. *)
Definition R5_strict (payload : py.bytes) : bool :=
  (100 <? Z.of_nat (List.length payload))
  && no_marker payload
  && (50 <? py.distinct_count (firstn 100 payload)).

(** Timing proximity: 0.4 if under 1 second, 0.3 if under 5, 0.2 if under
    10, else 0.1. *)
Definition timing (dt : float) : float :=
  if PrimFloat.ltb dt 1%float then 0.4%float
  else if PrimFloat.ltb dt 5%float then 0.3%float
  else if PrimFloat.ltb dt 10%float then 0.2%float
  else 0.1%float.

(** [w + x] when [cond] holds, [w] otherwise. *)
Definition plus_when (cond : bool) (x : float) (w : float) : float :=
  if cond then PrimFloat.add w x else w.

(** The correlation weight: [t], + 0.3 when the entry/exit pattern matches,
    + 0.2 * ratio when a ratio of mean packet sizes is computed, + 0.1 when
    the two flows have the same source address. *)
Definition weight (dt : float) (entry_exit : bool) (ratio : option float)
           (same_source : bool) : float :=
  let w := timing dt in
  let w := plus_when entry_exit 0.3%float w in
  let w := match ratio with
           | Some r => PrimFloat.add w (PrimFloat.mul 0.2%float r)
           | None => w
           end in
  plus_when same_source 0.1%float w.

(** The flags of a relay node contain [flag]. *)
Definition has_flag (flag : string) (n : TorNode.t) : bool :=
  match TorNode.flags n with
  | Some l => py.contains flag l
  | None => false
  end.

(** The entry/exit pattern: (i) the destination of [a] is a relay node
    whose flags contain Guard and the destination of [c] is a relay node
    whose flags contain Exit, or (ii) the destination of [a] is a relay
    node and the destination of [c] is not. *)
Definition entry_exit (session : models.Session) (a c : Flow.t) : bool :=
  let relay_a := models.tor_node_by_ip session (Flow.dst_ip a) in
  let relay_c := models.tor_node_by_ip session (Flow.dst_ip c) in
  match relay_a, relay_c with
  | Some na, Some nc => has_flag "Guard" na && has_flag "Exit" nc
  | _, _ => false
  end
  ||
  match relay_a, relay_c with
  | Some _, None => true
  | _, _ => false
  end.

(** [min(avg_a, avg_b) / max(avg_a, avg_b)] with [avg = byte_count /
    pkt_count], when both packet counts are positive. *)
Definition size_ratio (a c : Flow.t) : option (py.result float) :=
  if (0 <? Flow.pkt_count a) && (0 <? Flow.pkt_count c) then
    let avg_a := py.int_truediv (Flow.byte_count a) (Flow.pkt_count a) in
    let avg_c := py.int_truediv (Flow.byte_count c) (Flow.pkt_count c) in
    Some (py.float_div (py.min avg_a avg_c) (py.max avg_a avg_c))
  else None.

(** The 5-tuples of the parseable packets of a capture, in order. *)
Definition parseable_keys (pcap : list pcap_ingest.Packet)
  : list pcap_ingest.FlowKey :=
  flat_map (fun p => match pcap_ingest.packet_key p with
                     | Some k => [k]
                     | None => []
                     end) pcap.

Definition FlowKey_eq_dec (a c : pcap_ingest.FlowKey) : {a = c} + {a <> c}.
Proof.
  decide equality; try apply Z.eq_dec; apply string_dec.
Defined.

(** [K]: the number of distinct directional 5-tuples of a capture. *)
Definition K (pcap : list pcap_ingest.Packet) : Z :=
  Z.of_nat (List.length (nodup FlowKey_eq_dec (parseable_keys pcap))).

(** [M]: the number of parseable packets of a capture. *)
Definition M (pcap : list pcap_ingest.Packet) : Z :=
  Z.of_nat (List.length (parseable_keys pcap)).

(** The 5-tuple of a persisted flow. *)
Definition key_of (f : Flow.t) : pcap_ingest.FlowKey :=
  pcap_ingest.mkFlowKey (Flow.src_ip f) (Flow.src_port f) (Flow.dst_ip f)
    (Flow.dst_port f) (Flow.protocol f).

Definition total_pkt_count (rows : list Flow.t) : Z :=
  fold_right Z.add 0 (map Flow.pkt_count rows).

End spec.

(* ================================================================= *)
(** * Fixtures: the scenarios of the specification and of the tests *)

Module fixtures.

Definition empty_db : models.DatabaseManager :=
  models.mkDB models.empty_tables 0.

(** A flow row with no payload, no indicator and no score. *)
Definition plain_flow (k : Z) (src : string) (sport : Z) (dst : string)
           (dport : Z) (ts te : Z) (pkts bytes : Z) : Flow.t :=
  Flow.mk k src sport dst dport "TCP" ts (Some te) pkts bytes None
    false false false false 0%float None.

(** ** Scenario 1: one relay connection

    One TCP flow 192.168.1.100:50000 -> 185.220.101.1:9001 of 100 packets
    of 100 bytes each, 100 ms apart, no payload; the directory holds
    185.220.101.1 with flags Guard, Fast, Stable. *)

Definition relay_packet (sport : Z) (t : Z) (size : positive)
  : pcap_ingest.Packet :=
  pcap_ingest.mkPacket (Some ("192.168.1.100", "185.220.101.1")) None
    (Some (sport, 9001)) None None t size.

Definition scenario1_capture : list pcap_ingest.Packet :=
  map (fun i => relay_packet 50000 (1700000000000000 + Z.of_nat i * 100000) 100)
    (seq 0 100).

Definition scenario1_directory : list tor_extractor.NodeData :=
  [ tor_extractor.mkNodeData (Some "185.220.101.1") None None None
      (Some ["Guard"; "Fast"; "Stable"]) None None None ].

Definition scenario1_ingested : models.DatabaseManager :=
  pcap_ingest.db_manager
    (snd (pcap_ingest.ingest_pcap
            (pcap_ingest.PcapIngestor_init empty_db 1000)
            scenario1_capture true)).

Definition scenario1_extractor : tor_extractor.TorExtractor :=
  snd (tor_extractor.TorExtractor_init scenario1_ingested
         (Some scenario1_directory)).

Definition scenario1_classified : models.DatabaseManager :=
  match tor_extractor.analyze_flows scenario1_extractor 100 with
  | Some (_, ex) => tor_extractor.db_manager ex
  | None => scenario1_ingested
  end.

Definition scenario1_scorer : confidence.ConfidenceScorer :=
  confidence.mkConfidenceScorer scenario1_classified.

(** ** A flow without payload and more than 10000 bytes *)

Definition bulky_flow : Flow.t :=
  plain_flow 1 "192.168.1.100" 50000 "8.8.8.8" 443 0 1000000 20 20000.

(** ** Payloads of high byte diversity *)

(** [n] bytes of values 128, 129, ... *)
Definition high_bytes (n : nat) : py.bytes :=
  map (fun i => base64.byte_of_Z (Z.of_nat i)) (seq 128 n).

Definition flow_with_payload (payload : py.bytes) : Flow.t :=
  Flow.mk 1 "192.168.1.100" 50000 "8.8.8.8" 443 "TCP" 0 (Some 1000000)
    10 2000 (Some (base64.b64encode payload))
    false false false false 0%float None.

Definition bare_extractor : tor_extractor.TorExtractor :=
  tor_extractor.mkTorExtractor empty_db [].

(** ** A source address that is not an address *)

Definition malformed_ip : string := "172.x.1.1".

Definition malformed_db : models.DatabaseManager :=
  models.mkDB
    (models.mkTables
       [ Flow.set_relay_comm
           (plain_flow 1 malformed_ip 50000 "185.220.101.1" 9001 0 1000000 10 1000)
           true ]
       [] [])
    0.

(** ** A store of one scored flow *)

Definition one_flow_db : models.DatabaseManager :=
  models.mkDB
    (models.mkTables
       [ plain_flow 1 "192.168.1.100" 50000 "185.220.101.1" 9001 0 1000000 100 10000 ]
       [] [])
    0.

(** ** A directory reload onto a known address *)

Definition guard_node : TorNode.t :=
  TorNode.mk 1 "185.220.101.1" 9001 (Some "ABC123") (Some "TestRelay")
    (Some ["Guard"; "Fast"; "Stable"]) (Some "DE") (Some "AS1") (Some 1000).

Definition directory_db : models.DatabaseManager :=
  models.mkDB (models.mkTables [] [guard_node] []) 0.

Definition reload_record : tor_extractor.NodeData :=
  tor_extractor.mkNodeData (Some "185.220.101.1") (Some 443) (Some "DEF456")
    (Some "Renamed") (Some ["Exit"]) (Some "NL") (Some "AS2") (Some 5000).

Definition fresh_record : tor_extractor.NodeData :=
  tor_extractor.mkNodeData (Some "171.25.193.9") (Some 80) (Some "FFF000")
    (Some "Other") (Some ["Exit"]) (Some "SE") (Some "AS3") (Some 7000).

Definition directory_extractor : tor_extractor.TorExtractor :=
  tor_extractor.mkTorExtractor directory_db ["185.220.101.1"].

(** ** Two packets of one flow, the second captured earlier *)

Definition out_of_order_capture : list pcap_ingest.Packet :=
  [ relay_packet 50000 10000000 60; relay_packet 50000 5000000 60 ].

(** ** Two packets of one flow, in order *)

Definition two_packet_capture : list pcap_ingest.Packet :=
  [ relay_packet 50000 10000000 60; relay_packet 50000 20000000 60 ].

(** ** Scenario 2: an entry/exit pair

    Two flows from 192.168.1.100 that start half a second apart, the first
    to the guard 185.220.101.1, the second to 8.8.8.8:443; both carry an
    indicator. *)

Definition entry_flow : Flow.t :=
  Flow.set_relay_comm
    (plain_flow 1 "192.168.1.100" 50000 "185.220.101.1" 9001 0 1000000 10 1000)
    true.

Definition exit_flow : Flow.t :=
  Flow.set_relay_comm
    (plain_flow 2 "192.168.1.100" 50001 "8.8.8.8" 443 500000 1500000 10 1000)
    true.

Definition scenario2_tables : models.Tables :=
  models.mkTables [entry_flow; exit_flow] [guard_node] [].

Definition scenario2_db : models.DatabaseManager :=
  models.mkDB scenario2_tables 0.

Definition scenario2_engine : correlation_engine.CorrelationEngine :=
  correlation_engine.CorrelationEngine_init scenario2_db 10.

(** ** Two rows with negative byte counts, which the column type admits *)

Definition negative_flow (k : Z) (sport : Z) (bytes : Z) : Flow.t :=
  Flow.set_relay_comm
    (plain_flow k "192.168.1.100" sport "185.220.101.1" 9001 0 1000000 1 bytes)
    true.

(** ** Two rows with packets and no bytes *)

Definition empty_flow (k : Z) (sport : Z) : Flow.t :=
  Flow.set_relay_comm
    (plain_flow k "192.168.1.100" sport "185.220.101.1" 9001 0 1000000 1 0)
    true.

(** ** Scenario 6: two flows that start eleven seconds apart *)

Definition late_exit_flow : Flow.t :=
  Flow.set_relay_comm
    (plain_flow 2 "192.168.1.100" 50001 "8.8.8.8" 443 11000000 12000000 10 1000)
    true.

Definition scenario6_engine : correlation_engine.CorrelationEngine :=
  correlation_engine.CorrelationEngine_init
    (models.mkDB (models.mkTables [entry_flow; late_exit_flow] [guard_node] []) 0)
    10.

(** ** Scenario 3: a flow from a public address, then the entry flow *)

Definition public_flow : Flow.t :=
  Flow.set_relay_comm
    (plain_flow 3 "8.8.4.4" 40000 "185.220.101.1" 9001 0 1000000 10 1000)
    true.

Definition scenario3_engine : correlation_engine.CorrelationEngine :=
  correlation_engine.CorrelationEngine_init
    (models.mkDB
       (models.mkTables [entry_flow; exit_flow; public_flow] [guard_node] []) 0)
    10.

(** ** The fixtures of the unit tests *)

Definition test_key : pcap_ingest.FlowKey :=
  pcap_ingest.mkFlowKey "192.168.1.1" 5000 "10.0.0.1" 80 "TCP".

(** [sample_pcap] of [test_pcap_ingest.py]: ten TCP packets from ten source
    ports and five UDP packets from five source ports, each with a load. *)
Definition sample_pcap : list pcap_ingest.Packet :=
  map (fun i => pcap_ingest.mkPacket (Some ("192.168.1.100", "185.220.101.1"))
                  None (Some (50000 + Z.of_nat i, 9001)) None
                  (Some (py.b "TOR handshake data"))
                  (1700000000000000 + Z.of_nat i) 72)
      (seq 0 10)
  ++
  map (fun i => pcap_ingest.mkPacket (Some ("192.168.1.101", "8.8.8.8"))
                  None None (Some (60000 + Z.of_nat i, 53))
                  (Some (py.b "DNS query"))
                  (1700000000000010 + Z.of_nat i) 51)
      (seq 0 5).

(** [sample_flows] of [test_confidence.py]. *)
Definition sample_flows_db : models.DatabaseManager :=
  models.mkDB
    (models.mkTables
       [ Flow.mk 1 "192.168.1.100" 50000 "185.220.101.1" 9001 "TCP"
           1700000000000000 (Some 1700000010000000) 100 10000 None
           true true false false 0%float None;
         Flow.mk 2 "192.168.1.101" 50001 "8.8.8.8" 443 "TCP"
           1700000002000000 (Some 1700000012000000) 50 5000 None
           false false false false 0%float None ]
       [ TorNode.mk 1 "185.220.101.1" 9001 (Some "ABC123") (Some "TestRelay")
           (Some ["Guard"; "Fast"; "Stable"]) None None None ]
       [])
    0.

End fixtures.

(* ================================================================= *)
(** * Predicates used to state the properties *)

Module inv.

Definition addresses (s : models.Session) : list string :=
  map TorNode.ip_address (models.tor_nodes s).

(** [s'] is [s] with rows appended to the node table, addresses still
    unique if they were. *)
Definition extends (s s' : models.Session) : Prop :=
  models.flows s' = models.flows s /\
  models.correlations s' = models.correlations s /\
  (exists added, models.tor_nodes s' = models.tor_nodes s ++ added) /\
  (NoDup (addresses s) -> NoDup (addresses s')).

(** A relay row with its primary key left out. *)
Definition without_key (n : TorNode.t) : TorNode.t :=
  TorNode.mk 0 (TorNode.ip_address n) (TorNode.port n) (TorNode.fingerprint n)
    (TorNode.nickname n) (TorNode.flags n) (TorNode.country_code n)
    (TorNode.asn n) (TorNode.bandwidth n).

(** The snapshot record is for the address [ip]. *)
Definition has_address (ip : string) (node_data : tor_extractor.NodeData)
  : bool :=
  match tor_extractor.nd_ip_address node_data with
  | Some a => String.eqb a ip
  | None => false
  end.

(** A row written by a flush: the model of a record that satisfies [R],
    under the key the store gave it. *)
Definition persisted_from (R : pcap_ingest.FlowRecord -> Prop) (f : Flow.t)
  : Prop :=
  exists r k, f = Flow.set_id (pcap_ingest.to_flow_model r) k /\ R r.

(** The stored payload sample is absent, or it is text that decodes to at
    least one and at most [n] bytes. *)
Definition payload_within (n : nat) (f : Flow.t) : Prop :=
  Flow.payload_sample f = None \/
  exists sample p,
    Flow.payload_sample f = Some sample /\
    base64.b64decode sample = py.Ok p /\
    (1 <= List.length p <= n)%nat.

(** The packets come in non-decreasing order of the times stored. *)
Definition in_time_order (pcap : list pcap_ingest.Packet) : Prop :=
  StronglySorted Z.le (map pcap_ingest.time pcap).

(** The dictionary holds one accumulator per 5-tuple of [ks], filed under
    its own key, and their packet counts add up to the length of [ks]. *)
Definition tracks (ks : list pcap_ingest.FlowKey) (d : pcap_ingest.FlowDict)
  : Prop :=
  NoDup (map fst d) /\
  (forall k, In k (map fst d) <-> In k ks) /\
  Forall (fun kv => pcap_ingest.key (snd kv) = fst kv) d /\
  fold_right Z.add 0 (map pcap_ingest.pkt_count (pcap_ingest.values d)) =
    Z.of_nat (List.length ks).

(** What a correlation row says, its primary key apart. *)
Definition body (c : Correlation.t)
  : Z * Z * float * string * list (string * ev_value) :=
  (Correlation.flow_id c, Correlation.correlated_flow_id c,
   Correlation.correlation_weight c, Correlation.correlation_type c,
   Correlation.evidence c).

(** [s'] is [s] with [rows] appended to the correlation table. *)
Definition appended (s s' : models.Session) (rows : list Correlation.t) : Prop :=
  models.flows s' = models.flows s /\
  models.tor_nodes s' = models.tor_nodes s /\
  models.correlations s' = models.correlations s ++ rows.

(** Two sessions with the same flows and the same relay nodes. *)
Definition same_inputs (s s2 : models.Session) : Prop :=
  models.flows s2 = models.flows s /\ models.tor_nodes s2 = models.tor_nodes s.

(** Two runs of a loop of the correlator, from [(s, c)] and from [(s2, c2)],
    end alike: both raise the same exception, or both append rows that say
    the same and count them. *)
Definition agree (s : models.Session) (c : Z) (s2 : models.Session) (c2 : Z)
           (r r2 : py.result (models.Session * Z)) : Prop :=
  match r, r2 with
  | py.Ok (s', c'), py.Ok (s2', c2') =>
      exists rows rows2,
        appended s s' rows /\ appended s2 s2' rows2 /\
        map body rows = map body rows2 /\
        c' = c + Z.of_nat (List.length rows) /\
        c2' = c2 + Z.of_nat (List.length rows2)
  | py.Raise e, py.Raise e2 => e = e2
  | _, _ => False
  end.

(** The bit fields of one byte. *)
Definition byte_fields_ok (x : byte) : bool :=
  let X := base64.Z_of_byte x in
  (0 <=? Z.shiftr X 2) && (Z.shiftr X 2 <? 64) &&
  (0 <=? Z.land X 3) && (Z.land X 3 <? 4) &&
  (0 <=? Z.shiftr X 4) && (Z.shiftr X 4 <? 16) &&
  (0 <=? Z.land X 15) && (Z.land X 15 <? 16) &&
  (0 <=? Z.shiftr X 6) && (Z.shiftr X 6 <? 4) &&
  (0 <=? Z.land X 63) && (Z.land X 63 <? 64) &&
  Byte.eqb (base64.byte_of_Z (Z.lor (Z.shiftl (Z.shiftr X 2) 2) (Z.land X 3))) x &&
  Byte.eqb (base64.byte_of_Z (Z.lor (Z.shiftl (Z.shiftr X 4) 4) (Z.land X 15))) x &&
  Byte.eqb (base64.byte_of_Z (Z.lor (Z.shiftl (Z.shiftr X 6) 6) (Z.land X 63))) x.

(** Two bit fields joined in one sextet, and taken apart again. *)
Definition join_ok (width mask : Z) (hi lo : Z) : bool :=
  let v := Z.lor (Z.shiftl hi width) lo in
  (0 <=? v) && (v <? 64) && (Z.shiftr v width =? hi) && (Z.land v mask =? lo).

(** [row] was made for a pair of the candidate flows whose computed weight
    reaches the minimum, and stores that weight and its evidence. *)
Definition row_of_pair (session : models.Session) (min_weight : float)
           (candidates : list Flow.t) (row : Correlation.t) : Prop :=
  exists a c w evidence,
    In a candidates /\ In c candidates /\
    correlation_engine._calculate_correlation a c session = py.Ok (w, evidence) /\
    PrimFloat.leb min_weight w = true /\
    Correlation.flow_id row = Flow.id a /\
    Correlation.correlated_flow_id row = Flow.id c /\
    Correlation.correlation_weight row = w /\
    Correlation.evidence row = evidence.

End inv.

(* ================================================================= *)
(** * Read-only queries of the scorer *)

Module confidence_queries.

Fixpoint insert_by_score_desc (f : Flow.t) (l : list Flow.t) : list Flow.t :=
  match l with
  | [] => [f]
  | g :: l' =>
      if PrimFloat.leb (Flow.confidence_score g) (Flow.confidence_score f)
      then f :: g :: l'
      else g :: insert_by_score_desc f l'
  end.

(** [ConfidenceScorer.get_high_confidence_flows]: the flows whose score is
    at least [min_score], highest score first. SQL leaves the order of rows
    with equal scores open; here they stay in key order. *)
Definition get_high_confidence_flows (self : confidence.ConfidenceScorer)
           (min_score : float) : list Flow.t * confidence.ConfidenceScorer :=
  let '(session, db1) := models.get_session (confidence.db_manager self) in
  let flows :=
    fold_right insert_by_score_desc []
      (filter (fun f => PrimFloat.leb min_score (Flow.confidence_score f))
         (models.flows session)) in
  (flows, confidence.mkConfidenceScorer (models.close db1)).

End confidence_queries.

(* ================================================================= *)
(** * Further predicates and functions used to state properties *)

Module props.

(** A comparison that says "below or equal". *)
Definition le_cmp (c : option comparison) : bool :=
  match c with Some Lt | Some Eq => true | _ => false end.

(** [x <= y] and [x < y] on floats, as propositions. *)
Definition fle (x y : float) : Prop := PrimFloat.leb x y = true.
Definition flt (x y : float) : Prop := PrimFloat.ltb x y = true.

(** The four labels of [ConfidenceScorer.CATEGORIES]. *)
Definition is_category (c : string) : Prop :=
  c = "Low" \/ c = "Medium" \/ c = "High" \/ c = "Critical".

(** Two flows that differ at most in their score and category. *)
Definition same_but_confidence (f g : Flow.t) : Prop :=
  exists score category, g = Flow.set_confidence f score category.

(** *** The conditions that [_analyze_flow] tests *)

Definition known_relay (self : tor_extractor.TorExtractor) (f : Flow.t) : bool :=
  py.contains (Flow.dst_ip f) (tor_extractor.tor_node_ips self).

Definition relay_port (f : Flow.t) : bool :=
  existsb (Z.eqb (Flow.dst_port f)) [9001; 9030; 9050; 9051; 9150].

Definition directory_port (f : Flow.t) : bool := Flow.dst_port f =? 9030.

(** The payload starts with 16 03 and holds 00 00 00 or 03 00 somewhere. *)
Definition handshake_pattern (payload : py.bytes) : bool :=
  py.bytes_startswith payload [x16; x03]
  && (py.bytes_contains payload [x00; x00; x00]
      || py.bytes_contains payload [x03; x00]).

(** The payload that the classifier gets to test: the decoded sample, when
    there is a non-empty one that decodes. *)
Definition decoded_payload (f : Flow.t) : option py.bytes :=
  match Flow.payload_sample f with
  | Some (String c sample) =>
      match base64.b64decode (String c sample) with
      | py.Ok payload => Some payload
      | py.Raise _ => None
      end
  | _ => None
  end.

Definition on_payload (rule : py.bytes -> bool) (f : Flow.t) : bool :=
  match decoded_payload f with
  | Some payload => rule payload
  | None => false
  end.

(** *** One classification pass over a table *)

Definition analysed (self : tor_extractor.TorExtractor) (flows : list Flow.t)
  : list Flow.t :=
  map (fun f => fst (tor_extractor._analyze_flow self f)) flows.

Definition hits (self : tor_extractor.TorExtractor) (flows : list Flow.t) : Z :=
  Z.of_nat
    (List.length (filter (fun f => snd (tor_extractor._analyze_flow self f)) flows)).

(** *** Rows written by a correlation pass *)

(** The order of the correlator's query. *)
Definition by_ts_start (a c : Flow.t) : Prop := Flow.ts_start a <= Flow.ts_start c.

(** [a] comes before [c] in [l]. *)
Definition precedes (a c : Flow.t) (l : list Flow.t) : Prop :=
  exists l1 l2, l = l1 ++ a :: l2 /\ In c l2.

(** The source address passes the prefix test of [_is_internal_ip]. *)
Definition private_source (f : Flow.t) : Prop :=
  correlation_engine._is_internal_ip (Flow.src_ip f) None = py.Ok true.

(** The rows got their keys one after the other, each the next key of the
    table as it was then. *)
Fixpoint keyed_in_turn (old rows : list Correlation.t) : Prop :=
  match rows with
  | [] => True
  | r :: rows' =>
      Correlation.id r = models.next_id (map Correlation.id old) /\
      keyed_in_turn (old ++ [r]) rows'
  end.

(** [row] joins two of the flows [tor_flows], the earlier one first; both
    come from private addresses and start within the window. *)
Definition window_row (self : correlation_engine.CorrelationEngine)
           (tor_flows : list Flow.t) (row : Correlation.t) : Prop :=
  exists a c,
    precedes a c tor_flows /\
    Correlation.flow_id row = Flow.id a /\
    Correlation.correlated_flow_id row = Flow.id c /\
    private_source a /\ private_source c /\
    Flow.ts_start a <= Flow.ts_start c /\
    PrimFloat.ltb (py.total_seconds (correlation_engine.time_window self))
      (correlation_engine.time_diff_seconds a c) = false.

(** *** The pairs a correlation pass looks at *)

(** The prefix test answers [True] for the source address. *)
Definition is_private (f : Flow.t) : bool :=
  match correlation_engine._is_internal_ip (Flow.src_ip f) None with
  | py.Ok true => true
  | _ => false
  end.

(** [c] starts more than the window (in microseconds) away from [a]. *)
Definition outside (window : Z) (a c : Flow.t) : bool :=
  PrimFloat.ltb (py.total_seconds window)
    (correlation_engine.time_diff_seconds a c).

(** The partners of [a] among the flows after it: those from a private
    source, up to the first of them that is outside the window. *)
Fixpoint partners (window : Z) (a : Flow.t) (rest : list Flow.t)
  : list Flow.t :=
  match rest with
  | [] => []
  | c :: rest' =>
      if is_private c
      then if outside window a c then [] else c :: partners window a rest'
      else partners window a rest'
  end.

(** The pairs of a list of flows: each flow from a private source with
    each of its partners. *)
Fixpoint candidate_pairs (window : Z) (tor_flows : list Flow.t)
  : list (Flow.t * Flow.t) :=
  match tor_flows with
  | [] => []
  | a :: rest =>
      (if is_private a then map (pair a) (partners window a rest) else [])
      ++ candidate_pairs window rest
  end.

(** What the row of a pair says: the two keys, the weight, the type named
    by the evidence or [timing], and the evidence. *)
Definition pair_body (a c : Flow.t) (weight : float)
           (evidence : correlation_engine.Evidence)
  : Z * Z * float * string * list (string * ev_value) :=
  (Flow.id a, Flow.id c, weight,
   match correlation_engine.ev_get "type" evidence with
   | Some (EvStr t) => t
   | _ => "timing"
   end,
   evidence).

(** The rows due for a list of pairs: one for each pair whose weight is
    computed and reaches the minimum, in the order of the pairs. *)
Definition rows_due (min_weight : float) (session : models.Session)
           (pairs : list (Flow.t * Flow.t))
  : list (Z * Z * float * string * list (string * ev_value)) :=
  flat_map
    (fun ac =>
       match correlation_engine._calculate_correlation (fst ac) (snd ac) session with
       | py.Ok (weight, evidence) =>
           if PrimFloat.leb min_weight weight
           then [pair_body (fst ac) (snd ac) weight evidence]
           else []
       | py.Raise _ => []
       end)
    pairs.

(** *** What the collector accumulates for a 5-tuple *)

(** The packets of a capture that [process_packet] files under [k]. *)
Definition packets_of (k : pcap_ingest.FlowKey) (pcap : list pcap_ingest.Packet)
  : list pcap_ingest.Packet :=
  filter (fun p => match pcap_ingest.packet_key p with
                   | Some k' => pcap_ingest.FlowKey_eq k' k
                   | None => false
                   end) pcap.

(** The first non-empty load among the packets, cut to 512 bytes. *)
Definition first_sample (ps : list pcap_ingest.Packet) : option py.bytes :=
  match find (fun p => pcap_ingest.truthy (pcap_ingest.Raw p)) ps with
  | Some p => option_map (py.slice_to 512) (pcap_ingest.Raw p)
  | None => None
  end.

(** The record of a flow with packets [ps], in capture order: it starts
    with the first packet and ends with the last, counts the packets and
    adds up their lengths. *)
Definition summary (k : pcap_ingest.FlowKey) (ps : list pcap_ingest.Packet)
  : option pcap_ingest.FlowRecord :=
  match ps with
  | [] => None
  | p0 :: _ =>
      Some (pcap_ingest.mkFlowRecord k
              (pcap_ingest.time p0)
              (pcap_ingest.time (last ps p0))
              (Z.of_nat (List.length ps))
              (fold_right Z.add 0 (map (fun p => Z.pos (pcap_ingest.len p)) ps))
              (first_sample ps))
  end.

(** The dictionary after the packets [seen]: one summary per 5-tuple. *)
Definition summarises (seen : list pcap_ingest.Packet) (d : pcap_ingest.FlowDict)
  : Prop :=
  NoDup (map fst d) /\
  (forall k, ~ In k (map fst d) -> packets_of k seen = []) /\
  Forall (fun kv => summary (fst kv) (packets_of (fst kv) seen) = Some (snd kv)) d.

(** A row as the collector writes it: no indicator, no score. *)
Definition unclassified (f : Flow.t) : Prop :=
  Flow.possible_tor_handshake f = false /\ Flow.relay_comm f = false /\
  Flow.directory_fetch f = false /\ Flow.obfsproxy_candidate f = false /\
  Flow.confidence_score f = 0%float /\ Flow.confidence_category f = None.

(** [db'] is [db] with rows appended to the flow table: unclassified
    rows under keys that keep the primary key unique. *)
Definition rows_added (db db' : models.DatabaseManager) : Prop :=
  models.tor_nodes (models.committed db') = models.tor_nodes (models.committed db) /\
  models.correlations (models.committed db') =
    models.correlations (models.committed db) /\
  models.open_sessions db' = models.open_sessions db /\
  exists added,
    models.flows (models.committed db') =
      models.flows (models.committed db) ++ added /\
    Forall unclassified added /\
    (NoDup (map Flow.id (models.flows (models.committed db))) ->
     NoDup (map Flow.id (models.flows (models.committed db')))).

End props.

(* ================================================================= *)
(** * Further sample data *)

Module samples.

(** A flow to a resolver whose stored sample is not base64: one data
    character cannot be decoded. *)
Definition undecodable_flow : Flow.t :=
  Flow.mk 3 "192.168.1.100" 50002 "8.8.8.8" 9030 "TCP" 0 (Some 1000000)
    10 2000 (Some "A") false false false false 0%float None.

(** A payload that opens like a TLS record and holds 03 00. *)
Definition hello_payload : py.bytes := [x16; x03; x01; x03; x00; x2a].

Definition hello_flow : Flow.t :=
  Flow.mk 4 "192.168.1.100" 50003 "8.8.8.8" 443 "TCP" 0 (Some 1000000)
    10 2000 (Some (base64.b64encode hello_payload))
    false false false false 0%float None.

(** Three flows: one to a relay port, one to a resolver, one to the
    directory port. *)
Definition three_flows_db : models.DatabaseManager :=
  models.mkDB
    (models.mkTables
       [ fixtures.plain_flow 1 "192.168.1.100" 50000 "185.220.101.1" 9001
           0 1000000 10 1000;
         fixtures.plain_flow 2 "192.168.1.100" 50001 "8.8.8.8" 53
           1000000 2000000 10 1000;
         fixtures.plain_flow 3 "192.168.1.101" 50002 "171.25.193.9" 9030
           2000000 3000000 10 1000 ]
       [] [])
    0.

Definition three_flows_extractor : tor_extractor.TorExtractor :=
  tor_extractor.mkTorExtractor three_flows_db [].

(** A snapshot record without an address, after a good one. *)
Definition nameless_record : tor_extractor.NodeData :=
  tor_extractor.mkNodeData None (Some 9001) None (Some "NoAddress") None
    None None None.

(** A flow without any indicator whose source address starts like a
    private one and has no number in second place. *)
Definition unmarked_bad_source_db : models.DatabaseManager :=
  models.mkDB
    (models.mkTables
       [ fixtures.entry_flow; fixtures.exit_flow;
         fixtures.plain_flow 9 "172.x.1.1" 40000 "8.8.8.8" 53 0 1000000 1 60 ]
       (models.tor_nodes fixtures.scenario2_tables) [])
    0.

(** A relay row whose [flags] column is NULL, beside a guard. *)
Definition flagless_node : TorNode.t :=
  TorNode.mk 2 "171.25.193.9" 443 None None None None None None.

Definition flagless_tables : models.Tables :=
  models.mkTables [] [fixtures.guard_node; flagless_node] [].

Definition to_guard : Flow.t :=
  fixtures.plain_flow 1 "192.168.1.100" 50000 "185.220.101.1" 9001
    0 1000000 10 1000.

Definition to_flagless : Flow.t :=
  fixtures.plain_flow 2 "192.168.1.100" 50001 "171.25.193.9" 443
    500000 1500000 10 1000.

(** Two flows from the public address 8.8.4.4 that start half a second
    apart, the first to the guard 185.220.101.1, the second to 8.8.8.8:443;
    both carry an indicator. *)
Definition public_entry : Flow.t :=
  Flow.set_relay_comm
    (fixtures.plain_flow 1 "8.8.4.4" 40000 "185.220.101.1" 9001
       0 1000000 10 1000)
    true.

Definition public_exit : Flow.t :=
  Flow.set_relay_comm
    (fixtures.plain_flow 2 "8.8.4.4" 40001 "8.8.8.8" 443
       500000 1500000 10 1000)
    true.

Definition public_pair_engine : correlation_engine.CorrelationEngine :=
  correlation_engine.CorrelationEngine_init
    (models.mkDB
       (models.mkTables [public_entry; public_exit] [fixtures.guard_node] []) 0)
    10.

End samples.

(* ================================================================= *)
(** * Properties *)

Unset Implicit Arguments.

(** ** Floating-point facts *)

Lemma SFmul_comm (x y : spec_float) :
  SFmul prec emax x y = SFmul prec emax y x.
Proof.
  destruct x as [sx|sx| |sx mx ex], y as [sy|sy| |sy my ey]; simpl;
    try reflexivity; try (rewrite (xorb_comm sx sy); reflexivity).
  rewrite (xorb_comm sx sy), (Pos.mul_comm mx my), (Z.add_comm ex ey).
  reflexivity.
Qed.

Lemma float_mul_comm (x y : float) : PrimFloat.mul x y = PrimFloat.mul y x.
Proof.
  apply Prim2SF_inj. rewrite !mul_spec. apply SFmul_comm.
Qed.

(** ** The scorer *)

Section Scorer.

Import confidence.

Lemma score_payload_patterns_no_payload (flow : Flow.t) :
  tor_extractor.has_payload flow = false ->
  _score_payload_patterns flow = 0%float.
Proof.
  intros H. unfold _score_payload_patterns. rewrite H. reflexivity.
Qed.

Lemma score_payload_patterns_with_payload (flow : Flow.t) :
  tor_extractor.has_payload flow = true ->
  _score_payload_patterns flow = spec.payload_component flow.
Proof.
  intros H. unfold _score_payload_patterns, spec.payload_component.
  rewrite H. simpl negb. cbv iota.
  destruct (Flow.possible_tor_handshake flow),
           (Flow.obfsproxy_candidate flow),
           (10000 <? Flow.byte_count flow); vm_compute; reflexivity.
Qed.

(** C6, as the code has it: a flow whose payload sample is absent or empty
    scores 0 on payload patterns; every other flow scores
    min(20, 12 if handshake + 16 if obfuscated + 4 if byte_count > 10000). *)
Theorem C6_score_payload_patterns (flow : Flow.t) :
  _score_payload_patterns flow =
  if tor_extractor.has_payload flow
  then spec.payload_component flow
  else 0%float.
Proof.
  destruct (tor_extractor.has_payload flow) eqn:H.
  - apply score_payload_patterns_with_payload; assumption.
  - apply score_payload_patterns_no_payload; assumption.
Qed.

(** The values of the formula over the three conditions. *)
Example payload_component_values :
  map (fun c : bool * bool * Z =>
         let '(h, o, n) := c in
         spec.payload_component
           (Flow.mk 1 "a" 1 "b" 2 "TCP" 0 None 1 n (Some "AA==") h false false o
              0%float None))
    [ (false, false, 10000); (false, false, 10001); (true, false, 10000);
      (true, false, 10001); (false, true, 10000); (false, true, 10001);
      (true, true, 10000); (true, true, 10001) ] =
  [ 0; 4; 12; 16; 16; 20; 20; 20 ]%float.
Proof. vm_compute. reflexivity. Qed.

(** C6 fails as stated: a flow without payload and with more than 10000
    bytes scores 0, where the formula gives 4. *)
Lemma C6_counterexample :
  tor_extractor.has_payload fixtures.bulky_flow = false /\
  (10000 <? Flow.byte_count fixtures.bulky_flow) = true /\
  spec.payload_component fixtures.bulky_flow = 4%float /\
  _score_payload_patterns fixtures.bulky_flow = 0%float /\
  PrimFloat.eqb (_score_payload_patterns fixtures.bulky_flow) 4%float = false.
Proof.
  repeat split; vm_compute; reflexivity.
Qed.

(** The categories are the half-open intervals of the table. *)
Example get_category_examples :
  _get_category 10%float = "Low" /\
  _get_category 30%float = "Medium" /\
  _get_category 45%float = "Medium" /\
  _get_category 70%float = "High" /\
  _get_category 90%float = "Critical" /\
  _get_category 100%float = "Critical".
Proof. repeat split; vm_compute; reflexivity. Qed.

(** C3, as the code has it: in scenario 1 the classified flow has
    [relay_comm] set and no handshake; the relay-node match is 40, the
    payload component 0, the timing component 0, the shape component 5
    (the relay port only: 100 packets are not more than 100), the total 45
    and the category Medium. *)
Theorem C3_scenario1_scores :
  (exists flow,
      models.flows (models.committed fixtures.scenario1_classified) = [flow] /\
      Flow.id flow = 1 /\
      Flow.src_ip flow = "192.168.1.100" /\ Flow.src_port flow = 50000 /\
      Flow.dst_ip flow = "185.220.101.1" /\ Flow.dst_port flow = 9001 /\
      Flow.pkt_count flow = 100 /\ Flow.byte_count flow = 10000 /\
      Flow.payload_sample flow = None /\
      Flow.relay_comm flow = true /\
      Flow.possible_tor_handshake flow = false) /\
  models.correlations (models.committed fixtures.scenario1_classified) = [] /\
  fst (score_flow fixtures.scenario1_scorer 1) =
    py.Ok (45%float, mkScoreComponents 40 0 0 5 45) /\
  _get_category 45%float = "Medium" /\
  map (fun f => (Flow.confidence_score f, Flow.confidence_category f))
    (models.flows
       (models.committed
          (db_manager (snd (score_all_flows fixtures.scenario1_scorer))))) =
    [(45%float, Some "Medium")].
Proof.
  split.
  - eexists. split; [vm_compute; reflexivity|].
    repeat split.
  - repeat split; vm_compute; reflexivity.
Qed.

(** C3 fails as stated: the shape component of scenario 1 is 5, not 8, and
    the total is 45, not 48. *)
Lemma C3_counterexample :
  match fst (score_flow fixtures.scenario1_scorer 1) with
  | py.Ok (score, components) =>
      unusual_patterns components = 5%float /\
      PrimFloat.eqb (unusual_patterns components) 8%float = false /\
      score = 45%float /\
      PrimFloat.eqb score 48%float = false
  | py.Raise _ => False
  end.
Proof.
  vm_compute. repeat split.
Qed.

(** Whatever the two timestamps of the flow of scenario 1 are, its shape
    component is 5 or 7. *)
Lemma scenario1_shape_any_duration (flow : Flow.t) :
  Flow.dst_port flow = 9001 ->
  Flow.pkt_count flow = 100 ->
  _score_unusual_patterns flow = 5%float \/
  _score_unusual_patterns flow = 7%float.
Proof.
  intros Hp Hn. unfold _score_unusual_patterns. rewrite Hp, Hn.
  destruct (Flow.ts_end flow) as [te|].
  - destruct (PrimFloat.ltb 60 (py.total_seconds (te - Flow.ts_start flow)));
      [right | left]; vm_compute; reflexivity.
  - left. vm_compute. reflexivity.
Qed.

(** C10, as the code has it: scoring a flow whose key is not in the store
    raises, closes the session it opened and leaves the committed tables as
    they were. For a key in the signed 64-bit range the error is
    [ValueError("Flow <id> not found")]; a key outside that range does not
    reach the test for a missing flow: binding it into the query raises
    [OverflowError]. *)
Theorem C10_score_flow_missing (self : ConfidenceScorer) (flow_id : Z) :
  ~ In flow_id (map Flow.id (models.flows (models.committed (db_manager self)))) ->
  (- 2 ^ 63 <= flow_id < 2 ^ 63 ->
   fst (score_flow self flow_id) =
     py.Raise (py.ValueError ("Flow " ++ py.str flow_id ++ " not found")%string)) /\
  (flow_id < - 2 ^ 63 \/ 2 ^ 63 <= flow_id ->
   fst (score_flow self flow_id) =
     py.Raise (py.OverflowError "Python int too large to convert to SQLite INTEGER")) /\
  models.committed (db_manager (snd (score_flow self flow_id))) =
    models.committed (db_manager self) /\
  models.open_sessions (db_manager (snd (score_flow self flow_id))) =
    models.open_sessions (db_manager self).
Proof.
  intros Hnot. unfold score_flow, models.get_session, models.flow_by_id.
  assert (Hfind : find (fun f => Flow.id f =? flow_id)
                    (models.flows (models.committed (db_manager self))) = None).
  { destruct (find _ _) as [f|] eqn:E; [|reflexivity].
    apply find_some in E. destruct E as [Hin Heq].
    apply Z.eqb_eq in Heq. exfalso. apply Hnot.
    rewrite <- Heq. apply in_map. assumption. }
  cbn [models.committed]. rewrite Hfind.
  unfold models.sqlite_int.
  destruct (- 2 ^ 63 <=? flow_id) eqn:Hlo; destruct (flow_id <? 2 ^ 63) eqn:Hhi;
    cbn [andb fst snd db_manager models.close models.committed
         models.open_sessions Nat.pred];
    (split; [intros Hin | split; [intros Hout | split; reflexivity]]);
    try reflexivity;
    exfalso; revert Hlo Hhi; rewrite ?Z.leb_le, ?Z.leb_gt, ?Z.ltb_lt, ?Z.ltb_ge;
    lia.
Qed.

Lemma C10_score_flow_missing_witness :
  ~ In 7 (map Flow.id (models.flows (models.committed fixtures.one_flow_db))) /\
  fst (score_flow (mkConfidenceScorer fixtures.one_flow_db) 7) =
    py.Raise (py.ValueError "Flow 7 not found").
Proof.
  assert (H : ~ In 7 (map Flow.id
                (models.flows (models.committed fixtures.one_flow_db)))).
  { cbn. intros [H|[]]. discriminate H. }
  split; [exact H|].
  apply (proj1 (C10_score_flow_missing
                  (mkConfidenceScorer fixtures.one_flow_db) 7 H)).
  lia.
Defined.

(** C10 fails as stated: the key 2^63 is not in the store, and scoring it
    raises [OverflowError], not the [ValueError] that names the flow. *)
Lemma C10_counterexample :
  (In (2 ^ 63)
      (map Flow.id (models.flows (models.committed fixtures.one_flow_db))) -> False) /\
  py.str (2 ^ 63) = "9223372036854775808" /\
  fst (score_flow (mkConfidenceScorer fixtures.one_flow_db) (2 ^ 63)) =
    py.Raise (py.OverflowError "Python int too large to convert to SQLite INTEGER") /\
  models.committed
    (db_manager (snd (score_flow (mkConfidenceScorer fixtures.one_flow_db) (2 ^ 63)))) =
    models.committed fixtures.one_flow_db.
Proof.
  split; [cbn; intros [H|[]]; discriminate H|].
  split; [vm_compute; reflexivity|]. split; reflexivity.
Qed.

End Scorer.

(** ** The classifier *)

Section Classifier.

Import tor_extractor.

Lemma existsb_negb_forallb {A : Type} (f : A -> bool) (l : list A) :
  existsb f l = negb (forallb (fun x => negb (f x)) l).
Proof.
  induction l as [|x l IH]; simpl; [reflexivity|].
  rewrite IH. destruct (f x); reflexivity.
Qed.

(** The obfuscation check fires exactly on payloads of more than 100 bytes
    without marker and with more than 50 distinct values in the first 100
    bytes. *)
Lemma check_obfsproxy_patterns_spec (payload : py.bytes) :
  _check_obfsproxy_patterns payload = spec.R5_strict payload.
Proof.
  unfold _check_obfsproxy_patterns, spec.R5_strict, spec.no_marker,
    common_markers, py.slice_to.
  rewrite existsb_negb_forallb, negb_involutive.
  set (clean := forallb _ _).
  set (diverse := 50 <? _).
  destruct (Z.of_nat (Datatypes.length payload) <? 20) eqn:Hshort.
  - apply Z.ltb_lt in Hshort.
    assert (Hl : (100 <? Z.of_nat (Datatypes.length payload)) = false)
      by (apply Z.ltb_ge; lia).
    rewrite Hl. reflexivity.
  - destruct (100 <? Z.of_nat (Datatypes.length payload)), clean, diverse;
      reflexivity.
Qed.

Lemma has_payload_set_indicators (f : Flow.t) (h r d o : bool) :
  has_payload (Flow.set_indicators f h r d o) = has_payload f.
Proof. reflexivity. Qed.

(** C8, as the code has it: for a flow whose payload sample decodes, the
    classifier sets [obfsproxy_candidate] exactly when the payload has more
    than 100 bytes, none of the markers occurs in its first 100 bytes and
    these hold more than 50 distinct values; it never clears the flag. *)
Theorem C8_obfsproxy_rule (self : TorExtractor) (flow : Flow.t)
        (sample : string) (payload : py.bytes) :
  Flow.payload_sample flow = Some sample ->
  base64.b64decode sample = py.Ok payload ->
  Flow.obfsproxy_candidate (fst (_analyze_flow self flow)) =
    Flow.obfsproxy_candidate flow || spec.R5_strict payload.
Proof.
  intros Hs Hd. rewrite <- check_obfsproxy_patterns_spec.
  unfold _analyze_flow.
  destruct (py.contains (Flow.dst_ip flow) (tor_node_ips self));
    destruct (existsb _ TOR_PORTS) eqn:Hports; cbn [Flow.dst_port Flow.set_relay_comm Flow.set_indicators] in *;
    try rewrite Hports;
    destruct (Flow.dst_port flow =? 9030) eqn:H9030; cbn [Flow.dst_port Flow.set_relay_comm Flow.set_indicators] in *;
    unfold has_payload, get;
    cbn [Flow.payload_sample Flow.set_relay_comm Flow.set_directory_fetch
         Flow.set_indicators];
    rewrite Hs;
    (destruct sample as [|c sample];
     [ vm_compute in Hd; injection Hd as <-; simpl; rewrite orb_false_r; reflexivity
     | rewrite Hd;
       destruct (py.bytes_startswith payload TLS_CLIENT_HELLO &&
                 existsb (fun pattern => py.bytes_contains payload pattern)
                   TOR_HANDSHAKE_PATTERNS);
       destruct (_check_obfsproxy_patterns payload); simpl;
       rewrite ?orb_true_r, ?orb_false_r; reflexivity ]).
Qed.

Lemma C8_obfsproxy_rule_witness :
  Flow.obfsproxy_candidate
    (fst (_analyze_flow fixtures.bare_extractor
            (fixtures.flow_with_payload (fixtures.high_bytes 101)))) = true.
Proof.
  rewrite (@C8_obfsproxy_rule fixtures.bare_extractor
             (fixtures.flow_with_payload (fixtures.high_bytes 101))
             (base64.b64encode (fixtures.high_bytes 101))
             (fixtures.high_bytes 101)).
  - vm_compute. reflexivity.
  - reflexivity.
  - vm_compute. reflexivity.
Defined.

(** C8 fails as stated: a payload of exactly 100 bytes, all distinct and
    free of markers, satisfies rule R5 of the specification and is not
    marked by the classifier. *)
Lemma C8_counterexample :
  Z.of_nat (List.length (fixtures.high_bytes 100)) = 100 /\
  spec.R5 (fixtures.high_bytes 100) = true /\
  base64.b64decode (base64.b64encode (fixtures.high_bytes 100)) =
    py.Ok (fixtures.high_bytes 100) /\
  Flow.obfsproxy_candidate
    (fst (_analyze_flow fixtures.bare_extractor
            (fixtures.flow_with_payload (fixtures.high_bytes 100)))) = false.
Proof.
  repeat split; vm_compute; reflexivity.
Qed.

End Classifier.

(** ** The private-address check *)

Section InternalIp.

Import correlation_engine.

(** C9 fails on the code: on the address "172.x.1.1" the private-address
    check raises [ValueError] out of [int('x')], and a correlation pass over
    a store that holds a flow from that address raises the same error and
    is rolled back. *)
Theorem C9_is_internal_ip_raises :
  _is_internal_ip fixtures.malformed_ip None =
    py.Raise (py.ValueError "invalid literal for int() with base 10: 'x'") /\
  fst (correlate_flows (CorrelationEngine_init fixtures.malformed_db 10) 0.3%float) =
    py.Raise (py.ValueError "invalid literal for int() with base 10: 'x'") /\
  models.committed
    (db_manager
       (snd (correlate_flows (CorrelationEngine_init fixtures.malformed_db 10)
               0.3%float))) =
    models.committed fixtures.malformed_db.
Proof.
  repeat split; vm_compute; reflexivity.
Qed.

(** On the three private ranges and on public addresses the check answers. *)
Example is_internal_ip_examples :
  _is_internal_ip "10.1.2.3" None = py.Ok true /\
  _is_internal_ip "192.168.1.100" None = py.Ok true /\
  _is_internal_ip "172.16.0.1" None = py.Ok true /\
  _is_internal_ip "172.31.255.255" None = py.Ok true /\
  _is_internal_ip "172.32.0.1" None = py.Ok false /\
  _is_internal_ip "8.8.4.4" None = py.Ok false /\
  _is_internal_ip "8.8.4.4" (Some ["8.8.4.4"]) = py.Ok true.
Proof. repeat split; vm_compute; reflexivity. Qed.

End InternalIp.

(** ** Loading the relay directory *)

Section Directory.

Import tor_extractor inv.

Lemma extends_refl (s : models.Session) : extends s s.
Proof.
  unfold extends. split; [reflexivity|]. split; [reflexivity|].
  split; [|trivial]. exists []. rewrite app_nil_r. reflexivity.
Qed.

Lemma extends_trans (s1 s2 s3 : models.Session) :
  extends s1 s2 -> extends s2 s3 -> extends s1 s3.
Proof.
  intros (Hf1 & Hc1 & [a1 Ha1] & Hn1) (Hf2 & Hc2 & [a2 Ha2] & Hn2).
  repeat split.
  - congruence.
  - congruence.
  - exists (a1 ++ a2). rewrite Ha2, Ha1, app_assoc. reflexivity.
  - intros H. apply Hn2, Hn1, H.
Qed.

Lemma existsb_ip_false (ip : string) (l : list TorNode.t) :
  existsb (fun m => String.eqb (TorNode.ip_address m) ip) l = false ->
  ~ In ip (map TorNode.ip_address l).
Proof.
  induction l as [|m l IH]; simpl; intros H; [tauto|].
  apply orb_false_iff in H. destruct H as [Hm Hl].
  intros [Heq|Hin].
  - rewrite Heq, String.eqb_refl in Hm. discriminate.
  - apply (IH Hl Hin).
Qed.

Lemma insert_tor_node_extends (n : TorNode.t) (s s' : models.Session) :
  insert_tor_node n s = py.Ok s' -> extends s s'.
Proof.
  unfold insert_tor_node.
  destruct (existsb _ (models.tor_nodes s)) eqn:Hip; [discriminate|].
  destruct (match TorNode.fingerprint n with Some _ => _ | None => _ end);
    [discriminate|].
  intros H. injection H as <-. unfold extends, addresses. simpl.
  repeat split.
  - eexists. reflexivity.
  - intros Hnd. rewrite map_app. simpl.
    eapply Permutation_NoDup; [apply Permutation_cons_append|].
    constructor; [|exact Hnd].
    apply existsb_ip_false. assumption.
Qed.

Lemma flush_extends (pending : list TorNode.t) :
  forall s s', flush pending s = py.Ok s' -> extends s s'.
Proof.
  induction pending as [|n pending IH]; simpl; intros s s' H.
  - injection H as <-. apply extends_refl.
  - destruct (insert_tor_node n s) as [s1|e] eqn:Hins; simpl in H;
      [|discriminate].
    eapply extends_trans; [eapply insert_tor_node_extends; eassumption|].
    apply IH. assumption.
Qed.

Lemma load_loop_extends (tor_nodes : list NodeData) :
  forall s pending ips s' pending' ips',
    load_loop tor_nodes s pending ips = (py.Ok (s', pending'), ips') ->
    extends s s'.
Proof.
  induction tor_nodes as [|nd rest IH]; simpl; intros s pending ips s' p' ips' H.
  - injection H as <- _ _. apply extends_refl.
  - destruct (nd_ip_address nd) as [ip|]; [|discriminate].
    destruct (flush pending s) as [s1|e] eqn:Hfl; [|discriminate].
    apply flush_extends in Hfl.
    destruct (models.tor_node_by_ip s1 ip);
      (eapply extends_trans; [exact Hfl | eapply IH; eassumption]).
Qed.

(** The tables a load commits extend the tables it found; a load that
    raises commits nothing. *)
Lemma load_tor_nodes_extends (self : TorExtractor) (tor_nodes : list NodeData) :
  extends (models.committed (db_manager self))
          (models.committed (db_manager (snd (_load_tor_nodes self tor_nodes)))).
Proof.
  unfold _load_tor_nodes. simpl.
  destruct (load_loop tor_nodes (models.committed (db_manager self)) []
              (tor_node_ips self)) as [[[s1 p1]|e] ips] eqn:Hloop; simpl.
  - destruct (flush p1 s1) as [s2|e] eqn:Hfl; simpl.
    + eapply extends_trans.
      * eapply load_loop_extends; eassumption.
      * eapply flush_extends; eassumption.
    + apply extends_refl.
  - apply extends_refl.
Qed.

Lemma find_app_some {A : Type} (f : A -> bool) (l l' : list A) (x : A) :
  find f l = Some x -> find f (l ++ l') = Some x.
Proof.
  induction l as [|y l IH]; simpl; [discriminate|].
  destruct (f y); [trivial|assumption].
Qed.

(** *** The rows of a load, by address *)

Lemma find_without_key (ip : string) (l : list TorNode.t) :
  find (fun n => String.eqb (TorNode.ip_address n) ip) (map without_key l) =
  option_map without_key
    (find (fun n => String.eqb (TorNode.ip_address n) ip) l).
Proof.
  induction l as [|n l IH]; cbn [map find]; [reflexivity|].
  change (TorNode.ip_address (without_key n)) with (TorNode.ip_address n).
  destruct (String.eqb (TorNode.ip_address n) ip); [reflexivity | exact IH].
Qed.

Lemma find_app {A : Type} (f : A -> bool) (l l' : list A) :
  find f (l ++ l') =
  match find f l with Some x => Some x | None => find f l' end.
Proof.
  induction l as [|y l IH]; cbn [app find]; [reflexivity|].
  destruct (f y); [reflexivity | exact IH].
Qed.

Lemma insert_tor_node_rows (n : TorNode.t) (s s' : models.Session) :
  insert_tor_node n s = py.Ok s' ->
  map without_key (models.tor_nodes s') =
  map without_key (models.tor_nodes s ++ [n]).
Proof.
  unfold insert_tor_node.
  destruct (existsb _ (models.tor_nodes s)); [discriminate|].
  destruct (match TorNode.fingerprint n with Some _ => _ | None => _ end);
    [discriminate|].
  intros H. injection H as <-. cbn [models.tor_nodes].
  rewrite !map_app. reflexivity.
Qed.

Lemma flush_rows (pending : list TorNode.t) :
  forall s s', flush pending s = py.Ok s' ->
    map without_key (models.tor_nodes s') =
    map without_key (models.tor_nodes s ++ pending).
Proof.
  induction pending as [|n pending IH]; cbn [flush]; intros s s' H.
  - injection H as <-. rewrite app_nil_r. reflexivity.
  - destruct (insert_tor_node n s) as [s1|e] eqn:Hins; cbn [py.bind] in H;
      [|discriminate].
    rewrite (IH _ _ H), map_app, (insert_tor_node_rows _ _ _ Hins).
    rewrite <- map_app, <- app_assoc. reflexivity.
Qed.

(** The loop of [_load_tor_nodes], address by address: a row that is there
    stays as it is, and an address that is not there gets the row of the
    first record of the snapshot that has it. *)
Lemma load_loop_rows (tor_nodes : list NodeData) :
  forall s pending ips s' pending' ips',
    load_loop tor_nodes s pending ips = (py.Ok (s', pending'), ips') ->
    forall ip,
      find (fun n => String.eqb (TorNode.ip_address n) ip)
        (map without_key (models.tor_nodes s' ++ pending')) =
      match find (fun n => String.eqb (TorNode.ip_address n) ip)
              (map without_key (models.tor_nodes s ++ pending)) with
      | Some n => Some n
      | None => option_map (node_of_data ip) (find (has_address ip) tor_nodes)
      end.
Proof.
  induction tor_nodes as [|nd rest IH]; cbn [load_loop];
    intros s pending ips s' pending' ips' H ip.
  - injection H as <- <- _. cbn [find option_map].
    destruct (find _ _); reflexivity.
  - destruct (nd_ip_address nd) as [a|] eqn:Ha; [|discriminate].
    destruct (flush pending s) as [s1|e] eqn:Hfl; [|discriminate].
    pose proof (flush_rows _ _ _ Hfl) as Hrows.
    cbn [find]. unfold has_address at 1. rewrite Ha.
    unfold models.tor_node_by_ip in H.
    destruct (find (fun n => String.eqb (TorNode.ip_address n) a)
                (models.tor_nodes s1)) as [existing|] eqn:Hq.
    + rewrite (IH _ _ _ _ _ _ H ip), app_nil_r, Hrows.
      destruct (find _ (map without_key (models.tor_nodes s ++ pending)))
        as [n|] eqn:Hold; [reflexivity|].
      destruct (String.eqb a ip) eqn:E; [|reflexivity].
      apply String.eqb_eq in E. subst a.
      rewrite <- Hrows, find_without_key, Hq in Hold. discriminate Hold.
    + rewrite (IH _ _ _ _ _ _ H ip), map_app, find_app, Hrows.
      destruct (find _ (map without_key (models.tor_nodes s ++ pending)))
        as [n|] eqn:Hold; [reflexivity|].
      cbn [map find]. 
      change (TorNode.ip_address (without_key (node_of_data a nd))) with a.
      destruct (String.eqb a ip) eqn:E; [|reflexivity].
      apply String.eqb_eq in E. subst a. reflexivity.
Qed.

(** C5, as the code has it: loading a directory snapshot is insert if
    absent, by address. A row already in the store keeps its primary key
    and all its attributes, whatever the snapshot says about its address,
    and the addresses stay unique. After a load that returns, an address
    that was not in the store has a row exactly when a record of the
    snapshot has it, and the row holds the values of the first such record,
    the port 9001 and the empty list of flags where the record has none. A
    load that raises leaves the store as it was. *)
Theorem C5_load_is_insert_if_absent (self : TorExtractor)
        (tor_nodes : list NodeData) :
  let out := _load_tor_nodes self tor_nodes in
  let before := models.committed (db_manager self) in
  let after := models.committed (db_manager (snd out)) in
  NoDup (map TorNode.ip_address (models.tor_nodes before)) ->
  (exists added, models.tor_nodes after = models.tor_nodes before ++ added) /\
  (forall ip n, models.tor_node_by_ip before ip = Some n ->
                models.tor_node_by_ip after ip = Some n) /\
  NoDup (map TorNode.ip_address (models.tor_nodes after)) /\
  (fst out = py.Ok tt ->
   forall ip,
     option_map without_key (models.tor_node_by_ip after ip) =
     match models.tor_node_by_ip before ip with
     | Some n => Some (without_key n)
     | None => option_map (node_of_data ip) (find (has_address ip) tor_nodes)
     end) /\
  (forall e, fst out = py.Raise e -> after = before).
Proof.
  intros out before after Hnd.
  destruct (load_tor_nodes_extends self tor_nodes) as (_ & _ & [added Ha] & Hn).
  fold out before after in Ha, Hn.
  split; [exists added; exact Ha|].
  split.
  { intros ip n Hfind. unfold models.tor_node_by_ip in *.
    rewrite Ha. apply find_app_some. exact Hfind. }
  split; [apply Hn; exact Hnd|].
  subst out before after. unfold _load_tor_nodes, models.get_session.
  cbv zeta.
  destruct (load_loop tor_nodes (models.committed (db_manager self)) []
              (tor_node_ips self)) as [[[s1 p1]|e] ips] eqn:Hloop;
    cbn [py.bind fst snd].
  - destruct (flush p1 s1) as [s2|e] eqn:Hfl;
      cbn [fst snd db_manager models.close models.commit models.committed].
    + split; [|intros e He; discriminate He].
      intros _ ip. unfold models.tor_node_by_ip.
      rewrite <- !find_without_key, (flush_rows _ _ _ Hfl).
      rewrite (load_loop_rows _ _ _ _ _ _ _ Hloop ip), app_nil_r.
      rewrite find_without_key.
      destruct (find _ (models.tor_nodes (models.committed (db_manager self))));
        reflexivity.
    + split; [intros He; discriminate He | reflexivity].
  - cbn [fst snd db_manager models.close models.commit models.committed].
    split; [intros He; discriminate He | reflexivity].
Qed.

Lemma C5_load_is_insert_if_absent_witness :
  let after :=
    models.committed
      (db_manager
         (snd (_load_tor_nodes fixtures.directory_extractor
                 [fixtures.reload_record; fixtures.fresh_record]))) in
  models.tor_node_by_ip after "185.220.101.1" = Some fixtures.guard_node /\
  option_map without_key (models.tor_node_by_ip after "171.25.193.9") =
    Some (node_of_data "171.25.193.9" fixtures.fresh_record).
Proof.
  assert (Hnd : NoDup (map TorNode.ip_address
                         (models.tor_nodes (models.committed fixtures.directory_db)))).
  { cbn. constructor; [cbn; tauto | constructor]. }
  pose proof (C5_load_is_insert_if_absent fixtures.directory_extractor
                [fixtures.reload_record; fixtures.fresh_record] Hnd)
    as (_ & Hkeep & _ & Hnew & _).
  split.
  - apply Hkeep. reflexivity.
  - rewrite (Hnew eq_refl "171.25.193.9"%string). reflexivity.
Defined.

(** C5 fails as stated: reloading a record for a known address leaves the
    stored port, fingerprint, nickname, flags, country code, ASN and
    bandwidth as they were, where the snapshot gives other values. *)
Lemma C5_counterexample :
  fst (_load_tor_nodes fixtures.directory_extractor
         [fixtures.reload_record; fixtures.fresh_record]) = py.Ok tt /\
  models.tor_nodes
    (models.committed
       (db_manager
          (snd (_load_tor_nodes fixtures.directory_extractor
                  [fixtures.reload_record; fixtures.fresh_record])))) =
    [ fixtures.guard_node;
      TorNode.mk 2 "171.25.193.9" 80 (Some "FFF000") (Some "Other")
        (Some ["Exit"]) (Some "SE") (Some "AS3") (Some 7000) ] /\
  TorNode.port fixtures.guard_node = 9001 /\
  nd_port fixtures.reload_record = Some 443 /\
  TorNode.flags fixtures.guard_node = Some ["Guard"; "Fast"; "Stable"] /\
  nd_flags fixtures.reload_record = Some ["Exit"].
Proof.
  repeat split.
Qed.

End Directory.

(** ** Base64: decoding what was encoded *)

Section Base64.

Import base64 inv.

Lemma range_forall (P : Z -> bool) (n : nat) :
  forallb (fun i => P (Z.of_nat i)) (seq 0 n) = true ->
  forall v, 0 <= v < Z.of_nat n -> P v = true.
Proof.
  intros H v Hv. rewrite forallb_forall in H.
  specialize (H (Z.to_nat v)). rewrite Z2Nat.id in H by lia.
  apply H, in_seq. lia.
Qed.

(** Every character of the alphabet decodes to its index, is not the pad
    and is ASCII. *)
Lemma enc_facts (v : Z) :
  0 <= v < 64 ->
  dec (enc v) = Some v /\
  Ascii.eqb (enc v) "="%char = false /\
  (Z.of_nat (nat_of_ascii (enc v)) <? 128) = true.
Proof.
  intros Hv.
  pose proof (range_forall
                (fun v => match dec (enc v) with
                          | Some v' => v' =? v
                          | None => false
                          end
                          && negb (Ascii.eqb (enc v) "="%char)
                          && (Z.of_nat (nat_of_ascii (enc v)) <? 128))
                64 eq_refl v Hv) as H.
  cbv beta in H.
  apply andb_true_iff in H. destruct H as [H H3].
  apply andb_true_iff in H. destruct H as [H1 H2].
  destruct (dec (enc v)) as [v'|]; [|discriminate].
  apply Z.eqb_eq in H1. subst v'. apply negb_true_iff in H2. auto.
Qed.

Lemma a2b_step0 (v : Z) (s : string) (l p : Z) (out : py.bytes) :
  0 <= v < 64 ->
  a2b (String (enc v) s) 0 l p out = a2b s 1 v 0 out.
Proof.
  intros Hv. destruct (enc_facts v Hv) as (Hd & He & _).
  cbn [a2b]. rewrite He, Hd. reflexivity.
Qed.

Lemma a2b_step1 (v : Z) (s : string) (l p : Z) (out : py.bytes) :
  0 <= v < 64 ->
  a2b (String (enc v) s) 1 l p out =
  a2b s 2 (Z.land v 15) 0
      (out ++ [byte_of_Z (Z.lor (Z.shiftl l 2) (Z.shiftr v 4))]).
Proof.
  intros Hv. destruct (enc_facts v Hv) as (Hd & He & _).
  cbn [a2b]. rewrite He, Hd. reflexivity.
Qed.

Lemma a2b_step2 (v : Z) (s : string) (l p : Z) (out : py.bytes) :
  0 <= v < 64 ->
  a2b (String (enc v) s) 2 l p out =
  a2b s 3 (Z.land v 3) 0
      (out ++ [byte_of_Z (Z.lor (Z.shiftl l 4) (Z.shiftr v 2))]).
Proof.
  intros Hv. destruct (enc_facts v Hv) as (Hd & He & _).
  cbn [a2b]. rewrite He, Hd. reflexivity.
Qed.

Lemma a2b_step3 (v : Z) (s : string) (l p : Z) (out : py.bytes) :
  0 <= v < 64 ->
  a2b (String (enc v) s) 3 l p out =
  a2b s 0 0 0 (out ++ [byte_of_Z (Z.lor (Z.shiftl l 6) v)]).
Proof.
  intros Hv. destruct (enc_facts v Hv) as (Hd & He & _).
  cbn [a2b]. rewrite He, Hd. reflexivity.
Qed.

Ltac split_ands H :=
  repeat match type of H with
         | (_ && _) = true =>
             let H' := fresh H in
             apply andb_true_iff in H; destruct H as [H H']
         end.

Ltac to_props :=
  repeat match goal with
         | H : (_ <=? _) = true |- _ => apply Z.leb_le in H
         | H : (_ <? _) = true |- _ => apply Z.ltb_lt in H
         | H : (_ =? _) = true |- _ => apply Z.eqb_eq in H
         | H : Byte.eqb _ _ = true |- _ => apply Byte.byte_dec_bl in H
         end.

Lemma byte_fields (x : byte) :
  let X := Z_of_byte x in
  0 <= Z.shiftr X 2 < 64 /\
  0 <= Z.land X 3 < 4 /\
  0 <= Z.shiftr X 4 < 16 /\
  0 <= Z.land X 15 < 16 /\
  0 <= Z.shiftr X 6 < 4 /\
  0 <= Z.land X 63 < 64 /\
  byte_of_Z (Z.lor (Z.shiftl (Z.shiftr X 2) 2) (Z.land X 3)) = x /\
  byte_of_Z (Z.lor (Z.shiftl (Z.shiftr X 4) 4) (Z.land X 15)) = x /\
  byte_of_Z (Z.lor (Z.shiftl (Z.shiftr X 6) 6) (Z.land X 63)) = x.
Proof.
  assert (H : byte_fields_ok x = true) by (destruct x; vm_compute; reflexivity).
  unfold byte_fields_ok in H. cbv zeta in *. split_ands H. to_props.
  repeat split; assumption.
Qed.

Lemma join4 (hi lo : Z) :
  0 <= hi < 4 -> 0 <= lo < 16 ->
  let v := Z.lor (Z.shiftl hi 4) lo in
  0 <= v < 64 /\ Z.shiftr v 4 = hi /\ Z.land v 15 = lo.
Proof.
  intros Hh Hl.
  assert (H : join_ok 4 15 hi lo = true).
  { apply (range_forall (fun lo => join_ok 4 15 hi lo) 16); [|exact Hl].
    apply (range_forall
             (fun hi => forallb (fun i => join_ok 4 15 hi (Z.of_nat i)) (seq 0 16))
             4); [vm_compute; reflexivity | exact Hh]. }
  unfold join_ok in H. cbv zeta in *. split_ands H. to_props.
  repeat split; assumption.
Qed.

Lemma join2 (hi lo : Z) :
  0 <= hi < 16 -> 0 <= lo < 4 ->
  let v := Z.lor (Z.shiftl hi 2) lo in
  0 <= v < 64 /\ Z.shiftr v 2 = hi /\ Z.land v 3 = lo.
Proof.
  intros Hh Hl.
  assert (H : join_ok 2 3 hi lo = true).
  { apply (range_forall (fun lo => join_ok 2 3 hi lo) 4); [|exact Hl].
    apply (range_forall
             (fun hi => forallb (fun i => join_ok 2 3 hi (Z.of_nat i)) (seq 0 4))
             16); [vm_compute; reflexivity | exact Hh]. }
  unfold join_ok in H. cbv zeta in *. split_ands H. to_props.
  repeat split; assumption.
Qed.

(** The sextets of a group of three bytes, and the bytes they decode to. *)
Lemma group_fields (x y z : byte) :
  let X := Z_of_byte x in
  let Y := Z_of_byte y in
  let Z' := Z_of_byte z in
  let v1 := Z.shiftr X 2 in
  let v2 := Z.lor (Z.shiftl (Z.land X 3) 4) (Z.shiftr Y 4) in
  let v3 := Z.lor (Z.shiftl (Z.land Y 15) 2) (Z.shiftr Z' 6) in
  let v4 := Z.land Z' 63 in
  (0 <= v1 < 64 /\ 0 <= v2 < 64 /\ 0 <= v3 < 64 /\ 0 <= v4 < 64) /\
  byte_of_Z (Z.lor (Z.shiftl v1 2) (Z.shiftr v2 4)) = x /\
  byte_of_Z (Z.lor (Z.shiftl (Z.land v2 15) 4) (Z.shiftr v3 2)) = y /\
  byte_of_Z (Z.lor (Z.shiftl (Z.land v3 3) 6) v4) = z.
Proof.
  cbv zeta.
  destruct (byte_fields x) as (Hx1 & Hx2 & _ & _ & _ & _ & Ex & _ & _).
  destruct (byte_fields y) as (_ & _ & Hy3 & Hy4 & _ & _ & _ & Ey & _).
  destruct (byte_fields z) as (_ & _ & _ & _ & Hz5 & Hz6 & _ & _ & Ez).
  destruct (join4 _ _ Hx2 Hy3) as (J & Jhi & Jlo).
  destruct (join2 _ _ Hy4 Hz5) as (J' & Jhi' & Jlo').
  rewrite Jhi, Jlo, Jhi', Jlo', Ex, Ey, Ez. auto.
Qed.

(** The same with the bits of missing bytes at zero. *)
Lemma zero_byte_fields :
  Z.shiftr (Z_of_byte x00) 4 = 0 /\ Z.shiftr (Z_of_byte x00) 6 = 0.
Proof. split; reflexivity. Qed.

Lemma a2b_b2a (n : nat) :
  forall data out,
    (List.length data <= n)%nat ->
    a2b (b2a data) 0 0 0 out = py.Ok (out ++ data).
Proof.
  induction n as [|n IH]; intros data out Hlen.
  - destruct data; [|simpl in Hlen; lia]. simpl. rewrite app_nil_r. reflexivity.
  - destruct data as [|x [|y [|z rest]]].
    + simpl. rewrite app_nil_r. reflexivity.
    + destruct (group_fields x x00 x00) as ((H1 & H2 & _) & E1 & _).
      cbv zeta in *. rewrite (proj1 zero_byte_fields), Z.lor_0_r in *.
      cbn [b2a]. cbv zeta.
      rewrite a2b_step0 by exact H1. rewrite a2b_step1 by exact H2.
      rewrite E1. reflexivity.
    + destruct (group_fields x y x00) as ((H1 & H2 & H3 & _) & E1 & E2 & _).
      cbv zeta in *. rewrite (proj2 zero_byte_fields), Z.lor_0_r in *.
      cbn [b2a]. cbv zeta.
      rewrite a2b_step0 by exact H1. rewrite a2b_step1 by exact H2.
      rewrite a2b_step2 by exact H3.
      rewrite E1, E2. cbn. rewrite <- app_assoc. reflexivity.
    + destruct (group_fields x y z) as ((H1 & H2 & H3 & H4) & E1 & E2 & E3).
      cbv zeta in *.
      cbn [b2a]. cbv zeta.
      rewrite a2b_step0 by exact H1. rewrite a2b_step1 by exact H2.
      rewrite a2b_step2 by exact H3. rewrite a2b_step3 by exact H4.
      rewrite E1, E2, E3.
      rewrite IH by (simpl in Hlen; lia).
      rewrite <- !app_assoc. reflexivity.
Qed.

Lemma b2a_isascii (n : nat) :
  forall data, (List.length data <= n)%nat -> isascii (b2a data) = true.
Proof.
  induction n as [|n IH]; intros data Hlen.
  - destruct data; [reflexivity | simpl in Hlen; lia].
  - destruct data as [|x [|y [|z rest]]]; [reflexivity| | |].
    + destruct (group_fields x x00 x00) as ((H1 & H2 & _) & _).
      cbv zeta in *. rewrite (proj1 zero_byte_fields), Z.lor_0_r in *.
      cbn [b2a isascii]. cbv zeta.
      rewrite (proj2 (proj2 (enc_facts _ H1))), (proj2 (proj2 (enc_facts _ H2))).
      reflexivity.
    + destruct (group_fields x y x00) as ((H1 & H2 & H3 & _) & _).
      cbv zeta in *. rewrite (proj2 zero_byte_fields), Z.lor_0_r in *.
      cbn [b2a isascii]. cbv zeta.
      rewrite (proj2 (proj2 (enc_facts _ H1))), (proj2 (proj2 (enc_facts _ H2))),
        (proj2 (proj2 (enc_facts _ H3))).
      reflexivity.
    + destruct (group_fields x y z) as ((H1 & H2 & H3 & H4) & _).
      cbv zeta in *.
      cbn [b2a isascii]. cbv zeta.
      rewrite (proj2 (proj2 (enc_facts _ H1))), (proj2 (proj2 (enc_facts _ H2))),
        (proj2 (proj2 (enc_facts _ H3))), (proj2 (proj2 (enc_facts _ H4))).
      rewrite IH by (simpl in Hlen; lia). reflexivity.
Qed.

(** [b64decode] gives back the bytes that [b64encode] was given. *)
Theorem b64decode_b64encode (data : py.bytes) :
  b64decode (b64encode data) = py.Ok data.
Proof.
  unfold b64decode, b64encode.
  rewrite (b2a_isascii (List.length data) data (Nat.le_refl _)).
  apply (a2b_b2a (List.length data) data [] (Nat.le_refl _)).
Qed.

End Base64.

(** ** The ingestor *)

Section Ingest.

Import pcap_ingest inv.

Lemma FlowKey_eq_refl (k : FlowKey) : FlowKey_eq k k = true.
Proof.
  unfold FlowKey_eq. rewrite !String.eqb_refl, !Z.eqb_refl. reflexivity.
Qed.

Lemma FlowKey_eq_true (a c : FlowKey) : FlowKey_eq a c = true <-> a = c.
Proof.
  split.
  - unfold FlowKey_eq. intros H.
    repeat (apply andb_true_iff in H; destruct H as [H ?]).
    destruct a, c; simpl in *.
    repeat match goal with
           | E : String.eqb _ _ = true |- _ => apply String.eqb_eq in E
           | E : (_ =? _) = true |- _ => apply Z.eqb_eq in E
           end.
    subst. reflexivity.
  - intros ->. apply FlowKey_eq_refl.
Qed.

(** *** The dictionary *)

Lemma dict_set_new (k : FlowKey) (v : FlowRecord) (d : FlowDict) :
  dict_contains k d = false -> dict_set k v d = d ++ [(k, v)].
Proof.
  induction d as [|[k' v'] d IH]; simpl; intros H; [reflexivity|].
  apply orb_false_iff in H. destruct H as [Hk Hd].
  rewrite Hk, (IH Hd). reflexivity.
Qed.

Lemma dict_modify_new (k : FlowKey) (m : FlowRecord -> FlowRecord)
      (v : FlowRecord) (d : FlowDict) :
  dict_contains k d = false ->
  dict_modify k m (d ++ [(k, v)]) = d ++ [(k, m v)].
Proof.
  induction d as [|[k' v'] d IH]; simpl; intros H.
  - rewrite FlowKey_eq_refl. reflexivity.
  - apply orb_false_iff in H. destruct H as [Hk Hd].
    rewrite Hk, (IH Hd). reflexivity.
Qed.

Lemma dict_modify_values (k : FlowKey) (m : FlowRecord -> FlowRecord)
      (d : FlowDict) (r' : FlowRecord) :
  In r' (values (dict_modify k m d)) ->
  In r' (values d) \/ exists r, In r (values d) /\ r' = m r.
Proof.
  unfold values. induction d as [|[k' v'] d IH]; simpl; [tauto|].
  destruct (FlowKey_eq k k'); simpl.
  - intros [<-|H]; [right; exists v'; auto | left; auto].
  - intros [<-|H]; [left; auto|].
    destruct (IH H) as [H'|(r & Hr & ->)]; [left; auto | right; exists r; auto].
Qed.

(** What a processed packet does to the accumulators: each one is left as
    it was, or is an accumulator (an old one, or a new one made for the
    packet) updated with the packet. *)
Lemma process_packet_values (self : PcapIngestor) (p : Packet) (r' : FlowRecord) :
  In r' (values (flows (snd (process_packet self p)))) ->
  In r' (values (flows self)) \/
  exists k r, packet_key p = Some k /\
              (In r (values (flows self)) \/ r = FlowRecord_init k (time p)) /\
              r' = update r (time p) (Raw p) (Z.pos (len p)).
Proof.
  unfold process_packet.
  destruct (packet_key p) as [k|]; simpl; [|tauto].
  destruct (dict_contains k (flows self)) eqn:Hc; simpl.
  - intros H. apply dict_modify_values in H.
    destruct H as [H|(r & Hr & ->)]; [left; assumption|].
    right. exists k, r. auto.
  - rewrite (dict_set_new _ _ _ Hc), (dict_modify_new _ _ _ _ Hc).
    unfold values. rewrite map_app. simpl. intros H.
    apply in_app_or in H. destruct H as [H|[<-|[]]]; [left; assumption|].
    right. exists k, (FlowRecord_init k (time p)). auto.
Qed.

Lemma process_packet_db (self : PcapIngestor) (p : Packet) :
  db_manager (snd (process_packet self p)) = db_manager self /\
  batch_size (snd (process_packet self p)) = batch_size self.
Proof.
  unfold process_packet. destruct (packet_key p); simpl; auto.
Qed.

(** *** The store *)

Lemma bulk_save_flows_spec (objs : list Flow.t) :
  forall s,
    models.tor_nodes (models.bulk_save_flows objs s) = models.tor_nodes s /\
    models.correlations (models.bulk_save_flows objs s) = models.correlations s /\
    exists added,
      models.flows (models.bulk_save_flows objs s) = models.flows s ++ added /\
      Forall2 (fun o o' => exists k, o' = Flow.set_id o k) objs added.
Proof.
  induction objs as [|o objs IH]; intros s; simpl.
  - do 2 (split; [reflexivity|]). exists []. rewrite app_nil_r. auto.
  - destruct (IH (models.mkTables
                    (models.flows s ++
                       [Flow.set_id o (models.next_id (map Flow.id (models.flows s)))])
                    (models.tor_nodes s) (models.correlations s)))
      as (Ht & Hc & added & Hf & H2).
    simpl in *. do 2 (split; [assumption|]).
    eexists (_ :: added). rewrite Hf, <- app_assoc. simpl.
    split; [reflexivity|]. constructor; [eexists; reflexivity | assumption].
Qed.

(** A flush appends the models of the live accumulators and keeps the
    dictionary. *)
Lemma flush_flows_spec (self : PcapIngestor) :
  flows (_flush_flows self) = flows self /\
  batch_size (_flush_flows self) = batch_size self /\
  models.open_sessions (db_manager (_flush_flows self)) =
    models.open_sessions (db_manager self) /\
  exists added,
    models.flows (models.committed (db_manager (_flush_flows self))) =
      models.flows (models.committed (db_manager self)) ++ added /\
    Forall2 (fun o o' => exists k, o' = Flow.set_id o k)
      (map to_flow_model (values (flows self))) added.
Proof.
  unfold _flush_flows. destruct (flows self) as [|kv d] eqn:Hd.
  - rewrite Hd. do 3 (split; [reflexivity|]).
    exists []. rewrite app_nil_r. split; [reflexivity|constructor].
  - simpl.
    destruct (bulk_save_flows_spec
                (to_flow_model (snd kv) :: map to_flow_model (values d))
                (models.committed (db_manager self)))
      as (_ & _ & added & Hf & H2).
    do 3 (split; [reflexivity|]).
    exists added. split; assumption.
Qed.

(** *** Invariants of the accumulators reach the store *)

Section Invariant.

Variable D : list Packet -> FlowDict -> Prop.
Variable R : FlowRecord -> Prop.

Hypothesis D_R : forall rest d r, D rest d -> In r (values d) -> R r.
Hypothesis D_step : forall p rest self,
    D (p :: rest) (flows self) -> D rest (flows (snd (process_packet self p))).

Lemma flush_flows_inv (rest : list Packet) (self : PcapIngestor) :
  D rest (flows self) ->
  exists added,
    models.flows (models.committed (db_manager (_flush_flows self))) =
      models.flows (models.committed (db_manager self)) ++ added /\
    Forall (persisted_from R) added.
Proof.
  intros HD. destruct (flush_flows_spec self) as (_ & _ & _ & added & Hf & H2).
  exists added. split; [assumption|].
  assert (HR : Forall R (values (flows self))).
  { apply Forall_forall. intros r Hr. eapply D_R; eassumption. }
  clear Hf HD. revert added H2.
  induction HR as [|r l Hr _ IH]; simpl; intros added H2; inversion H2; subst.
  - constructor.
  - constructor; [|apply IH; assumption].
    destruct H1 as [k ->]. exists r, k. auto.
Qed.

Lemma step_inv (streaming : bool) (p : Packet) (rest : list Packet)
      (self : PcapIngestor) :
  D (p :: rest) (flows self) ->
  let self' := (if streaming then streaming_step else eager_step) self p in
  D rest (flows self') /\
  exists added,
    models.flows (models.committed (db_manager self')) =
      models.flows (models.committed (db_manager self)) ++ added /\
    Forall (persisted_from R) added.
Proof.
  intros HD. pose proof (D_step _ _ _ HD) as HD1.
  destruct (process_packet_db self p) as [Hdb _].
  assert (Hkeep :
            D rest (flows (snd (process_packet self p))) /\
            exists added,
              models.flows (models.committed
                              (db_manager (snd (process_packet self p)))) =
                models.flows (models.committed (db_manager self)) ++ added /\
              Forall (persisted_from R) added).
  { split; [exact HD1|]. exists []. rewrite app_nil_r, Hdb. auto. }
  destruct streaming; cbv zeta; [|exact Hkeep].
  unfold streaming_step.
  destruct (batch_size _ <=? _); [|exact Hkeep].
  destruct (flush_flows_spec (snd (process_packet self p))) as (Hfl & _).
  destruct (flush_flows_inv _ _ HD1) as (a1 & Ha1 & HF1).
  rewrite Hfl. split; [exact HD1|].
  exists a1. rewrite Ha1, Hdb. auto.
Qed.

Lemma loop_inv (streaming : bool) (pcap : list Packet) :
  forall self,
    D pcap (flows self) ->
    let self' := fold_left (if streaming then streaming_step else eager_step)
                   pcap self in
    D [] (flows self') /\
    exists added,
      models.flows (models.committed (db_manager self')) =
        models.flows (models.committed (db_manager self)) ++ added /\
      Forall (persisted_from R) added.
Proof.
  induction pcap as [|p rest IH]; intros self HD; cbv zeta; simpl fold_left.
  - split; [assumption|]. exists []. rewrite app_nil_r. auto.
  - destruct (step_inv streaming p rest self HD) as (HD1 & a1 & Ha1 & HF1).
    destruct (IH _ HD1) as (HD' & a2 & Ha2 & HF2).
    split; [exact HD'|].
    exists (a1 ++ a2). rewrite Ha2, Ha1, app_assoc.
    split; [reflexivity | apply Forall_app; auto].
Qed.

Lemma ingest_pcap_inv (self : PcapIngestor) (pcap : list Packet)
      (streaming : bool) :
  D pcap [] ->
  exists added,
    models.flows
      (models.committed (db_manager (snd (ingest_pcap self pcap streaming)))) =
      models.flows (models.committed (db_manager self)) ++ added /\
    Forall (persisted_from R) added.
Proof.
  intros HD. unfold ingest_pcap. simpl.
  pose proof (loop_inv streaming pcap
                (mkPcapIngestor (db_manager self) (batch_size self) []) HD)
    as (HD' & a1 & Ha1 & HF1).
  simpl in Ha1.
  destruct streaming;
    (destruct (flush_flows_inv _ _ HD') as (a2 & Ha2 & HF2);
     exists (a1 ++ a2); rewrite Ha2, Ha1, app_assoc;
     split; [reflexivity | apply Forall_app; auto]).
Qed.

End Invariant.

End Ingest.

(** ** Flow counts of an ingest run *)

Section IngestCounts.

Import pcap_ingest inv.

Lemma dict_contains_true (k : FlowKey) (d : FlowDict) :
  dict_contains k d = true <-> In k (map fst d).
Proof.
  unfold dict_contains. rewrite existsb_exists. split.
  - intros ([k' v] & Hin & Heq). apply FlowKey_eq_true in Heq. simpl in Heq.
    subst k'. apply (in_map fst) in Hin. exact Hin.
  - intros Hin. apply in_map_iff in Hin. destruct Hin as ([k' v] & <- & Hin).
    exists (k', v). split; [exact Hin | apply FlowKey_eq_refl].
Qed.

Lemma dict_contains_false (k : FlowKey) (d : FlowDict) :
  dict_contains k d = false <-> ~ In k (map fst d).
Proof.
  rewrite <- dict_contains_true.
  destruct (dict_contains k d); split; intros H.
  - discriminate.
  - exfalso. apply H. reflexivity.
  - discriminate.
  - reflexivity.
Qed.

Lemma dict_modify_keys (k : FlowKey) (m : FlowRecord -> FlowRecord)
      (d : FlowDict) :
  map fst (dict_modify k m d) = map fst d.
Proof.
  induction d as [|[k' v'] d IH]; simpl; [reflexivity|].
  destruct (FlowKey_eq k k'); simpl; [reflexivity | rewrite IH; reflexivity].
Qed.

Lemma dict_modify_own_key (k : FlowKey) (m : FlowRecord -> FlowRecord)
      (d : FlowDict) :
  (forall r, key (m r) = key r) ->
  Forall (fun kv => key (snd kv) = fst kv) d ->
  Forall (fun kv => key (snd kv) = fst kv) (dict_modify k m d).
Proof.
  intros Hm. induction d as [|[k' v'] d IH]; intros H; simpl; [constructor|].
  inversion H as [|? ? Hkv Hd]; subst.
  destruct (FlowKey_eq k k').
  - constructor; [simpl in *; rewrite Hm; exact Hkv | exact Hd].
  - constructor; [exact Hkv | apply IH; exact Hd].
Qed.

Lemma dict_modify_count (k : FlowKey) (t : Z) (payload : option py.bytes)
      (n : Z) (d : FlowDict) :
  dict_contains k d = true ->
  fold_right Z.add 0
    (map pkt_count (values (dict_modify k (fun r => update r t payload n) d))) =
  fold_right Z.add 0 (map pkt_count (values d)) + 1.
Proof.
  unfold values, dict_contains.
  induction d as [|[k' v'] d IH]; simpl; [discriminate|].
  destruct (FlowKey_eq k k'); simpl.
  - intros _. lia.
  - intros H. rewrite (IH H). lia.
Qed.

(** One processed packet with key [k] files one more packet under [k]. *)
Lemma process_packet_tracks (self : PcapIngestor) (p : Packet)
      (ks : list FlowKey) :
  tracks ks (flows self) ->
  tracks (match packet_key p with Some k => k :: ks | None => ks end)
         (flows (snd (process_packet self p))).
Proof.
  intros (Hnd & Hin & Hown & Hsum). unfold process_packet.
  destruct (packet_key p) as [k|]; simpl; [|repeat split; assumption || apply Hin].
  destruct (dict_contains k (flows self)) eqn:Hc; simpl.
  - pose proof (proj1 (dict_contains_true _ _) Hc) as Hk.
    unfold tracks. rewrite dict_modify_keys, (dict_modify_count _ _ _ _ _ Hc).
    split; [exact Hnd|]. split; [|split].
    + intros k'. rewrite Hin. simpl. split; [auto|].
      intros [<-|H]; [apply Hin, Hk | exact H].
    + apply dict_modify_own_key; [reflexivity | exact Hown].
    + rewrite Hsum. simpl List.length. lia.
  - pose proof (proj1 (dict_contains_false _ _) Hc) as Hk.
    rewrite (dict_set_new _ _ _ Hc), (dict_modify_new _ _ _ _ Hc).
    unfold tracks, values. rewrite !map_app. simpl map.
    split; [|split; [|split]].
    + eapply Permutation_NoDup; [apply Permutation_cons_append|].
      constructor; assumption.
    + intros k'. rewrite in_app_iff, Hin. simpl. tauto.
    + apply Forall_app. split; [exact Hown|]. constructor; [reflexivity|constructor].
    + rewrite fold_right_app. simpl.
      assert (Hshift : forall (l : list Z) (a : Z),
                 fold_right Z.add a l = fold_right Z.add 0 l + a).
      { induction l as [|x l IHl]; intros a; simpl; [lia|].
        rewrite IHl. lia. }
      rewrite Hshift. fold (values (flows self)). rewrite Hsum.
      simpl List.length. lia.
Qed.

Lemma parseable_keys_cons (p : Packet) (pcap : list Packet) :
  spec.parseable_keys (p :: pcap) =
  match packet_key p with
  | Some k => k :: spec.parseable_keys pcap
  | None => spec.parseable_keys pcap
  end.
Proof.
  unfold spec.parseable_keys. simpl. destruct (packet_key p); reflexivity.
Qed.

Lemma tracks_permutation (ks ks' : list FlowKey) (d : FlowDict) :
  Permutation ks ks' -> tracks ks d -> tracks ks' d.
Proof.
  intros HP (Hnd & Hin & Hown & Hsum). unfold tracks.
  split; [exact Hnd|]. split; [|split; [exact Hown|]].
  - intros k. rewrite Hin. split; apply Permutation_in;
      [exact HP | apply Permutation_sym; exact HP].
  - rewrite Hsum, (Permutation_length HP). reflexivity.
Qed.

(** The eager loop files every parseable packet. *)
Lemma eager_loop_tracks (pcap : list Packet) :
  forall self ks,
    tracks ks (flows self) ->
    tracks (ks ++ spec.parseable_keys pcap)
           (flows (fold_left eager_step pcap self)) /\
    db_manager (fold_left eager_step pcap self) = db_manager self /\
    batch_size (fold_left eager_step pcap self) = batch_size self.
Proof.
  induction pcap as [|p rest IH]; intros self ks H; cbn [fold_left].
  - change (spec.parseable_keys []) with (@nil FlowKey).
    rewrite app_nil_r. auto.
  - pose proof (process_packet_tracks self p ks H) as H1.
    destruct (process_packet_db self p) as [Hdb Hbs].
    unfold eager_step at 2 4 6.
    destruct (IH _ _ H1) as (HT & Hdb' & Hbs').
    rewrite Hdb', Hbs', Hdb, Hbs. split; [|auto].
    eapply tracks_permutation; [|exact HT].
    rewrite parseable_keys_cons. destruct (packet_key p) as [k|]; [|reflexivity].
    change (k :: ks) with ([k] ++ ks).
    change (k :: spec.parseable_keys rest) with ([k] ++ spec.parseable_keys rest).
    rewrite !app_assoc. apply Permutation_app_tail, Permutation_app_comm.
Qed.

Lemma tracks_length (ks : list FlowKey) (d : FlowDict) :
  tracks ks d ->
  List.length d = List.length (nodup spec.FlowKey_eq_dec ks).
Proof.
  intros (Hnd & Hin & _ & _).
  rewrite <- (length_map fst d). apply Permutation_length.
  apply NoDup_Permutation; [exact Hnd | apply NoDup_nodup|].
  intros k. rewrite Hin, nodup_In. reflexivity.
Qed.

Lemma nodup_length_incl (l l' : list FlowKey) :
  incl l l' ->
  (List.length (nodup spec.FlowKey_eq_dec l) <=
   List.length (nodup spec.FlowKey_eq_dec l'))%nat.
Proof.
  intros H. apply NoDup_incl_length; [apply NoDup_nodup|].
  intros k Hk. apply nodup_In. apply H. apply (nodup_In spec.FlowKey_eq_dec), Hk.
Qed.

(** While the number of distinct 5-tuples stays below the batch size, the
    streaming loop never flushes and does what the eager loop does. *)
Lemma streaming_loop_below_batch (pcap : list Packet) :
  forall self ks,
    tracks ks (flows self) ->
    Z.of_nat (List.length (nodup spec.FlowKey_eq_dec
                             (ks ++ spec.parseable_keys pcap))) < batch_size self ->
    fold_left streaming_step pcap self = fold_left eager_step pcap self.
Proof.
  induction pcap as [|p rest IH]; intros self ks H Hlt; cbn [fold_left];
    [reflexivity|].
  pose proof (process_packet_tracks self p ks H) as H1.
  destruct (process_packet_db self p) as [Hdb Hbs].
  assert (Hperm : Permutation
                    ((match packet_key p with Some k => k :: ks | None => ks end)
                       ++ spec.parseable_keys rest)
                    (ks ++ spec.parseable_keys (p :: rest))).
  { rewrite parseable_keys_cons. destruct (packet_key p) as [k|]; [|reflexivity].
    simpl. apply Permutation_middle. }
  assert (Hstep : streaming_step self p = eager_step self p).
  { unfold streaming_step, eager_step.
    destruct (batch_size _ <=? _) eqn:Hb; [|reflexivity].
    apply Z.leb_le in Hb. rewrite Hbs in Hb.
    rewrite (tracks_length _ _ H1) in Hb.
    pose proof (nodup_length_incl
                  (match packet_key p with Some k => k :: ks | None => ks end)
                  (ks ++ spec.parseable_keys (p :: rest))) as Hincl.
    assert (Hi : incl (match packet_key p with Some k => k :: ks | None => ks end)
                      (ks ++ spec.parseable_keys (p :: rest))).
    { intros k Hk. eapply Permutation_in; [exact Hperm|].
      apply in_or_app. left. exact Hk. }
    specialize (Hincl Hi). lia. }
  rewrite Hstep. unfold eager_step at 1 3.
  apply (IH _ _ H1). rewrite Hbs.
  assert (Hlen : List.length (nodup spec.FlowKey_eq_dec
                    ((match packet_key p with Some k => k :: ks | None => ks end)
                       ++ spec.parseable_keys rest)) =
                 List.length (nodup spec.FlowKey_eq_dec
                    (ks ++ spec.parseable_keys (p :: rest)))).
  { apply Permutation_length, NoDup_Permutation; try apply NoDup_nodup.
    intros k. rewrite !nodup_In. split; apply Permutation_in;
      [exact Hperm | apply Permutation_sym; exact Hperm]. }
  rewrite Hlen. exact Hlt.
Qed.

Lemma flushed_rows (records : list FlowRecord) (added : list Flow.t) :
  Forall2 (fun o o' => exists k, o' = Flow.set_id o k)
    (map to_flow_model records) added ->
  map spec.key_of added = map key records /\
  map Flow.pkt_count added = map pkt_count records.
Proof.
  revert added. induction records as [|r records IH]; intros added H;
    inversion H; subst; simpl; [auto|].
  destruct (IH _ H4) as [Hk Hc]. destruct H2 as [k ->].
  rewrite Hk, Hc. split; [|reflexivity].
  f_equal. unfold spec.key_of. simpl. destruct (key r); reflexivity.
Qed.

(** X1. An ingest run into an empty flow table that never flushes before the
    end (the eager mode, or the streaming mode with fewer distinct 5-tuples
    than the batch size) persists one row per distinct 5-tuple of the
    capture, and the packet counts of the rows add up to the number of
    parseable packets. *)
Theorem ingest_exact_without_early_flush (self : PcapIngestor)
        (pcap : list Packet) (streaming : bool) :
  models.flows (models.committed (db_manager self)) = [] ->
  streaming = false \/ spec.K pcap < batch_size self ->
  let out := ingest_pcap self pcap streaming in
  let rows := models.flows (models.committed (db_manager (snd out))) in
  Z.of_nat (List.length rows) = spec.K pcap /\
  spec.total_pkt_count rows = spec.M pcap /\
  fst out = spec.K pcap /\
  NoDup (map spec.key_of rows) /\
  (forall k, In k (map spec.key_of rows) <-> In k (spec.parseable_keys pcap)).
Proof.
  intros Hempty Hmode. cbv zeta. unfold ingest_pcap.
  set (self0 := mkPcapIngestor (db_manager self) (batch_size self) []).
  assert (H0 : tracks [] (flows self0)).
  { unfold tracks; simpl. split; [constructor|]. split; [tauto|].
    split; [constructor | reflexivity]. }
  assert (Hloop : (if streaming
                   then fold_left streaming_step pcap self0
                   else fold_left eager_step pcap self0) =
                  fold_left eager_step pcap self0).
  { destruct streaming; [|reflexivity].
    destruct Hmode as [Hm|Hm]; [discriminate|].
    apply (streaming_loop_below_batch pcap self0 [] H0). exact Hm. }
  rewrite Hloop. clear Hloop.
  destruct (eager_loop_tracks pcap self0 [] H0) as (HT & Hdb & Hbs).
  simpl app in HT.
  set (self1 := fold_left eager_step pcap self0) in *.
  destruct (flush_flows_spec self1) as (Hfl & _ & _ & added & Hadded & H2).
  cbn [fst snd]. rewrite Hfl, Hadded, Hdb. simpl db_manager. rewrite Hempty.
  simpl app.
  destruct (flushed_rows _ _ H2) as [Hkeys Hcounts].
  destruct HT as (Hnd & Hin & Hown & Hsum).
  assert (Hkd : map key (values (flows self1)) = map fst (flows self1)).
  { unfold values. rewrite map_map. apply map_ext_in. intros kv Hkv.
    rewrite Forall_forall in Hown. apply Hown, Hkv. }
  assert (Hlen : List.length added = List.length (flows self1)).
  { rewrite <- (length_map spec.key_of), Hkeys, Hkd, length_map. reflexivity. }
  pose proof (tracks_length _ _ (conj Hnd (conj Hin (conj Hown Hsum)))) as HK.
  split; [|split; [|split; [|split]]].
  - unfold spec.K. rewrite Hlen, HK. reflexivity.
  - unfold spec.total_pkt_count, spec.M. rewrite Hcounts. exact Hsum.
  - unfold spec.K. rewrite HK. reflexivity.
  - rewrite Hkeys, Hkd. exact Hnd.
  - intros k. rewrite Hkeys, Hkd. apply Hin.
Qed.

Lemma ingest_exact_without_early_flush_witness :
  Z.of_nat (List.length
              (models.flows
                 (models.committed
                    (db_manager
                       (snd (ingest_pcap (PcapIngestor_init fixtures.empty_db 1000)
                               fixtures.scenario1_capture true)))))) =
  spec.K fixtures.scenario1_capture.
Proof.
  refine (proj1 (ingest_exact_without_early_flush
                   (PcapIngestor_init fixtures.empty_db 1000)
                   fixtures.scenario1_capture true _ _)).
  - reflexivity.
  - right. vm_compute. reflexivity.
Defined.

(** C1 fails on the code: in streaming mode a flush does not clear the
    dictionary. On a capture of two packets of one flow (K = 1, M = 2) and
    a batch size of 1, the first packet is flushed once and both packets
    twice more (after the second packet and at the end): three rows whose
    packet counts add up to 5. The eager mode persists one row of 2
    packets. *)
Theorem C1_streaming_flush_keeps_accumulators :
  spec.K fixtures.two_packet_capture = 1 /\
  spec.M fixtures.two_packet_capture = 2 /\
  (let out := ingest_pcap (PcapIngestor_init fixtures.empty_db 1)
                fixtures.two_packet_capture true in
   let rows := models.flows (models.committed (db_manager (snd out))) in
   map Flow.pkt_count rows = [1; 2; 2] /\
   Z.of_nat (List.length rows) = 3 /\
   spec.total_pkt_count rows = 5 /\
   List.length (flows (snd out)) = 1%nat /\
   fst out = 1) /\
  (let out := ingest_pcap (PcapIngestor_init fixtures.empty_db 1)
                fixtures.two_packet_capture false in
   let rows := models.flows (models.committed (db_manager (snd out))) in
   map Flow.pkt_count rows = [2] /\
   spec.total_pkt_count rows = 2) /\
  (let self1 := streaming_step (PcapIngestor_init fixtures.empty_db 1)
                  (fixtures.relay_packet 50000 10000000 60) in
   List.length (models.flows (models.committed (db_manager self1))) = 1%nat /\
   List.length (flows self1) = 1%nat).
Proof.
  repeat split; vm_compute; reflexivity.
Qed.

End IngestCounts.

(** ** The correlator *)

Section Correlator.

Import correlation_engine inv.

(** *** The weight of a pair *)

Lemma timing_score_spec (dt : float) :
  PrimFloat.add 0%float (timing_score_of dt) = spec.timing dt.
Proof.
  unfold timing_score_of, spec.timing.
  destruct (PrimFloat.ltb dt 1); [vm_compute; reflexivity|].
  destruct (PrimFloat.ltb dt 5); [vm_compute; reflexivity|].
  destruct (PrimFloat.ltb dt 10); vm_compute; reflexivity.
Qed.

(** The weight computed by the code is the weight of the specification. *)
Lemma calculate_correlation_weight (session : models.Session)
      (flow1 flow2 : Flow.t) (entry_exit : bool) (ratio : option float) :
  _check_entry_exit_pattern flow1 flow2 session = py.Ok entry_exit ->
  spec.size_ratio flow1 flow2 = option_map py.Ok ratio ->
  exists evidence,
    _calculate_correlation flow1 flow2 session =
      py.Ok (spec.weight (time_diff_seconds flow1 flow2) entry_exit ratio
               (String.eqb (Flow.src_ip flow1) (Flow.src_ip flow2)),
             evidence) /\
    ev_get "type" evidence =
      (if entry_exit then Some (EvStr "entry_exit") else None).
Proof.
  intros Hee Hratio. unfold _calculate_correlation, spec.weight.
  rewrite Hee. cbn [py.bind]. rewrite timing_score_spec.
  unfold spec.size_ratio in Hratio.
  destruct ((0 <? Flow.pkt_count flow1) && (0 <? Flow.pkt_count flow2)).
  - destruct ratio as [r|]; [|discriminate].
    cbn [option_map] in Hratio. injection Hratio as Hr.
    rewrite Hr. cbn [py.bind]. rewrite (float_mul_comm r).
    destruct entry_exit, (String.eqb (Flow.src_ip flow1) (Flow.src_ip flow2));
      eexists; (split; [reflexivity|]); reflexivity.
  - destruct ratio as [r|]; [discriminate|]. cbn [py.bind].
    destruct entry_exit, (String.eqb (Flow.src_ip flow1) (Flow.src_ip flow2));
      eexists; (split; [reflexivity|]); reflexivity.
Qed.

(** When the entry/exit test answers, it answers as the specification
    words the pattern. *)
Lemma check_entry_exit_pattern_ok (session : models.Session)
      (flow1 flow2 : Flow.t) (answer : bool) :
  _check_entry_exit_pattern flow1 flow2 session = py.Ok answer ->
  answer = spec.entry_exit session flow1 flow2.
Proof.
  unfold _check_entry_exit_pattern, spec.entry_exit, spec.has_flag, has_flags,
    flag_in.
  destruct (models.tor_node_by_ip session (Flow.dst_ip flow1)) as [n1|];
    destruct (models.tor_node_by_ip session (Flow.dst_ip flow2)) as [n2|];
    cbn [py.bind].
  - destruct (TorNode.flags n1) as [[|x l1]|]; cbn [py.bind].
    + intros H; injection H as <-. reflexivity.
    + destruct (py.contains "Guard" (x :: l1)); cbn [py.bind andb orb].
      * destruct (TorNode.flags n2) as [l2|]; cbn [py.bind];
          [|discriminate].
        destruct (py.contains "Exit" l2); intros H; injection H as <-;
          reflexivity.
      * intros H; injection H as <-. reflexivity.
    + intros H; injection H as <-. reflexivity.
  - destruct (TorNode.flags n1) as [[|x l1]|]; cbn [py.bind];
      try (intros H; injection H as <-; reflexivity).
    destruct (py.contains "Guard" (x :: l1)); cbn [py.bind];
      intros H; injection H as <-; reflexivity.
  - intros H; injection H as <-. reflexivity.
  - intros H; injection H as <-. reflexivity.
Qed.

(** When the weight of a pair is computed, it is the weight of the
    specification, with the ratio of mean sizes where the code computes
    one, and the evidence names the type [entry_exit] on a match only. *)
Lemma calculate_correlation_ok (session : models.Session)
      (flow1 flow2 : Flow.t) (w : float) (evidence : Evidence) :
  _calculate_correlation flow1 flow2 session = py.Ok (w, evidence) ->
  exists ratio,
    spec.size_ratio flow1 flow2 = option_map py.Ok ratio /\
    w = spec.weight (time_diff_seconds flow1 flow2)
          (spec.entry_exit session flow1 flow2) ratio
          (String.eqb (Flow.src_ip flow1) (Flow.src_ip flow2)) /\
    ev_get "type" evidence =
      (if spec.entry_exit session flow1 flow2
       then Some (EvStr "entry_exit") else None).
Proof.
  intros Hcalc.
  destruct (_check_entry_exit_pattern flow1 flow2 session) as [answer|e] eqn:Hee.
  2:{ unfold _calculate_correlation in Hcalc. rewrite Hee in Hcalc.
      discriminate Hcalc. }
  pose proof (check_entry_exit_pattern_ok _ _ _ _ Hee) as Hans. subst answer.
  assert (Hratio : exists ratio,
             spec.size_ratio flow1 flow2 = option_map py.Ok ratio).
  { unfold spec.size_ratio.
    unfold _calculate_correlation in Hcalc. rewrite Hee in Hcalc.
    cbn [py.bind] in Hcalc.
    destruct ((0 <? Flow.pkt_count flow1) && (0 <? Flow.pkt_count flow2));
      [|exists None; reflexivity].
    destruct (py.float_div _ _) as [r|e]; [exists (Some r); reflexivity|].
    destruct (spec.entry_exit session flow1 flow2); discriminate Hcalc. }
  destruct Hratio as [ratio Hratio]. exists ratio. split; [exact Hratio|].
  destruct (calculate_correlation_weight session flow1 flow2 _ ratio Hee Hratio)
    as (evidence' & Hcalc' & Htype).
  rewrite Hcalc in Hcalc'. injection Hcalc' as -> ->. auto.
Qed.

(** Scenario 2: the pass persists one row of type [entry_exit], of weight
    0.4 + 0.3 + 0.2 + 0.1 as binary64 adds them up. *)
Example scenario2_one_row :
  fst (correlate_flows fixtures.scenario2_engine 0.3%float) = py.Ok 1 /\
  map body
    (models.correlations
       (models.committed
          (db_manager (snd (correlate_flows fixtures.scenario2_engine 0.3%float))))) =
    [ (1, 2, 0.99999999999999989%float, "entry_exit",
       [ ("timing_diff_seconds", EvFloat 0.5);
         ("timing_score", EvFloat 0.4);
         ("type", EvStr "entry_exit");
         ("entry_exit_pattern", EvBool true);
         ("size_similarity", EvFloat 0.2);
         ("same_source", EvBool true) ]) ].
Proof. split; vm_compute; reflexivity. Qed.

(** No clamp is applied to the weight: on two rows with byte counts -4 and
    -1 the ratio min/max is 4 and the stored weight is above 1. *)
Example weight_above_one :
  match correlate_pair 0.3%float (fixtures.negative_flow 1 50000 (-4))
          (fixtures.negative_flow 2 50001 (-1)) models.empty_tables 0 with
  | py.Ok (s, _) =>
      map (fun c => PrimFloat.ltb 1%float (Correlation.correlation_weight c))
        (models.correlations s) = [ true ]
  | py.Raise _ => False
  end.
Proof. vm_compute. reflexivity. Qed.

(** Where both flows have packets and no bytes, the ratio is 0/0 and the
    pair step raises. *)
Example zero_sizes_raise :
  spec.size_ratio (fixtures.empty_flow 1 50000) (fixtures.empty_flow 2 50001) =
    Some (py.Raise (py.ZeroDivisionError "float division by zero")) /\
  correlate_pair 0.3%float (fixtures.empty_flow 1 50000)
    (fixtures.empty_flow 2 50001) models.empty_tables 0 =
    py.Raise (py.ZeroDivisionError "float division by zero").
Proof. split; vm_compute; reflexivity. Qed.

(** Scenario 6: flows that start 11 seconds apart are not paired. Scenario
    3: a flow from a public address is on neither side of a row. *)
Example scenario6_and_scenario3 :
  fst (correlate_flows fixtures.scenario6_engine 0.3%float) = py.Ok 0 /\
  map (fun c => (Correlation.flow_id c, Correlation.correlated_flow_id c))
    (models.correlations
       (models.committed
          (db_manager (snd (correlate_flows fixtures.scenario3_engine 0.3%float))))) =
    [(1, 2)].
Proof. split; vm_compute; reflexivity. Qed.

(** *** Two passes over the same flows *)

Lemma appended_nil (s : models.Session) : appended s s [].
Proof. unfold appended. rewrite app_nil_r. auto. Qed.

Lemma appended_same_inputs (s s' : models.Session) (rows : list Correlation.t) :
  appended s s' rows -> same_inputs s s'.
Proof. intros (Hf & Hn & _). split; assumption. Qed.

Lemma appended_trans (s s' s'' : models.Session) (rows rows' : list Correlation.t) :
  appended s s' rows -> appended s' s'' rows' -> appended s s'' (rows ++ rows').
Proof.
  intros (Hf & Hn & Hc) (Hf' & Hn' & Hc'). unfold appended.
  rewrite Hf', Hf, Hn', Hn, Hc', Hc, app_assoc. auto.
Qed.

Lemma agree_refl_ok (s : models.Session) (c : Z) (s2 : models.Session) (c2 : Z) :
  agree s c s2 c2 (py.Ok (s, c)) (py.Ok (s2, c2)).
Proof.
  exists [], []. simpl. rewrite !Z.add_0_r.
  split; [apply appended_nil|]. split; [apply appended_nil|]. auto.
Qed.

(** Runs that end alike, continued by runs that end alike, end alike. *)
Lemma agree_bind (s : models.Session) (c : Z) (s2 : models.Session) (c2 : Z)
      (r r2 : py.result (models.Session * Z))
      (k k2 : models.Session * Z -> py.result (models.Session * Z)) :
  same_inputs s s2 ->
  agree s c s2 c2 r r2 ->
  (forall s' c' s2' c2',
      same_inputs s' s2' ->
      agree s' c' s2' c2' (k (s', c')) (k2 (s2', c2'))) ->
  agree s c s2 c2 (py.bind r k) (py.bind r2 k2).
Proof.
  intros [Hsf Hsn] Hr Hk.
  destruct r as [[s' c']|e], r2 as [[s2' c2']|e2]; simpl in *; try tauto.
  destruct Hr as (rows & rows2 & Ha & Ha2 & Hb & Hc & Hc2).
  assert (Hsame : same_inputs s' s2').
  { destruct Ha as (Hf & Hn & _), Ha2 as (Hf2 & Hn2 & _). unfold same_inputs.
    rewrite Hf, Hn, Hf2, Hn2. auto. }
  specialize (Hk s' c' s2' c2' Hsame).
  destruct (k (s', c')) as [[s'' c'']|e], (k2 (s2', c2')) as [[s2'' c2'']|e2];
    simpl in *; try tauto.
  destruct Hk as (rows' & rows2' & Ha' & Ha2' & Hb' & Hc' & Hc2').
  exists (rows ++ rows'), (rows2 ++ rows2').
  split; [eapply appended_trans; eassumption|].
  split; [eapply appended_trans; eassumption|].
  rewrite !map_app, !length_app, Hb, Hb'. split; [reflexivity|]. lia.
Qed.

Lemma calculate_correlation_same (s s2 : models.Session) (flow1 flow2 : Flow.t) :
  same_inputs s s2 ->
  _calculate_correlation flow1 flow2 s2 = _calculate_correlation flow1 flow2 s.
Proof.
  intros [_ Hn].
  unfold _calculate_correlation, _check_entry_exit_pattern, models.tor_node_by_ip.
  rewrite Hn. reflexivity.
Qed.

Lemma correlate_pair_agree (min_weight : float) (flow1 flow2 : Flow.t)
      (s : models.Session) (c : Z) (s2 : models.Session) (c2 : Z) :
  same_inputs s s2 ->
  agree s c s2 c2 (correlate_pair min_weight flow1 flow2 s c)
                  (correlate_pair min_weight flow1 flow2 s2 c2).
Proof.
  intros Hsame. unfold correlate_pair.
  rewrite (calculate_correlation_same s s2 flow1 flow2 Hsame).
  destruct (_calculate_correlation flow1 flow2 s) as [[w ev]|e]; simpl;
    [|reflexivity].
  destruct (PrimFloat.leb min_weight w); [|apply agree_refl_ok].
  eexists [_], [_]. unfold appended, add_correlation; simpl.
  repeat split.
Qed.

Lemma inner_loop_agree (self self2 : CorrelationEngine) (min_weight : float)
      (internal_ips : list string) (flow1 : Flow.t) (rest : list Flow.t) :
  time_window self2 = time_window self ->
  forall s c s2 c2,
    same_inputs s s2 ->
    agree s c s2 c2
      (inner_loop self min_weight internal_ips flow1 rest s c)
      (inner_loop self2 min_weight internal_ips flow1 rest s2 c2).
Proof.
  intros Htw. induction rest as [|flow2 rest IH]; intros s c s2 c2 Hsame; simpl.
  - apply agree_refl_ok.
  - destruct (_is_internal_ip (Flow.src_ip flow2) (Some internal_ips)) as [v|e];
      simpl; [|reflexivity].
    destruct v; simpl; [|apply IH; exact Hsame].
    rewrite Htw.
    destruct (PrimFloat.ltb _ _); [apply agree_refl_ok|].
    apply agree_bind; [exact Hsame | apply correlate_pair_agree; exact Hsame|].
    intros s' c' s2' c2' Hsame'. simpl. apply IH. exact Hsame'.
Qed.

Lemma outer_loop_agree (self self2 : CorrelationEngine) (min_weight : float)
      (internal_ips : list string) (tor_flows : list Flow.t) :
  time_window self2 = time_window self ->
  forall s c s2 c2,
    same_inputs s s2 ->
    agree s c s2 c2
      (outer_loop self min_weight internal_ips tor_flows s c)
      (outer_loop self2 min_weight internal_ips tor_flows s2 c2).
Proof.
  intros Htw. induction tor_flows as [|flow1 rest IH];
    intros s c s2 c2 Hsame; simpl.
  - apply agree_refl_ok.
  - destruct (_is_internal_ip (Flow.src_ip flow1) (Some internal_ips)) as [v|e];
      simpl; [|reflexivity].
    destruct v; simpl; [|apply IH; exact Hsame].
    apply agree_bind;
      [exact Hsame | apply inner_loop_agree; assumption|].
    intros s' c' s2' c2' Hsame'. simpl. apply IH. exact Hsame'.
Qed.

(** *** Every persisted row reaches the minimum weight *)

Lemma correlate_pair_sound (min_weight : float) (candidates : list Flow.t)
      (s0 : models.Session) (flow1 flow2 : Flow.t) (s : models.Session) (c : Z)
      (s' : models.Session) (c' : Z) :
  same_inputs s0 s -> In flow1 candidates -> In flow2 candidates ->
  correlate_pair min_weight flow1 flow2 s c = py.Ok (s', c') ->
  exists rows, appended s s' rows /\
               Forall (row_of_pair s0 min_weight candidates) rows.
Proof.
  intros Hsame H1 H2. unfold correlate_pair.
  rewrite (calculate_correlation_same s0 s flow1 flow2 Hsame).
  destruct (_calculate_correlation flow1 flow2 s0) as [[w ev]|e] eqn:Hcalc;
    simpl; [|discriminate].
  destruct (PrimFloat.leb min_weight w) eqn:Hgate; intros H; injection H as <- <-.
  - eexists [_]. split; [unfold appended, add_correlation; simpl; auto|].
    constructor; [|constructor].
    exists flow1, flow2, w, ev. simpl. auto 10.
  - exists []. split; [apply appended_nil | constructor].
Qed.

Lemma same_inputs_appended (s0 s s' : models.Session) (rows : list Correlation.t) :
  same_inputs s0 s -> appended s s' rows -> same_inputs s0 s'.
Proof.
  intros [Hf Hn] (Hf' & Hn' & _). unfold same_inputs.
  rewrite Hf', Hn', Hf, Hn. auto.
Qed.

Lemma inner_loop_sound (self : CorrelationEngine) (min_weight : float)
      (internal_ips : list string) (candidates : list Flow.t)
      (s0 : models.Session) (flow1 : Flow.t) (rest : list Flow.t) :
  In flow1 candidates -> incl rest candidates ->
  forall s c s' c',
    same_inputs s0 s ->
    inner_loop self min_weight internal_ips flow1 rest s c = py.Ok (s', c') ->
    exists rows, appended s s' rows /\
                 Forall (row_of_pair s0 min_weight candidates) rows.
Proof.
  intros H1. induction rest as [|flow2 rest IH]; intros Hincl s c s' c' Hsame;
    simpl.
  - intros H; injection H as <- <-.
    exists []. split; [apply appended_nil | constructor].
  - assert (Hrest : incl rest candidates)
      by (intros x Hx; apply Hincl; right; exact Hx).
    destruct (_is_internal_ip (Flow.src_ip flow2) (Some internal_ips)) as [v|e];
      simpl; [|discriminate].
    destruct v; simpl; [|apply (IH Hrest); exact Hsame].
    destruct (PrimFloat.ltb _ _).
    + intros H; injection H as <- <-.
      exists []. split; [apply appended_nil | constructor].
    + destruct (correlate_pair min_weight flow1 flow2 s c) as [[s1 c1]|e]
        eqn:Hpair; simpl; [|discriminate].
      intros Hloop.
      destruct (correlate_pair_sound min_weight candidates s0 flow1 flow2 s c
                  s1 c1 Hsame H1 (Hincl flow2 (or_introl eq_refl)) Hpair)
        as (rows1 & Ha1 & HF1).
      destruct (IH Hrest s1 c1 s' c' (same_inputs_appended _ _ _ _ Hsame Ha1) Hloop)
        as (rows2 & Ha2 & HF2).
      exists (rows1 ++ rows2).
      split; [eapply appended_trans; eassumption | apply Forall_app; auto].
Qed.

Lemma outer_loop_sound (self : CorrelationEngine) (min_weight : float)
      (internal_ips : list string) (candidates : list Flow.t)
      (s0 : models.Session) (tor_flows : list Flow.t) :
  incl tor_flows candidates ->
  forall s c s' c',
    same_inputs s0 s ->
    outer_loop self min_weight internal_ips tor_flows s c = py.Ok (s', c') ->
    exists rows, appended s s' rows /\
                 Forall (row_of_pair s0 min_weight candidates) rows.
Proof.
  induction tor_flows as [|flow1 rest IH]; intros Hincl s c s' c' Hsame; simpl.
  - intros H; injection H as <- <-.
    exists []. split; [apply appended_nil | constructor].
  - assert (Hrest : incl rest candidates)
      by (intros x Hx; apply Hincl; right; exact Hx).
    destruct (_is_internal_ip (Flow.src_ip flow1) (Some internal_ips)) as [v|e];
      simpl; [|discriminate].
    destruct v; simpl; [|apply (IH Hrest); exact Hsame].
    destruct (inner_loop self min_weight internal_ips flow1 rest s c)
      as [[s1 c1]|e] eqn:Hinner; simpl; [|discriminate].
    intros Hloop.
    destruct (inner_loop_sound self min_weight internal_ips candidates s0 flow1
                rest (Hincl flow1 (or_introl eq_refl)) Hrest s c s1 c1 Hsame Hinner)
      as (rows1 & Ha1 & HF1).
    destruct (IH Hrest s1 c1 s' c' (same_inputs_appended _ _ _ _ Hsame Ha1) Hloop)
      as (rows2 & Ha2 & HF2).
    exists (rows1 ++ rows2).
    split; [eapply appended_trans; eassumption | apply Forall_app; auto].
Qed.

(** X2. A pass that returns appends only rows made for pairs of flows with an
    indicator, each with the weight computed for its pair, which reaches
    the minimum weight of the pass. *)
Theorem correlate_flows_rows_sound (self self1 : CorrelationEngine)
        (min_correlation_weight : float) (n : Z) :
  correlate_flows self min_correlation_weight = (py.Ok n, self1) ->
  exists rows,
    models.correlations (models.committed (db_manager self1)) =
      models.correlations (models.committed (db_manager self)) ++ rows /\
    Forall (row_of_pair (models.committed (db_manager self))
              min_correlation_weight
              (filter is_tor_related
                 (models.flows (models.committed (db_manager self)))))
      rows.
Proof.
  unfold correlate_flows. simpl.
  set (s := models.committed (db_manager self)).
  destruct (_get_internal_ips s) as [ips|e]; simpl; [|discriminate].
  destruct (outer_loop self min_correlation_weight ips (tor_flows_query s) s 0)
    as [[s1 n1]|e] eqn:Hout; [|discriminate].
  intros H. injection H as _ <-. simpl.
  assert (Hincl : incl (tor_flows_query s)
                    (filter is_tor_related (models.flows s))).
  { unfold tor_flows_query, order_by_ts_start.
    induction (filter is_tor_related (models.flows s)) as [|f l IHl]; simpl.
    - intros x [].
    - intros x Hx.
      assert (Hins : forall g l', In x (insert_by_ts_start g l') -> x = g \/ In x l').
      { intros g l'. induction l' as [|h l' IHl']; simpl.
        - intros [->|[]]; auto.
        - destruct (Flow.ts_start g <=? Flow.ts_start h); simpl.
          + intros [->|[->|H]]; auto.
          + intros [->|H]; [auto|]. destruct (IHl' H); auto. }
      destruct (Hins _ _ Hx) as [->|H]; [left; reflexivity|].
      right. apply IHl, H. }
  destruct (outer_loop_sound self min_correlation_weight ips _ s
              (tor_flows_query s) Hincl s 0 s1 n1 (conj eq_refl eq_refl) Hout)
    as (rows & (_ & _ & Hrows) & HF).
  exists rows. split; assumption.
Qed.

Lemma correlate_flows_rows_sound_witness :
  exists rows,
    models.correlations
      (models.committed
         (db_manager (snd (correlate_flows fixtures.scenario2_engine 0.3%float)))) =
      models.correlations (models.committed fixtures.scenario2_db) ++ rows /\
    Forall (row_of_pair (models.committed fixtures.scenario2_db) 0.3%float
              (filter is_tor_related
                 (models.flows (models.committed fixtures.scenario2_db))))
      rows.
Proof.
  apply (correlate_flows_rows_sound fixtures.scenario2_engine
           (snd (correlate_flows fixtures.scenario2_engine 0.3%float))
           0.3%float 1).
  vm_compute. reflexivity.
Defined.

End Correlator.

(** ** The unit tests of the repository, run on the model *)

Section UnitTests.

(** [test_flow_key_equality]. *)
Example test_flow_key_equality :
  pcap_ingest.FlowKey_eq fixtures.test_key
    (pcap_ingest.mkFlowKey "192.168.1.1" 5000 "10.0.0.1" 80 "TCP") = true /\
  pcap_ingest.FlowKey_eq fixtures.test_key
    (pcap_ingest.mkFlowKey "192.168.1.2" 5000 "10.0.0.1" 80 "TCP") = false.
Proof. split; reflexivity. Qed.

(** [test_flow_record_update]. *)
Example test_flow_record_update :
  let record := pcap_ingest.FlowRecord_init fixtures.test_key 1000000000 in
  let record' :=
    pcap_ingest.update record 1001000000 (Some (py.b "test payload")) 100 in
  pcap_ingest.pkt_count record = 0 /\
  pcap_ingest.byte_count record = 0 /\
  pcap_ingest.pkt_count record' = 1 /\
  pcap_ingest.byte_count record' = 100 /\
  pcap_ingest.payload_sample record' = Some (py.b "test payload").
Proof. repeat split. Qed.

(** [test_flow_to_model_conversion]. *)
Example test_flow_to_model_conversion :
  let record :=
    pcap_ingest.update (pcap_ingest.FlowRecord_init fixtures.test_key 1000000000)
      1001000000 (Some (py.b "test")) 100 in
  let flow_model := pcap_ingest.to_flow_model record in
  Flow.src_ip flow_model = "192.168.1.1" /\
  Flow.src_port flow_model = 5000 /\
  Flow.dst_ip flow_model = "10.0.0.1" /\
  Flow.dst_port flow_model = 80 /\
  Flow.protocol flow_model = "TCP" /\
  Flow.pkt_count flow_model = 1 /\
  Flow.byte_count flow_model = 100 /\
  Flow.payload_sample flow_model = Some "dGVzdA==".
Proof. repeat split. Qed.

(** [test_pcap_ingestion]: fifteen flows of one packet each. *)
Example test_pcap_ingestion :
  let out := pcap_ingest.ingest_pcap
               (pcap_ingest.PcapIngestor_init fixtures.empty_db 10)
               fixtures.sample_pcap false in
  let rows := models.flows (models.committed (pcap_ingest.db_manager (snd out))) in
  fst out = 15 /\
  List.length rows = 15%nat /\
  forallb (fun f => (String.eqb (Flow.protocol f) "TCP"
                     || String.eqb (Flow.protocol f) "UDP")
                    && (0 <? Flow.pkt_count f) && (0 <? Flow.byte_count f))
    rows = true.
Proof. repeat split; vm_compute; reflexivity. Qed.

(** [test_score_flow] and [test_score_all_flows]. *)
Example test_score_flow :
  let scorer := confidence.mkConfidenceScorer fixtures.sample_flows_db in
  fst (confidence.score_flow scorer 1) =
    py.Ok (45%float, confidence.mkScoreComponents 40 0 0 5 45) /\
  fst (confidence.score_all_flows scorer) = 2 /\
  map Flow.confidence_category
    (models.flows
       (models.committed
          (confidence.db_manager (snd (confidence.score_all_flows scorer))))) =
    [Some "Medium"; Some "Low"].
Proof. repeat split; vm_compute; reflexivity. Qed.

End UnitTests.

(* ================================================================= *)
(** * Further properties of the code *)

(** ** The order of binary64 values *)

Section FloatOrder.

Import props.

Lemma SFleb_le_cmp (x y : spec_float) : SFleb x y = le_cmp (SFcompare x y).
Proof. unfold SFleb, le_cmp. destruct (SFcompare x y) as [[]|]; reflexivity. Qed.

Ltac cmp_cases :=
  repeat match goal with
  | |- context [Z.compare ?a ?b] => destruct (Z.compare_spec a b)
  | |- context [Pos.compare_cont Eq ?a ?b] =>
      change (Pos.compare_cont Eq a b) with (Pos.compare a b);
      destruct (Pos.compare_spec a b)
  | H : context [Z.compare ?a ?b] |- _ => destruct (Z.compare_spec a b)
  | H : context [Pos.compare_cont Eq ?a ?b] |- _ =>
      change (Pos.compare_cont Eq a b) with (Pos.compare a b) in H;
      destruct (Pos.compare_spec a b)
  end.

Ltac sf_cases :=
  simpl; try reflexivity; try discriminate; intros;
  cmp_cases; simpl in *; try reflexivity; try discriminate; try lia.

Lemma SFleb_trans (x y z : spec_float) :
  SFleb x y = true -> SFleb y z = true -> SFleb x z = true.
Proof.
  rewrite !SFleb_le_cmp.
  destruct x as [sx|sx| |sx mx ex], y as [sy|sy| |sy my ey],
           z as [sz|sz| |sz mz ez];
    try destruct sx; try destruct sy; try destruct sz; sf_cases.
Qed.

Lemma SFltb_SFleb (x y : spec_float) : SFltb x y = true -> SFleb x y = true.
Proof. unfold SFltb, SFleb. destruct (SFcompare x y) as [[]|]; auto. Qed.

Lemma SFltb_not_SFleb (x y : spec_float) :
  SFltb x y = true -> SFleb y x = false.
Proof.
  unfold SFltb. rewrite SFleb_le_cmp.
  destruct x as [sx|sx| |sx mx ex], y as [sy|sy| |sy my ey];
    try destruct sx; try destruct sy; sf_cases.
Qed.

(** Of two values that compare, one is below the other. *)
Lemma SFleb_total (x y z : spec_float) :
  SFleb z x = true -> SFleb y y = true -> SFltb x y = false ->
  SFleb y x = true.
Proof.
  unfold SFltb. rewrite !SFleb_le_cmp.
  destruct x as [sx|sx| |sx mx ex], y as [sy|sy| |sy my ey],
           z as [sz|sz| |sz mz ez];
    try destruct sx; try destruct sy; try destruct sz; sf_cases.
Qed.

Lemma leb_trans (x y z : float) :
  PrimFloat.leb x y = true -> PrimFloat.leb y z = true ->
  PrimFloat.leb x z = true.
Proof. rewrite !leb_spec. apply SFleb_trans. Qed.

Lemma ltb_leb (x y : float) :
  PrimFloat.ltb x y = true -> PrimFloat.leb x y = true.
Proof. rewrite ltb_spec, leb_spec. apply SFltb_SFleb. Qed.

Lemma ltb_not_leb (x y : float) :
  PrimFloat.ltb x y = true -> PrimFloat.leb y x = false.
Proof. rewrite ltb_spec, leb_spec. apply SFltb_not_SFleb. Qed.

(** [x] is not a NaN (it is above some [z]) and [y] is not (it equals
    itself): if [x < y] fails then [y <= x]. *)
Lemma not_ltb_leb (x y z : float) :
  PrimFloat.leb z x = true -> PrimFloat.leb y y = true ->
  PrimFloat.ltb x y = false -> PrimFloat.leb y x = true.
Proof. rewrite ltb_spec, !leb_spec. apply SFleb_total. Qed.

End FloatOrder.

(** ** The scorer: ranges, labels and repeated passes *)

Section ScorerMore.

Import confidence props.

(** The clamp [max(0.0, min(100.0, x))] lands in [0, 100] for every [x],
    a NaN included. *)
Lemma clamp_in_range (x : float) :
  fle 0 (py.max 0 (py.min 100 x)) /\ fle (py.max 0 (py.min 100 x)) 100.
Proof.
  unfold fle, py.max, py.min.
  destruct (PrimFloat.ltb x 100) eqn:Hx.
  - destruct (PrimFloat.ltb 0 x) eqn:H0.
    + split; apply ltb_leb; assumption.
    + split; reflexivity.
  - split; reflexivity.
Qed.

Lemma get_category_is_category (score : float) :
  is_category (_get_category score).
Proof.
  unfold _get_category, CATEGORIES, category_loop, is_category.
  repeat match goal with
         | |- context [if ?c then _ else _] => destruct c
         end; auto.
Qed.

(** [score_one] writes a score in [0, 100] and the label of that score. *)
Lemma score_one_spec (session : models.Session) (flow : Flow.t) :
  let g := score_one session flow in
  same_but_confidence flow g /\
  fle 0 (Flow.confidence_score g) /\
  fle (Flow.confidence_score g) 100 /\
  Flow.confidence_category g = Some (_get_category (Flow.confidence_score g)) /\
  is_category (_get_category (Flow.confidence_score g)).
Proof.
  cbv zeta. unfold score_one. simpl.
  split; [eexists; eexists; reflexivity|].
  unfold _calculate_score. cbn [total].
  destruct (clamp_in_range
              (PrimFloat.add
                 (PrimFloat.add
                    (PrimFloat.add (_score_tor_node_match flow session)
                       (_score_timing_correlation flow session))
                    (_score_payload_patterns flow))
                 (_score_unusual_patterns flow))) as [H0 H100].
  split; [exact H0|]. split; [exact H100|]. split; [reflexivity|].
  apply get_category_is_category.
Qed.

(** X3. A scoring pass writes to every flow a score in [0, 100] and the label
    of that score, one of Low, Medium, High, Critical; it changes no other
    column, no other table and no row count, returns the number of flows
    and closes its session. This holds for any correlation weights, NaN
    and infinities included. *)
Theorem score_all_flows_writes_scores_in_range (self : ConfidenceScorer) :
  let before := models.committed (db_manager self) in
  let after := models.committed (db_manager (snd (score_all_flows self))) in
  fst (score_all_flows self) = Z.of_nat (List.length (models.flows before)) /\
  models.tor_nodes after = models.tor_nodes before /\
  models.correlations after = models.correlations before /\
  models.open_sessions (db_manager (snd (score_all_flows self))) =
    models.open_sessions (db_manager self) /\
  Forall2 (fun f g =>
             same_but_confidence f g /\
             fle 0 (Flow.confidence_score g) /\
             fle (Flow.confidence_score g) 100 /\
             Flow.confidence_category g =
               Some (_get_category (Flow.confidence_score g)) /\
             is_category (_get_category (Flow.confidence_score g)))
    (models.flows before) (models.flows after).
Proof.
  cbv zeta. unfold score_all_flows. simpl.
  do 4 (split; [reflexivity|]).
  induction (models.flows (models.committed (db_manager self))) as [|f l IH];
    simpl; constructor.
  - apply score_one_spec.
  - exact IH.
Qed.

(** X4. On a score that is at least 0 the label is the one of the half-open
    interval the score lies in: Low below 30, Medium below 60, High below
    85, Critical from 85 on (100 and more included). *)
Theorem get_category_on_range (score : float) :
  fle 0 score ->
  _get_category score =
  if PrimFloat.ltb score 30 then "Low"
  else if PrimFloat.ltb score 60 then "Medium"
  else if PrimFloat.ltb score 85 then "High"
  else "Critical".
Proof.
  unfold fle. intros H0.
  assert (Hge : forall b : float,
             PrimFloat.leb b b = true -> PrimFloat.ltb score b = false ->
             PrimFloat.leb b score = true).
  { intros b Hb Hlt. exact (not_ltb_leb score b 0 H0 Hb Hlt). }
  unfold _get_category, CATEGORIES, category_loop.
  change (py.float_of_int 0) with 0%float.
  change (py.float_of_int 30) with 30%float.
  change (py.float_of_int 60) with 60%float.
  change (py.float_of_int 85) with 85%float.
  change (py.float_of_int 100) with 100%float.
  rewrite H0. cbn [andb].
  destruct (PrimFloat.ltb score 30) eqn:H30; [reflexivity|].
  rewrite (Hge 30%float eq_refl H30). cbn [andb].
  destruct (PrimFloat.ltb score 60) eqn:H60; [reflexivity|].
  rewrite (Hge 60%float eq_refl H60). cbn [andb].
  destruct (PrimFloat.ltb score 85) eqn:H85; [reflexivity|].
  rewrite (Hge 85%float eq_refl H85). cbn [andb].
  destruct (PrimFloat.ltb score 100); reflexivity.
Qed.

Lemma get_category_on_range_witness :
  _get_category 59.5%float = "Medium" /\ _get_category 250%float = "Critical".
Proof.
  split.
  - rewrite (get_category_on_range 59.5%float); reflexivity.
  - rewrite (get_category_on_range 250%float); reflexivity.
Defined.

(** X5. A score below 0 falls through every interval and is labelled
    Critical. *)
Theorem get_category_below_zero (score : float) :
  flt score 0 -> _get_category score = "Critical".
Proof.
  unfold flt. intros Hneg.
  assert (Hlow : forall b : float,
             PrimFloat.leb 0 b = true -> PrimFloat.leb b score = false).
  { intros b Hb. destruct (PrimFloat.leb b score) eqn:E; [|reflexivity].
    rewrite <- (ltb_not_leb score 0 Hneg). symmetry.
    exact (leb_trans 0 b score Hb E). }
  unfold _get_category, CATEGORIES, category_loop.
  change (py.float_of_int 0) with 0%float.
  change (py.float_of_int 30) with 30%float.
  change (py.float_of_int 60) with 60%float.
  change (py.float_of_int 85) with 85%float.
  rewrite (Hlow 0%float eq_refl), (Hlow 30%float eq_refl),
    (Hlow 60%float eq_refl), (Hlow 85%float eq_refl).
  reflexivity.
Qed.

Lemma get_category_below_zero_witness :
  _get_category (-5)%float = "Critical".
Proof.
  apply get_category_below_zero. reflexivity.
Defined.

(** X6. The relay-node, payload and shape components stay within their
    budgets of 40, 20 and 10 whatever the flow and the store hold (the
    sums of bonuses go up to 72, 28 and 10 before the clamp), and the
    timing component of a flow without correlation is 0. *)
Theorem score_components_within_budget (flow : Flow.t) (session : models.Session) :
  let c := _calculate_score flow session in
  (fle 0 (tor_node_match c) /\ fle (tor_node_match c) 40) /\
  (fle 0 (payload_similarity c) /\ fle (payload_similarity c) 20) /\
  (fle 0 (unusual_patterns c) /\ fle (unusual_patterns c) 10) /\
  (correlation_engine.correlations_of session (Flow.id flow) = [] ->
   timing_correlation c = 0%float).
Proof.
  cbv zeta. unfold _calculate_score, fle.
  cbn [tor_node_match payload_similarity unusual_patterns timing_correlation].
  split; [|split; [|split]].
  - unfold _score_tor_node_match.
    destruct (models.tor_node_by_ip session (Flow.dst_ip flow)) as [n|].
    + destruct (correlation_engine.has_flags n);
        [destruct (flag_in "Guard" (TorNode.flags n)),
                  (flag_in "Exit" (TorNode.flags n)),
                  (flag_in "Fast" (TorNode.flags n))|];
        destruct (Flow.relay_comm flow), (Flow.directory_fetch flow),
                 (Flow.possible_tor_handshake flow),
                 (Flow.obfsproxy_candidate flow);
        split; vm_compute; reflexivity.
    + destruct (Flow.relay_comm flow), (Flow.directory_fetch flow),
               (Flow.possible_tor_handshake flow),
               (Flow.obfsproxy_candidate flow);
        split; vm_compute; reflexivity.
  - unfold _score_payload_patterns.
    destruct (tor_extractor.has_payload flow);
      [destruct (Flow.possible_tor_handshake flow),
                (Flow.obfsproxy_candidate flow),
                (10000 <? Flow.byte_count flow)|];
      split; vm_compute; reflexivity.
  - unfold _score_unusual_patterns.
    destruct (existsb _ _), (100 <? Flow.pkt_count flow);
      (destruct (Flow.ts_end flow) as [te|];
       [destruct (PrimFloat.ltb 60 (py.total_seconds (te - Flow.ts_start flow)))|]);
      split; vm_compute; reflexivity.
  - intros Hnone. unfold _score_timing_correlation. rewrite Hnone. reflexivity.
Qed.

Lemma score_components_within_budget_witness :
  timing_correlation
    (_calculate_score fixtures.entry_flow fixtures.scenario2_tables) = 0%float.
Proof.
  apply (score_components_within_budget fixtures.entry_flow
           fixtures.scenario2_tables).
  reflexivity.
Defined.

(** *** Repeated passes *)

Lemma calculate_score_set_confidence (f : Flow.t) (score : float)
      (category : string) (s s' : models.Session) :
  models.tor_nodes s' = models.tor_nodes s ->
  models.correlations s' = models.correlations s ->
  _calculate_score (Flow.set_confidence f score category) s' =
  _calculate_score f s.
Proof.
  intros Hn Hc.
  unfold _calculate_score, _score_tor_node_match, _score_timing_correlation,
    _score_payload_patterns, _score_unusual_patterns, models.tor_node_by_ip,
    correlation_engine.correlations_of, tor_extractor.has_payload.
  cbn [Flow.set_confidence Flow.dst_ip Flow.id Flow.relay_comm
       Flow.directory_fetch Flow.possible_tor_handshake Flow.obfsproxy_candidate
       Flow.payload_sample Flow.byte_count Flow.dst_port Flow.pkt_count
       Flow.ts_end Flow.ts_start].
  rewrite Hn, Hc. reflexivity.
Qed.

(** X7. Two scoring passes in a row leave the store as one pass does: the
    scores and labels are computed from columns and tables that a pass
    does not write. *)
Theorem score_all_flows_idempotent (self : ConfidenceScorer) :
  models.committed
    (db_manager (snd (score_all_flows (snd (score_all_flows self))))) =
  models.committed (db_manager (snd (score_all_flows self))).
Proof.
  unfold score_all_flows. simpl. f_equal.
  rewrite map_map. apply map_ext. intros f.
  unfold score_one.
  repeat match goal with
         | |- context [_calculate_score (Flow.set_confidence ?g ?x ?c) ?s'] =>
             rewrite (calculate_score_set_confidence g x c
                        (models.committed (db_manager self)) s' eq_refl eq_refl)
         end.
  reflexivity.
Qed.

Lemma find_map_preserved {A : Type} (p : A -> bool) (g : A -> A) (l : list A) :
  (forall x, p (g x) = p x) ->
  find p (map g l) = option_map g (find p l).
Proof.
  intros Hp. induction l as [|x l IH]; simpl; [reflexivity|].
  rewrite Hp. destruct (p x); [reflexivity | exact IH].
Qed.

(** X8. Scoring one flow that is in the store returns the components and the
    total that a scoring pass would write to that flow, and itself writes
    nothing and closes its session. *)
Theorem score_flow_agrees_with_pass (self : ConfidenceScorer) (flow_id : Z)
        (flow : Flow.t) :
  models.flow_by_id (models.committed (db_manager self)) flow_id =
    py.Ok (Some flow) ->
  let c := _calculate_score flow (models.committed (db_manager self)) in
  fst (score_flow self flow_id) = py.Ok (total c, c) /\
  models.committed (db_manager (snd (score_flow self flow_id))) =
    models.committed (db_manager self) /\
  models.open_sessions (db_manager (snd (score_flow self flow_id))) =
    models.open_sessions (db_manager self) /\
  models.flow_by_id
    (models.committed (db_manager (snd (score_all_flows self)))) flow_id =
    py.Ok (Some (Flow.set_confidence flow (total c) (_get_category (total c)))).
Proof.
  intros Hfind. cbv zeta.
  unfold score_flow, score_all_flows, models.get_session.
  cbv beta iota. rewrite Hfind. cbv beta iota.
  cbn [fst snd db_manager models.committed models.open_sessions models.close
       models.commit Nat.pred].
  do 3 (split; [reflexivity|]).
  unfold models.flow_by_id in *. cbn [models.flows].
  destruct (models.sqlite_int flow_id); [|discriminate Hfind].
  injection Hfind as Hfind.
  rewrite (find_map_preserved (fun f => Flow.id f =? flow_id)
             (score_one (models.committed (db_manager self))) _
             (fun x => eq_refl)).
  rewrite Hfind. reflexivity.
Qed.

Lemma score_flow_agrees_with_pass_witness :
  fst (score_flow fixtures.scenario1_scorer 1) =
    py.Ok (45%float, mkScoreComponents 40 0 0 5 45) /\
  models.flow_by_id
    (models.committed (db_manager (snd (score_all_flows fixtures.scenario1_scorer))))
    1 =
  py.Ok (Some (Flow.set_confidence
                 (Flow.set_relay_comm
                    (fixtures.plain_flow 1 "192.168.1.100" 50000 "185.220.101.1"
                       9001 1700000000000000 1700000009900000 100 10000) true)
                 45%float "Medium")).
Proof.
  pose proof (score_flow_agrees_with_pass fixtures.scenario1_scorer 1
                (Flow.set_relay_comm
                   (fixtures.plain_flow 1 "192.168.1.100" 50000 "185.220.101.1"
                      9001 1700000000000000 1700000009900000 100 10000) true))
    as H.
  cbv zeta in H.
  assert (Hfind : models.flow_by_id
             (models.committed (db_manager fixtures.scenario1_scorer)) 1 =
           py.Ok (Some (Flow.set_relay_comm
                   (fixtures.plain_flow 1 "192.168.1.100" 50000 "185.220.101.1"
                      9001 1700000000000000 1700000009900000 100 10000) true)))
    by (vm_compute; reflexivity).
  destruct (H Hfind) as (H1 & _ & _ & H4).
  split.
  - rewrite H1. vm_compute. reflexivity.
  - rewrite H4. vm_compute. reflexivity.
Defined.
End ScorerMore.

(* ----------------------------------------------------------------- *)
(** ** The classifier *)

Section ClassifierMore.
Import tor_extractor props.

Ltac flow_cbn :=
  cbn [Flow.dst_ip Flow.dst_port Flow.payload_sample Flow.set_relay_comm
       Flow.set_directory_fetch Flow.set_possible_tor_handshake
       Flow.set_obfsproxy_candidate Flow.set_indicators
       Flow.possible_tor_handshake Flow.relay_comm Flow.directory_fetch
       Flow.obfsproxy_candidate Flow.id Flow.src_ip Flow.src_port Flow.protocol
       Flow.ts_start Flow.ts_end Flow.pkt_count Flow.byte_count
       Flow.confidence_score Flow.confidence_category andb orb fst snd].

(** The classifier, rule by rule: each indicator is what it was or is set
    by its rule, and the returned value says whether a rule fired. *)
Lemma analyze_flow_eq (self : TorExtractor) (f : Flow.t) :
  _analyze_flow self f =
  (Flow.set_indicators f
     (Flow.possible_tor_handshake f || on_payload handshake_pattern f)
     (Flow.relay_comm f || known_relay self f || relay_port f)
     (Flow.directory_fetch f || directory_port f)
     (Flow.obfsproxy_candidate f || on_payload _check_obfsproxy_patterns f),
   known_relay self f || relay_port f || directory_port f
   || on_payload handshake_pattern f
   || on_payload _check_obfsproxy_patterns f).
Proof.
  destruct f as [k sip sport dip dport proto ts te n bc sample h r d o sc cat].
  unfold _analyze_flow, known_relay, relay_port, directory_port, on_payload,
    decoded_payload, handshake_pattern, has_payload, get, TOR_PORTS,
    TLS_CLIENT_HELLO, TOR_HANDSHAKE_PATTERNS.
  flow_cbn.
  destruct (py.contains dip (tor_node_ips self)); flow_cbn;
  destruct (existsb (Z.eqb dport) [9001; 9030; 9050; 9051; 9150]); flow_cbn;
  destruct (dport =? 9030); flow_cbn;
    (destruct sample as [[|c sample]|]; flow_cbn;
     [ destruct h, r, d, o; reflexivity
     | destruct (base64.b64decode (String c sample)) as [payload|e]; flow_cbn;
       [ cbn [existsb];
         destruct (py.bytes_startswith payload [x16; x03]),
                  (py.bytes_contains payload [x00; x00; x00]),
                  (py.bytes_contains payload [x03; x00]); flow_cbn;
         destruct (_check_obfsproxy_patterns payload); flow_cbn;
         destruct h, r, d, o; reflexivity
       | destruct h, r, d, o; reflexivity ]
     | destruct h, r, d, o; reflexivity ]).
Qed.

Lemma on_payload_decoded (rule : py.bytes -> bool) (f : Flow.t)
      (sample : string) (payload : py.bytes) :
  rule [] = false ->
  Flow.payload_sample f = Some sample ->
  base64.b64decode sample = py.Ok payload ->
  on_payload rule f = rule payload.
Proof.
  intros Hnil Hs Hd. unfold on_payload, decoded_payload. rewrite Hs.
  destruct sample as [|c sample].
  - vm_compute in Hd. injection Hd as <-. symmetry; exact Hnil.
  - rewrite Hd. reflexivity.
Qed.

Lemma on_payload_unusable (rule : py.bytes -> bool) (f : Flow.t) :
  Flow.payload_sample f = None \/
  (exists sample e, Flow.payload_sample f = Some sample /\
                    base64.b64decode sample = py.Raise e) ->
  on_payload rule f = false.
Proof.
  unfold on_payload, decoded_payload.
  intros [Hs | (sample & e & Hs & Hd)]; rewrite Hs; [reflexivity|].
  destruct sample as [|c sample]; [reflexivity|]. rewrite Hd. reflexivity.
Qed.

(** X9. The address and port rules. [relay_comm] is set for a destination in
    the address cache or on one of the five relay ports, [directory_fetch]
    for port 9030, which is a relay port too; whatever was set stays set,
    and no other column of the flow changes. *)
Theorem analyze_flow_address_and_port_rules (self : TorExtractor) (f : Flow.t) :
  let g := fst (_analyze_flow self f) in
  Flow.relay_comm g =
    Flow.relay_comm f || py.contains (Flow.dst_ip f) (tor_node_ips self)
    || existsb (Z.eqb (Flow.dst_port f)) [9001; 9030; 9050; 9051; 9150] /\
  Flow.directory_fetch g = Flow.directory_fetch f || (Flow.dst_port f =? 9030) /\
  (Flow.directory_fetch g = true -> Flow.directory_fetch f = false ->
   Flow.relay_comm g = true) /\
  g = Flow.set_indicators f (Flow.possible_tor_handshake g) (Flow.relay_comm g)
        (Flow.directory_fetch g) (Flow.obfsproxy_candidate g).
Proof.
  cbv zeta. rewrite analyze_flow_eq. flow_cbn.
  unfold known_relay, relay_port, directory_port.
  do 2 (split; [reflexivity|]). split; [|reflexivity].
  intros Hd Hf. rewrite Hf in Hd. cbn [orb] in Hd.
  apply Z.eqb_eq in Hd. rewrite Hd. cbn [existsb].
  replace (9030 =? 9030) with true by reflexivity.
  rewrite !orb_true_r. reflexivity.
Qed.

(** X10. The handshake rule. For a stored sample that decodes, the
    handshake flag is set when the payload starts with 16 03 and holds
    00 00 00 or 03 00 anywhere, the two leading bytes included. *)
Theorem analyze_flow_handshake_rule (self : TorExtractor) (f : Flow.t)
        (sample : string) (payload : py.bytes) :
  Flow.payload_sample f = Some sample ->
  base64.b64decode sample = py.Ok payload ->
  Flow.possible_tor_handshake (fst (_analyze_flow self f)) =
    Flow.possible_tor_handshake f
    || (py.bytes_startswith payload [x16; x03]
        && (py.bytes_contains payload [x00; x00; x00]
            || py.bytes_contains payload [x03; x00])).
Proof.
  intros Hs Hd. rewrite analyze_flow_eq. flow_cbn.
  rewrite (on_payload_decoded handshake_pattern f sample payload eq_refl Hs Hd).
  reflexivity.
Qed.

Lemma analyze_flow_handshake_rule_witness :
  Flow.payload_sample samples.hello_flow =
    Some (base64.b64encode samples.hello_payload) /\
  base64.b64decode (base64.b64encode samples.hello_payload) =
    py.Ok samples.hello_payload /\
  Flow.possible_tor_handshake
    (fst (_analyze_flow fixtures.bare_extractor samples.hello_flow)) = true.
Proof.
  split; [reflexivity|]. split; [vm_compute; reflexivity|].
  rewrite (analyze_flow_handshake_rule fixtures.bare_extractor samples.hello_flow
             (base64.b64encode samples.hello_payload) samples.hello_payload
             eq_refl ltac:(vm_compute; reflexivity)).
  vm_compute. reflexivity.
Defined.

(** X11. A flow without a sample, or with one that does not decode, is
    classified by address and port alone: the decoding error does not
    leave [_analyze_flow], and the two payload flags keep their values. *)
Theorem analyze_flow_without_usable_payload (self : TorExtractor) (f : Flow.t) :
  Flow.payload_sample f = None \/
  (exists sample e, Flow.payload_sample f = Some sample /\
                    base64.b64decode sample = py.Raise e) ->
  let out := _analyze_flow self f in
  Flow.possible_tor_handshake (fst out) = Flow.possible_tor_handshake f /\
  Flow.obfsproxy_candidate (fst out) = Flow.obfsproxy_candidate f /\
  snd out =
    py.contains (Flow.dst_ip f) (tor_node_ips self)
    || existsb (Z.eqb (Flow.dst_port f)) [9001; 9030; 9050; 9051; 9150]
    || (Flow.dst_port f =? 9030).
Proof.
  intros H. cbv zeta. rewrite analyze_flow_eq. flow_cbn.
  rewrite !(on_payload_unusable _ f H), !orb_false_r.
  repeat split.
Qed.

Lemma analyze_flow_without_usable_payload_witness :
  (exists e, base64.b64decode "A" = py.Raise e) /\
  Flow.possible_tor_handshake
    (fst (_analyze_flow fixtures.bare_extractor samples.undecodable_flow)) = false /\
  snd (_analyze_flow fixtures.bare_extractor samples.undecodable_flow) = true.
Proof.
  split; [eexists; vm_compute; reflexivity|].
  assert (Hbad : Flow.payload_sample samples.undecodable_flow = None \/
                 (exists sample e,
                     Flow.payload_sample samples.undecodable_flow = Some sample /\
                     base64.b64decode sample = py.Raise e)).
  { right. exists "A"%string. eexists. split; [reflexivity|].
    vm_compute. reflexivity. }
  pose proof (analyze_flow_without_usable_payload fixtures.bare_extractor
                samples.undecodable_flow Hbad) as H.
  cbv zeta in H. destruct H as (Hh & _ & Hr).
  split; [exact Hh | rewrite Hr; reflexivity].
Defined.

(** X12. What the returned value means. When [_analyze_flow] returns
    [False] the flow is left exactly as it was; when it returns [True] one
    of the four indicators is set afterwards, so the flow is among those
    the correlator's query selects. *)
Theorem analyze_flow_result_sound (self : TorExtractor) (f : Flow.t) :
  (snd (_analyze_flow self f) = false -> fst (_analyze_flow self f) = f) /\
  (snd (_analyze_flow self f) = true ->
   correlation_engine.is_tor_related (fst (_analyze_flow self f)) = true).
Proof.
  rewrite analyze_flow_eq. flow_cbn. unfold correlation_engine.is_tor_related.
  flow_cbn.
  destruct (known_relay self f), (relay_port f), (directory_port f),
    (on_payload handshake_pattern f), (on_payload _check_obfsproxy_patterns f);
    cbn [orb]; (split; intros H; try discriminate H);
    try (destruct (Flow.possible_tor_handshake f), (Flow.relay_comm f),
           (Flow.directory_fetch f), (Flow.obfsproxy_candidate f); reflexivity).
  rewrite !orb_false_r. destruct f; reflexivity.
Qed.

Lemma rules_set_indicators (self : TorExtractor) (f : Flow.t) (h r d o : bool) :
  known_relay self (Flow.set_indicators f h r d o) = known_relay self f /\
  relay_port (Flow.set_indicators f h r d o) = relay_port f /\
  directory_port (Flow.set_indicators f h r d o) = directory_port f /\
  (forall rule, on_payload rule (Flow.set_indicators f h r d o) = on_payload rule f).
Proof. repeat split. Qed.

(** Classifying twice is classifying once: the rules read only the
    destination and the sample, which the classifier does not write. *)
Lemma analyze_flow_again (self : TorExtractor) (f : Flow.t) :
  _analyze_flow self (fst (_analyze_flow self f)) = _analyze_flow self f.
Proof.
  rewrite (analyze_flow_eq self f). cbn [fst].
  rewrite analyze_flow_eq.
  set (a := Flow.possible_tor_handshake f || on_payload handshake_pattern f).
  set (b := Flow.relay_comm f || known_relay self f || relay_port f).
  set (c := Flow.directory_fetch f || directory_port f).
  set (d := Flow.obfsproxy_candidate f || on_payload _check_obfsproxy_patterns f).
  destruct (rules_set_indicators self f a b c d) as (-> & -> & -> & Hp).
  rewrite !Hp. subst a b c d. flow_cbn.
  destruct (known_relay self f), (relay_port f), (directory_port f),
    (on_payload handshake_pattern f), (on_payload _check_obfsproxy_patterns f),
    (Flow.possible_tor_handshake f), (Flow.relay_comm f),
    (Flow.directory_fetch f), (Flow.obfsproxy_candidate f); reflexivity.
Qed.

Lemma hits_app (self : TorExtractor) (l1 l2 : list Flow.t) :
  hits self (l1 ++ l2) = hits self l1 + hits self l2.
Proof.
  unfold hits. rewrite filter_app, length_app. lia.
Qed.

Lemma analysed_app (self : TorExtractor) (l1 l2 : list Flow.t) :
  analysed self (l1 ++ l2) = analysed self l1 ++ analysed self l2.
Proof. apply map_app. Qed.

Lemma analysed_length (self : TorExtractor) (l : list Flow.t) :
  List.length (analysed self l) = List.length l.
Proof. apply length_map. Qed.

Lemma filter_snd_map (self : TorExtractor) (l : list Flow.t) :
  Z.of_nat (List.length (filter snd (map (_analyze_flow self) l))) = hits self l.
Proof.
  unfold hits. f_equal. induction l as [|f l IH]; [reflexivity|].
  cbn [map filter]. destruct (snd (_analyze_flow self f)); cbn [List.length];
    rewrite IH; reflexivity.
Qed.

(** The loop of [analyze_flows] from any offset: with a batch of at least
    one row and a turn of fuel per row left, it ends, having classified the
    rows from the offset on. *)
Lemma analyze_loop_spec (self : TorExtractor) (batch_size : Z)
      (nodes : list TorNode.t) (corrs : list Correlation.t) :
  1 <= batch_size ->
  forall (fuel : nat) (todo done : list Flow.t) (db : models.DatabaseManager)
         (count : Z),
    (List.length todo <= fuel)%nat ->
    exists db',
      analyze_loop fuel self batch_size
        (Z.of_nat (List.length (done ++ todo))) (Z.of_nat (List.length done))
        (models.mkTables (done ++ todo) nodes corrs) db count =
        Some (count + hits self todo, db') /\
      models.open_sessions db' = models.open_sessions db /\
      (todo = [] -> db' = db) /\
      (todo <> [] ->
       models.committed db' =
         models.mkTables (done ++ analysed self todo) nodes corrs).
Proof.
  intros Hb fuel. induction fuel as [|fuel IH]; intros todo done db count Hfuel.
  - destruct todo; [|cbn in Hfuel; lia].
    exists db. rewrite app_nil_r. cbn [analyze_loop].
    rewrite Z.ltb_irrefl. unfold hits. cbn [filter List.length Z.of_nat].
    rewrite Z.add_0_r. repeat split; congruence.
  - destruct todo as [|f todo].
    + exists db. rewrite app_nil_r. cbn [analyze_loop].
      rewrite Z.ltb_irrefl. unfold hits. cbn [filter List.length Z.of_nat].
      rewrite Z.add_0_r. repeat split; congruence.
    + cbn [analyze_loop].
      replace (Z.of_nat (List.length done) <?
               Z.of_nat (List.length (done ++ f :: todo))) with true
        by (symmetry; apply Z.ltb_lt; rewrite length_app; cbn [List.length]; lia).
      cbv zeta. cbn [models.flows models.tor_nodes models.correlations].
      rewrite Nat2Z.id.
      rewrite firstn_app, firstn_all, Nat.sub_diag, firstn_O, app_nil_r.
      rewrite skipn_app, skipn_all, Nat.sub_diag, skipn_O.
      cbn [app].
      set (todo0 := f :: todo) in *.
      set (batch := firstn (Z.to_nat batch_size) todo0).
      set (after := skipn (Z.to_nat batch_size) todo0).
      assert (Hsplit : todo0 = batch ++ after)
        by (symmetry; apply firstn_skipn).
      rewrite map_map, filter_snd_map.
      change (map (fun x => fst (_analyze_flow self x)) batch)
        with (analysed self batch).
      assert (Hbatch : (1 <= List.length batch)%nat).
      { subst batch todo0. rewrite length_firstn. cbn [List.length]. lia. }
      assert (Hafter : (List.length after <= fuel)%nat).
      { assert (List.length todo0 = List.length batch + List.length after)%nat
          by (rewrite Hsplit at 1; apply length_app).
        subst todo0. cbn [List.length] in *. lia. }
      assert (Htotal :
                Z.of_nat (List.length (done ++ todo0)) =
                Z.of_nat (List.length ((done ++ analysed self batch) ++ after))).
      { rewrite Hsplit at 1. rewrite !length_app, analysed_length. lia. }
      destruct (Z_le_gt_dec batch_size (Z.of_nat (List.length todo0))) as [Hle|Hgt].
      * assert (Hlen : List.length batch = Z.to_nat batch_size).
        { subst batch. rewrite length_firstn. lia. }
        assert (Hoff :
                  Z.of_nat (List.length done) + batch_size =
                  Z.of_nat (List.length (done ++ analysed self batch))).
        { rewrite length_app, analysed_length, Hlen. lia. }
        rewrite Htotal, Hoff, app_assoc.
        destruct (IH after (done ++ analysed self batch)
                    (models.commit
                       (models.mkTables ((done ++ analysed self batch) ++ after)
                          nodes corrs) db)
                    (count + hits self batch) Hafter)
          as (db' & Hrun & Hopen & Hnil & Hcons).
        exists db'. rewrite Hrun. split.
        { rewrite Hsplit, hits_app. f_equal. f_equal. lia. }
        split; [exact Hopen|]. split; [discriminate|]. intros _.
        destruct after as [|a after'] eqn:Hafter_eq.
        { rewrite (Hnil eq_refl). cbn [models.commit models.committed].
          rewrite Hsplit, !app_nil_r. reflexivity. }
        { rewrite Hcons by discriminate.
          rewrite Hsplit, analysed_app, app_assoc. reflexivity. }
      * assert (Hall : batch = todo0 /\ after = []).
        { subst batch after. split.
          - apply firstn_all2. lia.
          - apply skipn_all2. lia. }
        destruct Hall as [Hb1 Ha1]. rewrite Hb1, Ha1, app_nil_r.
        exists (models.commit
                  (models.mkTables (done ++ analysed self todo0) nodes corrs) db).
        destruct fuel as [|fuel'];
          cbn [analyze_loop];
          (replace (Z.of_nat (List.length done) + batch_size <?
                    Z.of_nat (List.length (done ++ todo0))) with false
            by (symmetry; apply Z.ltb_ge; rewrite length_app; lia));
          (split; [reflexivity|]); (split; [reflexivity|]);
          (split; [discriminate | reflexivity]).
Qed.

(** The pass as one equation. *)
Lemma analyze_flows_run (self : TorExtractor) (batch_size : Z) :
  1 <= batch_size ->
  let before := models.committed (db_manager self) in
  analyze_flows self batch_size =
    Some (hits self (models.flows before),
          mkTorExtractor
            (models.mkDB
               (models.mkTables (analysed self (models.flows before))
                  (models.tor_nodes before) (models.correlations before))
               (models.open_sessions (db_manager self)))
            (tor_node_ips self)).
Proof.
  intros Hb. cbv zeta. unfold analyze_flows, models.get_session.
  destruct self as [[[flows nodes corrs] open] ips].
  cbn [db_manager tor_node_ips models.committed models.open_sessions
       models.flows models.tor_nodes models.correlations].
  rewrite Nat2Z.id.
  destruct (analyze_loop_spec (mkTorExtractor (models.mkDB (models.mkTables flows nodes corrs) open) ips)
              batch_size nodes corrs Hb (S (List.length flows)) flows []
              (models.mkDB (models.mkTables flows nodes corrs) (S open)) 0
              (Nat.le_succ_diag_r _))
    as (db' & Hrun & Hopen & Hnil & Hcons).
  cbn [app List.length Z.of_nat] in Hrun.
  change (Z.of_nat 0) with 0 in Hrun.
  rewrite Hrun. rewrite Z.add_0_l. f_equal. f_equal. f_equal.
  destruct db' as [tables' open'].
  cbn [models.open_sessions models.committed] in Hopen, Hcons.
  subst open'. unfold models.close. cbn [models.committed models.open_sessions Nat.pred].
  f_equal.
  destruct flows as [|f flows].
  - specialize (Hnil eq_refl). injection Hnil as ->. reflexivity.
  - rewrite Hcons by discriminate. reflexivity.
Qed.

(** X13. [analyze_flows] with a batch of at least one row returns, and what
    it returns and leaves behind does not depend on the batch size: every
    flow of the table has been classified once, in place and in key order;
    the count is the number of flows for which [_analyze_flow] returned
    [True]; the relay and correlation tables, the address cache and the
    number of open sessions are as before. *)
Theorem analyze_flows_any_batch_size (self : TorExtractor) (batch_size : Z) :
  1 <= batch_size ->
  exists n self1,
    analyze_flows self batch_size = Some (n, self1) /\
    (forall other, 1 <= other -> analyze_flows self other = Some (n, self1)) /\
    n = Z.of_nat
          (List.length
             (filter (fun f => snd (_analyze_flow self f))
                (models.flows (models.committed (db_manager self))))) /\
    models.flows (models.committed (db_manager self1)) =
      map (fun f => fst (_analyze_flow self f))
        (models.flows (models.committed (db_manager self))) /\
    models.tor_nodes (models.committed (db_manager self1)) =
      models.tor_nodes (models.committed (db_manager self)) /\
    models.correlations (models.committed (db_manager self1)) =
      models.correlations (models.committed (db_manager self)) /\
    models.open_sessions (db_manager self1) =
      models.open_sessions (db_manager self) /\
    tor_node_ips self1 = tor_node_ips self.
Proof.
  intros Hb. eexists. eexists.
  split; [exact (analyze_flows_run self batch_size Hb)|].
  split; [intros other Ho; exact (analyze_flows_run self other Ho)|].
  repeat split.
Qed.

Lemma analyze_flows_any_batch_size_witness :
  1 <= 2 /\
  exists n self1,
    analyze_flows samples.three_flows_extractor 2 = Some (n, self1) /\
    analyze_flows samples.three_flows_extractor 100 = Some (n, self1) /\
    n = 2.
Proof.
  split; [lia|].
  destruct (analyze_flows_any_batch_size samples.three_flows_extractor 2
              ltac:(lia)) as (n & self1 & Hrun & Hother & Hn & _).
  exists n, self1. split; [exact Hrun|]. split; [apply Hother; lia|].
  rewrite Hn. vm_compute. reflexivity.
Defined.

Lemma analysed_again (self : TorExtractor) (l : list Flow.t) :
  analysed self (analysed self l) = analysed self l /\
  hits self (analysed self l) = hits self l.
Proof.
  unfold analysed, hits. split.
  - rewrite map_map. apply map_ext. intros f. rewrite analyze_flow_again.
    reflexivity.
  - f_equal. induction l as [|f l IH]; [reflexivity|].
    cbn [map filter]. rewrite analyze_flow_again.
    destruct (snd (_analyze_flow self f)); cbn [List.length]; rewrite IH;
      reflexivity.
Qed.

(** X14. A second pass changes nothing. Run again on its own result, with
    any batch size, [analyze_flows] returns the same count and leaves the
    same tables: the indicators are only ever set, and the count is of the
    flows for which a rule fires, not of the flows newly marked. *)
Theorem analyze_flows_second_pass (self self1 : TorExtractor)
        (batch_size batch_size2 n : Z) :
  1 <= batch_size -> 1 <= batch_size2 ->
  analyze_flows self batch_size = Some (n, self1) ->
  analyze_flows self1 batch_size2 = Some (n, self1).
Proof.
  intros Hb Hb2 Hrun.
  rewrite (analyze_flows_run self batch_size Hb) in Hrun.
  injection Hrun as Hn Hself. subst n self1.
  rewrite (analyze_flows_run _ batch_size2 Hb2).
  cbn [db_manager tor_node_ips models.committed models.open_sessions
       models.flows models.tor_nodes models.correlations].
  change (hits {| db_manager := ?d; tor_node_ips := tor_node_ips self |})
    with (hits self).
  destruct (analysed_again self
              (models.flows (models.committed (db_manager self)))) as [Ha Hh].
  unfold analysed, hits in *. cbn [tor_node_ips] in *.
  change (fun f => fst (_analyze_flow
                          {| db_manager := _; tor_node_ips := tor_node_ips self |} f))
    with (fun f => fst (_analyze_flow self f)).
  rewrite Ha.
  change (fun f => snd (_analyze_flow
                          {| db_manager := _; tor_node_ips := tor_node_ips self |} f))
    with (fun f => snd (_analyze_flow self f)).
  rewrite Hh. reflexivity.
Qed.

Lemma analyze_flows_second_pass_witness :
  exists self1,
    analyze_flows samples.three_flows_extractor 2 = Some (2, self1) /\
    analyze_flows self1 1 = Some (2, self1).
Proof.
  eexists. split; [vm_compute; reflexivity|].
  apply (analyze_flows_second_pass samples.three_flows_extractor _ 2 1 2);
    [lia | lia | vm_compute; reflexivity].
Defined.

Lemma order_by_ts_start_length (l : list Flow.t) :
  List.length (correlation_engine.order_by_ts_start l) = List.length l.
Proof.
  assert (Hins : forall f l', List.length (correlation_engine.insert_by_ts_start f l')
                              = S (List.length l')).
  { intros f l'. induction l' as [|g l' IH]; [reflexivity|].
    cbn [correlation_engine.insert_by_ts_start].
    destruct (Flow.ts_start f <=? Flow.ts_start g); cbn [List.length];
      [reflexivity | rewrite IH; reflexivity]. }
  induction l as [|f l IH]; [reflexivity|].
  unfold correlation_engine.order_by_ts_start in *. cbn [fold_right].
  rewrite Hins, IH. reflexivity.
Qed.

(** X15. The classifier's count and the correlator's input. On a table
    whose flows carry no indicator yet, as the collector writes them, the
    number [analyze_flows] returns is the number of flows the correlator's
    query loads afterwards. *)
Theorem analyze_flows_count_is_correlator_input (self self1 : TorExtractor)
        (batch_size n : Z) :
  1 <= batch_size ->
  Forall (fun f => correlation_engine.is_tor_related f = false)
    (models.flows (models.committed (db_manager self))) ->
  analyze_flows self batch_size = Some (n, self1) ->
  n = Z.of_nat
        (List.length
           (correlation_engine.tor_flows_query
              (models.committed (db_manager self1)))).
Proof.
  intros Hb Hfresh Hrun.
  rewrite (analyze_flows_run self batch_size Hb) in Hrun.
  injection Hrun as Hn Hself. subst n self1.
  unfold correlation_engine.tor_flows_query.
  rewrite order_by_ts_start_length.
  cbn [db_manager models.committed models.flows].
  unfold hits, analysed. f_equal.
  induction Hfresh as [|f l Hf _ IH]; [reflexivity|].
  cbn [map filter].
  assert (Hsame : correlation_engine.is_tor_related (fst (_analyze_flow self f)) =
                  snd (_analyze_flow self f)).
  { rewrite analyze_flow_eq. flow_cbn.
    unfold correlation_engine.is_tor_related in *. flow_cbn.
    destruct (Flow.possible_tor_handshake f), (Flow.relay_comm f),
      (Flow.directory_fetch f), (Flow.obfsproxy_candidate f);
      try discriminate Hf.
    destruct (known_relay self f), (relay_port f), (directory_port f),
      (on_payload handshake_pattern f),
      (on_payload _check_obfsproxy_patterns f); reflexivity. }
  rewrite Hsame.
  destruct (snd (_analyze_flow self f)); cbn [List.length]; rewrite IH;
    reflexivity.
Qed.

Lemma analyze_flows_count_is_correlator_input_witness :
  exists self1,
    analyze_flows samples.three_flows_extractor 2 = Some (2, self1) /\
    List.length
      (correlation_engine.tor_flows_query (models.committed (db_manager self1))) =
    2%nat.
Proof.
  eexists. split; [vm_compute; reflexivity|].
  apply Nat2Z.inj. symmetry.
  apply (analyze_flows_count_is_correlator_input
           samples.three_flows_extractor _ 2 2);
    [lia | repeat constructor | vm_compute; reflexivity].
Defined.

(** X16. A batch size of 0 on a table with a row: the loop reads an empty
    batch and does not move the offset, so no number of turns ends it, and
    [analyze_flows] does not return. *)
Theorem analyze_flows_zero_batch_never_returns (self : TorExtractor) :
  models.flows (models.committed (db_manager self)) <> [] ->
  (forall fuel session db count,
      models.flows session <> [] ->
      analyze_loop fuel self 0 (Z.of_nat (List.length (models.flows session))) 0
        session db count = None) /\
  analyze_flows self 0 = None.
Proof.
  intros Hne.
  assert (Hloop : forall fuel session db count,
             models.flows session <> [] ->
             analyze_loop fuel self 0
               (Z.of_nat (List.length (models.flows session))) 0
               session db count = None).
  { induction fuel as [|fuel IH]; intros session db count Hs;
      cbn [analyze_loop];
      (replace (0 <? Z.of_nat (List.length (models.flows session))) with true
        by (symmetry; apply Z.ltb_lt; destruct (models.flows session);
            [congruence | cbn [List.length]; lia]));
      [reflexivity|].
    cbv zeta. cbn [Z.to_nat firstn skipn map filter List.length app Z.of_nat].
    change (0 + 0) with 0. rewrite Z.add_0_r.
    specialize (IH (models.mkTables (models.flows session)
                      (models.tor_nodes session) (models.correlations session))
                  (models.commit
                     (models.mkTables (models.flows session)
                        (models.tor_nodes session) (models.correlations session)) db)
                  count Hs).
    cbn [models.flows] in IH. exact IH. }
  split; [exact Hloop|].
  unfold analyze_flows, models.get_session.
  rewrite Nat2Z.id.
  rewrite (Hloop _ (models.committed (db_manager self)) _ 0 Hne). reflexivity.
Qed.

Lemma analyze_flows_zero_batch_never_returns_witness :
  models.flows (models.committed (db_manager samples.three_flows_extractor)) <> [] /\
  analyze_flows samples.three_flows_extractor 0 = None.
Proof.
  assert (H : models.flows
                (models.committed (db_manager samples.three_flows_extractor)) <> [])
    by discriminate.
  split; [exact H|].
  exact (proj2 (analyze_flows_zero_batch_never_returns
                  samples.three_flows_extractor H)).
Defined.

End ClassifierMore.

(* ----------------------------------------------------------------- *)
(** ** Loading the directory: outcome and cache *)

Section DirectoryMore.
Import tor_extractor inv props.

Lemma find_none_not_in (ip : string) (l : list TorNode.t) :
  find (fun n => String.eqb (TorNode.ip_address n) ip) l = None ->
  ~ In ip (map TorNode.ip_address l).
Proof.
  induction l as [|m l IH]; cbn [find map In]; [tauto|].
  destruct (String.eqb (TorNode.ip_address m) ip) eqn:E; [discriminate|].
  intros H [Heq|Hin]; [|exact (IH H Hin)].
  rewrite Heq, String.eqb_refl in E. discriminate.
Qed.

Lemma in_addresses_found (s : models.Session) (ip : string) :
  In ip (addresses s) ->
  exists n, models.tor_node_by_ip s ip = Some n /\ TorNode.ip_address n = ip.
Proof.
  unfold models.tor_node_by_ip, addresses. intros Hin.
  destruct (find _ (models.tor_nodes s)) as [n|] eqn:E.
  - exists n. split; [reflexivity|].
    apply find_some in E. apply String.eqb_eq. exact (proj2 E).
  - exfalso. exact (find_none_not_in _ _ E Hin).
Qed.

Lemma found_in_addresses (s : models.Session) (ip : string) (n : TorNode.t) :
  models.tor_node_by_ip s ip = Some n -> In ip (addresses s).
Proof.
  unfold models.tor_node_by_ip, addresses. intros E.
  apply find_some in E. destruct E as [Hin Heq].
  apply String.eqb_eq in Heq. rewrite <- Heq. apply in_map. exact Hin.
Qed.

Lemma extends_addresses (s s' : models.Session) (ip : string) :
  extends s s' -> In ip (addresses s) -> In ip (addresses s').
Proof.
  intros (_ & _ & [added Ha] & _) Hin. unfold addresses in *.
  rewrite Ha, map_app. apply in_or_app. left. exact Hin.
Qed.

Lemma insert_tor_node_address (n : TorNode.t) (s s' : models.Session) :
  insert_tor_node n s = py.Ok s' ->
  In (TorNode.ip_address n) (addresses s') /\
  forall ip, In ip (addresses s') ->
             In ip (addresses s) \/ ip = TorNode.ip_address n.
Proof.
  unfold insert_tor_node.
  destruct (existsb _ (models.tor_nodes s)); [discriminate|].
  destruct (match TorNode.fingerprint n with Some _ => _ | None => _ end);
    [discriminate|].
  intros H. injection H as <-. unfold addresses.
  cbn [models.tor_nodes]. rewrite map_app. cbn [map TorNode.ip_address]. split.
  - apply in_or_app. right. left. reflexivity.
  - intros ip Hin. apply in_app_or in Hin. destruct Hin as [H|[H|[]]];
      [left; exact H | right; symmetry; exact H].
Qed.

Lemma flush_addresses (pending : list TorNode.t) :
  forall s s', flush pending s = py.Ok s' ->
    (forall n, In n pending -> In (TorNode.ip_address n) (addresses s')) /\
    (forall ip, In ip (addresses s') ->
                In ip (addresses s) \/ In ip (map TorNode.ip_address pending)).
Proof.
  induction pending as [|n pending IH]; cbn [flush]; intros s s' H.
  - injection H as <-. split; [intros n []|]. intros ip Hin. left. exact Hin.
  - destruct (insert_tor_node n s) as [s1|e] eqn:Hins; cbn [py.bind] in H;
      [|discriminate].
    destruct (insert_tor_node_address _ _ _ Hins) as [Hin1 Hold1].
    destruct (IH _ _ H) as [Hin2 Hold2]. split.
    + intros m [<-|Hm]; [|exact (Hin2 m Hm)].
      eapply extends_addresses; [eapply flush_extends; exact H | exact Hin1].
    + intros ip Hip. cbn [map In]. destruct (Hold2 ip Hip) as [H1|H1]; [|tauto].
      destruct (Hold1 ip H1) as [H2|H2]; [tauto|]. right. left. symmetry. exact H2.
Qed.

Lemma set_add_in (x y : string) (s : list string) :
  In y (py.set_add x s) <-> In y s \/ y = x.
Proof.
  unfold py.set_add, py.contains.
  destruct (existsb (String.eqb x) s) eqn:E.
  - split; [tauto|]. intros [H|H]; [exact H|]. subst y.
    apply existsb_exists in E. destruct E as (z & Hz & Heq).
    apply String.eqb_eq in Heq. subst z. exact Hz.
  - rewrite in_app_iff. cbn [In]. split; intros [H|H]; try tauto.
    + destruct H as [H|[]]. right. symmetry. exact H.
    + right. left. symmetry. exact H.
Qed.

(** The loop of [_load_tor_nodes], when it ends without raising: every
    record has an address, which is in the table or about to be written;
    the same holds for what was pending; the table and the cache hold
    nothing but what they had and addresses of the snapshot. *)
Lemma load_loop_addresses (tor_nodes : list NodeData) :
  forall s pending ips s' pending' ips',
    load_loop tor_nodes s pending ips = (py.Ok (s', pending'), ips') ->
    let reached ip :=
      In ip (addresses s') \/ In ip (map TorNode.ip_address pending') in
    (forall nd, In nd tor_nodes ->
                exists ip, nd_ip_address nd = Some ip /\ reached ip) /\
    (forall n, In n pending -> reached (TorNode.ip_address n)) /\
    (forall ip, In ip (addresses s) -> In ip (addresses s')) /\
    (forall ip, In ip ips' ->
                In ip ips \/
                (~ In ip (addresses s) /\ ~ In ip (map TorNode.ip_address pending)
                 /\ reached ip)) /\
    (forall ip, In ip ips -> In ip ips').
Proof.
  induction tor_nodes as [|nd rest IH]; cbn [load_loop];
    intros s pending ips s' pending' ips' H; cbv zeta.
  - injection H as <- <- <-.
    split; [intros nd []|]. split; [intros n Hn; right; apply in_map; exact Hn|].
    split; [tauto|]. split; [tauto|tauto].
  - destruct (nd_ip_address nd) as [ip|] eqn:Hip; [|discriminate].
    destruct (flush pending s) as [s1|e] eqn:Hfl; [|discriminate].
    destruct (flush_addresses _ _ _ Hfl) as [Hflushed Hfrom].
    pose proof (flush_extends _ _ _ Hfl) as Hext.
    destruct (models.tor_node_by_ip s1 ip) as [existing|] eqn:Hq.
    + destruct (IH _ _ _ _ _ _ H) as (Hrec & _ & Hkeep & Hcache & Hmono).
      cbv zeta in Hrec, Hcache.
      split; [|split; [|split; [|split]]].
      * intros nd' [<-|Hin]; [|exact (Hrec nd' Hin)].
        exists ip. split; [exact Hip|]. left. apply Hkeep.
        eapply found_in_addresses. exact Hq.
      * intros n Hn. left. apply Hkeep. apply Hflushed. exact Hn.
      * intros a Ha. apply Hkeep. eapply extends_addresses; eassumption.
      * intros a Ha. destruct (Hcache a Ha) as [H1|(H1 & _ & H3)]; [tauto|].
        right. split; [|split; [|exact H3]].
        -- intros Hs. apply H1. eapply extends_addresses; eassumption.
        -- intros Hp. apply H1. apply in_map_iff in Hp.
           destruct Hp as (n & <- & Hn). apply Hflushed. exact Hn.
      * exact Hmono.
    + destruct (IH _ _ _ _ _ _ H) as (Hrec & Hpend & Hkeep & Hcache & Hmono).
      cbv zeta in Hrec, Hpend, Hcache.
      assert (Hnew : ~ In ip (addresses s1)).
      { apply find_none_not_in. exact Hq. }
      split; [|split; [|split; [|split]]].
      * intros nd' [<-|Hin]; [|exact (Hrec nd' Hin)].
        exists ip. split; [exact Hip|].
        exact (Hpend (node_of_data ip nd) (or_introl eq_refl)).
      * intros n Hn. left. apply Hkeep. apply Hflushed. exact Hn.
      * intros a Ha. apply Hkeep. eapply extends_addresses; eassumption.
      * intros a Ha. destruct (Hcache a Ha) as [H1|(H1 & _ & H3)].
        -- apply set_add_in in H1. destruct H1 as [H1|H1]; [tauto|].
           subst a. right. split; [|split].
           ++ intros Hs. apply Hnew. eapply extends_addresses; eassumption.
           ++ intros Hp. apply Hnew. apply in_map_iff in Hp.
              destruct Hp as (n & <- & Hn). apply Hflushed. exact Hn.
           ++ exact (Hpend (node_of_data ip nd) (or_introl eq_refl)).
        -- right. split; [|split; [|exact H3]].
           ++ intros Hs. apply H1. eapply extends_addresses; eassumption.
           ++ intros Hp. apply H1. apply in_map_iff in Hp.
              destruct Hp as (n & <- & Hn). apply Hflushed. exact Hn.
      * intros a Ha. apply Hmono. apply set_add_in. left. exact Ha.
Qed.

(** X17. A load that returns has stored the whole snapshot. Every record's
    address is in the relay table afterwards, and an address is in the
    cache afterwards only if it was there before or its row was inserted by
    this load. *)
Theorem load_tor_nodes_success (self : TorExtractor) (tor_nodes : list NodeData) :
  fst (_load_tor_nodes self tor_nodes) = py.Ok tt ->
  let before := models.committed (db_manager self) in
  let self1 := snd (_load_tor_nodes self tor_nodes) in
  let after := models.committed (db_manager self1) in
  (forall node_data, In node_data tor_nodes ->
     exists ip n, nd_ip_address node_data = Some ip /\
                  models.tor_node_by_ip after ip = Some n) /\
  (forall ip, In ip (tor_node_ips self1) ->
     In ip (tor_node_ips self) \/
     (models.tor_node_by_ip before ip = None /\
      exists n, models.tor_node_by_ip after ip = Some n)) /\
  (forall ip, In ip (tor_node_ips self) -> In ip (tor_node_ips self1)) /\
  models.open_sessions (db_manager self1) = models.open_sessions (db_manager self).
Proof.
  unfold _load_tor_nodes, models.get_session. cbv zeta.
  destruct (load_loop tor_nodes (models.committed (db_manager self)) []
              (tor_node_ips self)) as [[[s1 p1]|e] ips] eqn:Hloop;
    cbn [py.bind fst snd]; [|discriminate].
  destruct (flush p1 s1) as [s2|e] eqn:Hfl; cbn [fst snd]; [|discriminate].
  intros _.
  cbn [db_manager tor_node_ips models.close models.commit models.committed
       models.open_sessions Nat.pred].
  destruct (load_loop_addresses _ _ _ _ _ _ _ Hloop)
    as (Hrec & _ & Hkeep & Hcache & Hmono).
  cbv zeta in Hrec, Hcache.
  destruct (flush_addresses _ _ _ Hfl) as [Hflushed _].
  pose proof (flush_extends _ _ _ Hfl) as Hext.
  assert (Hreach : forall ip,
             In ip (addresses s1) \/ In ip (map TorNode.ip_address p1) ->
             exists n, models.tor_node_by_ip s2 ip = Some n).
  { intros ip [H|H].
    - destruct (in_addresses_found s2 ip (extends_addresses _ _ _ Hext H))
        as (n & Hn & _). exists n. exact Hn.
    - apply in_map_iff in H. destruct H as (m & <- & Hm).
      destruct (in_addresses_found s2 _ (Hflushed m Hm)) as (n & Hn & _).
      exists n. exact Hn. }
  split; [|split; [|split; [exact Hmono | reflexivity]]].
  - intros nd Hnd. destruct (Hrec nd Hnd) as (ip & Hip & Hr).
    destruct (Hreach ip Hr) as [n Hn]. exists ip, n. split; assumption.
  - intros ip Hip. destruct (Hcache ip Hip) as [H|(H1 & _ & H3)]; [tauto|].
    right. split; [|exact (Hreach ip H3)].
    destruct (models.tor_node_by_ip (models.committed (db_manager self)) ip)
      as [n|] eqn:E; [|reflexivity].
    exfalso. apply H1. eapply found_in_addresses. exact E.
Qed.

Lemma load_tor_nodes_success_witness :
  exists n,
    models.tor_node_by_ip
      (models.committed
         (db_manager
            (snd (_load_tor_nodes fixtures.directory_extractor
                    [fixtures.reload_record; fixtures.fresh_record]))))
      "171.25.193.9" = Some n.
Proof.
  destruct (proj1 (load_tor_nodes_success fixtures.directory_extractor
                     [fixtures.reload_record; fixtures.fresh_record] eq_refl)
              fixtures.fresh_record (or_intror (or_introl eq_refl)))
    as (ip & n & Hip & Hn).
  injection Hip as <-. exists n. exact Hn.
Defined.

Lemma load_loop_ok_has_addresses (tor_nodes : list NodeData) :
  forall s pending ips sp ips',
    load_loop tor_nodes s pending ips = (py.Ok sp, ips') ->
    forall nd, In nd tor_nodes -> nd_ip_address nd <> None.
Proof.
  induction tor_nodes as [|nd rest IH]; cbn [load_loop];
    intros s pending ips sp ips' H nd' Hin; [destruct Hin|].
  destruct (nd_ip_address nd) as [ip|] eqn:Hip; [|discriminate].
  destruct (flush pending s) as [s1|e]; [|discriminate].
  destruct Hin as [<-|Hin]; [congruence|].
  destruct (models.tor_node_by_ip s1 ip); eapply IH; eassumption.
Qed.

Lemma load_loop_cache_grows (tor_nodes : list NodeData) :
  forall s pending ips ip,
    In ip ips -> In ip (snd (load_loop tor_nodes s pending ips)).
Proof.
  induction tor_nodes as [|nd rest IH]; cbn [load_loop];
    intros s pending ips ip Hin; [exact Hin|].
  destruct (nd_ip_address nd) as [a|]; [|exact Hin].
  destruct (flush pending s) as [s1|e]; [|exact Hin].
  destruct (models.tor_node_by_ip s1 a); apply IH; [exact Hin|].
  apply set_add_in. left. exact Hin.
Qed.

(** X18. A load is all or nothing in the database, not in the cache. When
    [_load_tor_nodes] raises, which it does whenever a record has no
    [ip_address], the committed tables are those from before the call and
    no session is left open; the addresses cached on the way stay cached. *)
Theorem load_tor_nodes_failure (self : TorExtractor) (tor_nodes : list NodeData) :
  let out := _load_tor_nodes self tor_nodes in
  ((exists node_data, In node_data tor_nodes /\ nd_ip_address node_data = None) ->
   exists e, fst out = py.Raise e) /\
  (forall e, fst out = py.Raise e ->
     models.committed (db_manager (snd out)) = models.committed (db_manager self)) /\
  models.open_sessions (db_manager (snd out)) =
    models.open_sessions (db_manager self) /\
  (forall ip, In ip (tor_node_ips self) -> In ip (tor_node_ips (snd out))).
Proof.
  unfold _load_tor_nodes, models.get_session. cbv zeta.
  destruct (load_loop tor_nodes (models.committed (db_manager self)) []
              (tor_node_ips self)) as [[[s1 p1]|e] ips] eqn:Hloop;
    cbn [py.bind fst snd].
  - pose proof (load_loop_ok_has_addresses _ _ _ _ _ _ Hloop) as Hall.
    destruct (load_loop_addresses _ _ _ _ _ _ _ Hloop) as (_ & _ & _ & _ & Hmono).
    destruct (flush p1 s1) as [s2|e] eqn:Hfl; cbn [fst snd];
      cbn [db_manager tor_node_ips models.close models.commit models.committed
           models.open_sessions Nat.pred].
    + split; [|split; [|split; [reflexivity | exact Hmono]]].
      * intros (nd & Hin & Hnone). exfalso. exact (Hall nd Hin Hnone).
      * intros e He. discriminate He.
    + split; [|split; [|split; [reflexivity | exact Hmono]]].
      * intros _. exists e. reflexivity.
      * intros _ _. reflexivity.
  - cbn [db_manager tor_node_ips models.close models.commit models.committed
         models.open_sessions Nat.pred].
    split; [|split; [|split; [reflexivity|]]].
    + intros _. exists e. reflexivity.
    + intros _ _. reflexivity.
    + intros ip Hin. pose proof (load_loop_cache_grows tor_nodes (models.committed (db_manager self)) [] (tor_node_ips self) ip Hin) as Hg.
      rewrite Hloop in Hg. exact Hg.
Qed.

Lemma load_loop_known (tor_nodes : list NodeData) (s : models.Session)
      (ips : list string) :
  (forall node_data, In node_data tor_nodes ->
     exists ip n, nd_ip_address node_data = Some ip /\
                  models.tor_node_by_ip s ip = Some n) ->
  load_loop tor_nodes s [] ips = (py.Ok (s, []), ips).
Proof.
  induction tor_nodes as [|nd rest IH]; intros Hall; cbn [load_loop flush];
    [reflexivity|].
  destruct (Hall nd (or_introl eq_refl)) as (ip & n & -> & ->).
  apply IH. intros nd' Hin. apply Hall. right. exact Hin.
Qed.

(** X19. A snapshot of known addresses does not fill the cache. When every
    record's address is in the relay table already, the load returns
    without writing a row and without caching an address; so an extractor
    created over a populated database starts with an empty cache, and the
    known-relay rule of [_analyze_flow] then fires for no flow. *)
Theorem load_known_addresses_leaves_cache_empty (db : models.DatabaseManager)
        (tor_nodes : list NodeData) :
  (forall node_data, In node_data tor_nodes ->
     exists ip n, nd_ip_address node_data = Some ip /\
                  models.tor_node_by_ip (models.committed db) ip = Some n) ->
  TorExtractor_init db (Some tor_nodes) = (py.Ok tt, mkTorExtractor db []) /\
  (forall ips, _load_tor_nodes (mkTorExtractor db ips) tor_nodes =
               (py.Ok tt, mkTorExtractor db ips)) /\
  forall flow,
    Flow.relay_comm
      (fst (_analyze_flow (snd (TorExtractor_init db (Some tor_nodes))) flow)) =
    Flow.relay_comm flow
    || existsb (Z.eqb (Flow.dst_port flow)) [9001; 9030; 9050; 9051; 9150].
Proof.
  intros Hall.
  assert (Hload : forall ips, _load_tor_nodes (mkTorExtractor db ips) tor_nodes =
                              (py.Ok tt, mkTorExtractor db ips)).
  { intros ips. unfold _load_tor_nodes, models.get_session. cbv zeta.
    cbn [db_manager tor_node_ips].
    rewrite (load_loop_known tor_nodes (models.committed db) ips Hall).
    cbn [py.bind fst snd flush]. destruct db as [tables open]. reflexivity. }
  assert (Hinit : TorExtractor_init db (Some tor_nodes) =
                  (py.Ok tt, mkTorExtractor db [])).
  { unfold TorExtractor_init. destruct tor_nodes as [|nd rest]; [reflexivity|].
    apply Hload. }
  split; [exact Hinit|]. split; [exact Hload|].
  intros flow. rewrite Hinit. cbn [snd].
  rewrite analyze_flow_eq. cbn [fst Flow.relay_comm Flow.set_indicators].
  unfold known_relay, relay_port, py.contains. cbn [tor_node_ips existsb].
  rewrite orb_false_r. reflexivity.
Qed.

Lemma load_known_addresses_leaves_cache_empty_witness :
  tor_node_ips
    (snd (TorExtractor_init fixtures.directory_db (Some [fixtures.reload_record])))
  = [] /\
  models.tor_node_by_ip (models.committed fixtures.directory_db) "185.220.101.1"
  = Some fixtures.guard_node.
Proof.
  assert (Hall : forall node_data, In node_data [fixtures.reload_record] ->
            exists ip n, nd_ip_address node_data = Some ip /\
              models.tor_node_by_ip (models.committed fixtures.directory_db) ip
              = Some n).
  { intros nd [<-|[]]. exists "185.220.101.1"%string, fixtures.guard_node.
    split; reflexivity. }
  rewrite (proj1 (load_known_addresses_leaves_cache_empty fixtures.directory_db
                    [fixtures.reload_record] Hall)).
  split; reflexivity.
Defined.

Lemma load_tor_nodes_failure_witness :
  let out := _load_tor_nodes fixtures.bare_extractor
               [fixtures.fresh_record; samples.nameless_record] in
  (exists e, fst out = py.Raise e) /\
  models.tor_nodes (models.committed (db_manager (snd out))) = [] /\
  tor_node_ips (snd out) = ["171.25.193.9"].
Proof.
  split; [|split; reflexivity].
  apply (proj1 (load_tor_nodes_failure fixtures.bare_extractor
                  [fixtures.fresh_record; samples.nameless_record])).
  exists samples.nameless_record. split; [right; left; reflexivity | reflexivity].
Defined.

End DirectoryMore.

(* ----------------------------------------------------------------- *)
(** ** The correlator *)

Section CorrelatorMore.
Import correlation_engine inv props.

(** *** The set of internal addresses *)

Lemma is_internal_ip_known (ip : string) (known : list string) :
  (forall x, In x known -> _is_internal_ip x None = py.Ok true) ->
  _is_internal_ip ip (Some known) = _is_internal_ip ip None.
Proof.
  intros Hall. unfold _is_internal_ip at 1.
  destruct known as [|k l]; [reflexivity|].
  destruct (py.contains ip (k :: l)) eqn:E; [|reflexivity].
  unfold py.contains in E. apply existsb_exists in E.
  destruct E as (x & Hx & Heq). apply String.eqb_eq in Heq. subst x.
  symmetry. apply Hall. exact Hx.
Qed.

Lemma set_add_nodup (x : string) (s : list string) :
  NoDup s -> NoDup (py.set_add x s).
Proof.
  intros Hnd. unfold py.set_add, py.contains.
  destruct (existsb (String.eqb x) s) eqn:E; [exact Hnd|].
  eapply Permutation_NoDup; [apply Permutation_cons_append|].
  constructor; [|exact Hnd]. intros Hin.
  assert (existsb (String.eqb x) s = true)
    by (apply existsb_exists; exists x; split; [exact Hin | apply String.eqb_refl]).
  congruence.
Qed.

Lemma internal_ips_loop_ok (ips : list string) :
  forall acc out,
    internal_ips_loop ips acc = py.Ok out ->
    (forall ip, In ip out <->
                In ip acc \/ (In ip ips /\ _is_internal_ip ip None = py.Ok true)) /\
    (NoDup acc -> NoDup out) /\
    (forall ip, In ip ips -> exists v, _is_internal_ip ip None = py.Ok v).
Proof.
  induction ips as [|x rest IH]; cbn [internal_ips_loop]; intros acc out H.
  - injection H as <-. split; [|split; [tauto | intros ip []]].
    intros ip. cbn [In]. tauto.
  - destruct (_is_internal_ip x None) as [v|e] eqn:Hx; cbn [py.bind] in H;
      [|discriminate].
    destruct (IH _ _ H) as (Hin & Hnd & Hok).
    split; [|split].
    + intros ip. rewrite Hin. cbn [In]. destruct v.
      * rewrite set_add_in. split.
        -- intros [[H1|H1]|[H1 H2]]; [tauto | subst ip; tauto | tauto].
        -- intros [H1|[[H1|H1] H2]]; [tauto | subst ip; tauto | tauto].
      * split; [tauto|]. intros [H1|[[H1|H1] H2]]; [tauto | | tauto].
        subst ip. congruence.
    + intros Hacc. apply Hnd. destruct v; [apply set_add_nodup|]; exact Hacc.
    + intros ip [<-|Hip]; [exists v; exact Hx | exact (Hok ip Hip)].
Qed.

Lemma internal_ips_loop_raise (ips : list string) :
  forall acc e,
    internal_ips_loop ips acc = py.Raise e ->
    exists ip, In ip ips /\ _is_internal_ip ip None = py.Raise e.
Proof.
  induction ips as [|x rest IH]; cbn [internal_ips_loop]; intros acc e H;
    [discriminate|].
  destruct (_is_internal_ip x None) as [v|e'] eqn:Hx; cbn [py.bind] in H.
  - destruct (IH _ _ H) as (ip & Hin & Hr). exists ip. split; [right|]; assumption.
  - injection H as <-. exists x. split; [left; reflexivity | exact Hx].
Qed.

Lemma internal_ips_loop_raises (ips : list string) :
  forall acc ip e,
    In ip ips -> _is_internal_ip ip None = py.Raise e ->
    exists e', internal_ips_loop ips acc = py.Raise e'.
Proof.
  induction ips as [|x rest IH]; cbn [internal_ips_loop]; intros acc ip e Hin Hr;
    [destruct Hin|].
  destruct (_is_internal_ip x None) as [v|e'] eqn:Hx; cbn [py.bind].
  - destruct Hin as [<-|Hin]; [congruence|]. eapply IH; eassumption.
  - exists e'. reflexivity.
Qed.

Lemma distinct_in (l : list string) :
  forall seen ip, In ip (distinct l seen) <-> In ip l /\ ~ In ip seen.
Proof.
  induction l as [|x l IH]; intros seen ip; cbn [distinct In]; [tauto|].
  unfold py.contains.
  destruct (existsb (String.eqb x) seen) eqn:E.
  - rewrite IH. apply existsb_exists in E. destruct E as (z & Hz & Heq).
    apply String.eqb_eq in Heq. subst z.
    split; [tauto|]. intros [[H|H] Hn]; [subst; contradiction | tauto].
  - cbn [In]. rewrite IH. cbn [In].
    assert (Hx : ~ In x seen).
    { intros Hin.
      assert (existsb (String.eqb x) seen = true)
        by (apply existsb_exists; exists x; split;
            [exact Hin | apply String.eqb_refl]).
      congruence. }
    split.
    + intros [H|[H Hn]]; [subst ip; tauto | tauto].
    + intros [[H|H] Hn]; [tauto|].
      destruct (string_dec x ip) as [Heq|Hne]; [tauto|]. right. tauto.
Qed.

Lemma internal_ips_redundant (session : models.Session)
      (internal_ips : list string) :
  _get_internal_ips session = py.Ok internal_ips ->
  forall ip, _is_internal_ip ip (Some internal_ips) = _is_internal_ip ip None.
Proof.
  unfold _get_internal_ips. intros H ip.
  destruct (internal_ips_loop_ok _ _ _ H) as (Hin & _ & _).
  apply is_internal_ip_known. intros x Hx.
  apply Hin in Hx. destruct Hx as [[]|[_ Hx]]. exact Hx.
Qed.

(** X20. The set of internal addresses. When [_get_internal_ips] returns,
    its result holds, each once, the source addresses of the flow table
    that pass the prefix test; so passing it as [known_internal] changes
    the answer of [_is_internal_ip] for no address at all. *)
Theorem get_internal_ips_is_the_prefix_test (session : models.Session)
        (internal_ips : list string) :
  _get_internal_ips session = py.Ok internal_ips ->
  (forall ip, In ip internal_ips <->
              In ip (map Flow.src_ip (models.flows session)) /\
              _is_internal_ip ip None = py.Ok true) /\
  NoDup internal_ips /\
  (forall ip, _is_internal_ip ip (Some internal_ips) = _is_internal_ip ip None).
Proof.
  unfold _get_internal_ips. intros H.
  destruct (internal_ips_loop_ok _ _ _ H) as (Hin & Hnd & _).
  assert (Hmem : forall ip, In ip internal_ips <->
                   In ip (map Flow.src_ip (models.flows session)) /\
                   _is_internal_ip ip None = py.Ok true).
  { intros ip. rewrite Hin, distinct_in. cbn [In]. tauto. }
  split; [exact Hmem|]. split; [apply Hnd; constructor|].
  intros ip. apply is_internal_ip_known. intros x Hx.
  exact (proj2 (proj1 (Hmem x) Hx)).
Qed.

Lemma get_internal_ips_is_the_prefix_test_witness :
  _get_internal_ips (models.committed fixtures.scenario2_db) =
    py.Ok ["192.168.1.100"] /\
  _is_internal_ip "8.8.8.8" (Some ["192.168.1.100"]) = py.Ok false.
Proof.
  assert (H : _get_internal_ips (models.committed fixtures.scenario2_db) =
              py.Ok ["192.168.1.100"]) by (vm_compute; reflexivity).
  split; [exact H|].
  rewrite (proj2 (proj2 (get_internal_ips_is_the_prefix_test _ _ H)) "8.8.8.8").
  vm_compute. reflexivity.
Defined.

(** *** The rows of a pass *)

Lemma keyed_in_turn_app (rows1 : list Correlation.t) :
  forall old rows2,
    keyed_in_turn old rows1 -> keyed_in_turn (old ++ rows1) rows2 ->
    keyed_in_turn old (rows1 ++ rows2).
Proof.
  induction rows1 as [|r rows1 IH]; intros old rows2 H1 H2; cbn [app].
  - rewrite app_nil_r in H2. exact H2.
  - destruct H1 as [Hid H1]. split; [exact Hid|].
    apply IH; [exact H1|]. rewrite <- app_assoc. exact H2.
Qed.

Lemma next_id_above (ids : list Z) :
  0 < models.next_id ids /\ forall k, In k ids -> k < models.next_id ids.
Proof.
  unfold models.next_id. induction ids as [|x ids [IH0 IH]]; cbn [fold_right].
  - split; [lia | intros k []].
  - split; [lia|]. intros k [<-|Hk]; [lia|]. specialize (IH k Hk). lia.
Qed.

Lemma keyed_in_turn_nodup (rows : list Correlation.t) :
  forall old,
    keyed_in_turn old rows ->
    NoDup (map Correlation.id old) ->
    NoDup (map Correlation.id (old ++ rows)).
Proof.
  induction rows as [|r rows IH]; intros old Hk Hnd.
  - rewrite app_nil_r. exact Hnd.
  - destruct Hk as [Hid Hk].
    replace (old ++ r :: rows) with ((old ++ [r]) ++ rows)
      by (rewrite <- app_assoc; reflexivity).
    apply IH; [exact Hk|]. rewrite map_app. cbn [map].
    eapply Permutation_NoDup; [apply Permutation_cons_append|].
    constructor; [|exact Hnd]. intros Hin.
    pose proof (proj2 (next_id_above (map Correlation.id old)) _ Hin). lia.
Qed.

Lemma correlate_pair_rows (min_weight : float) (flow1 flow2 : Flow.t)
      (s : models.Session) (c : Z) (s' : models.Session) (c' : Z) :
  correlate_pair min_weight flow1 flow2 s c = py.Ok (s', c') ->
  exists rows,
    appended s s' rows /\
    c' = c + Z.of_nat (List.length rows) /\
    keyed_in_turn (models.correlations s) rows /\
    Forall (fun r => Correlation.flow_id r = Flow.id flow1 /\
                     Correlation.correlated_flow_id r = Flow.id flow2) rows.
Proof.
  unfold correlate_pair.
  destruct (_calculate_correlation flow1 flow2 s) as [[w ev]|e];
    cbn [py.bind]; [|discriminate].
  destruct (PrimFloat.leb min_weight w); intros H; injection H as <- <-.
  - eexists [_]. unfold appended, add_correlation.
    cbn [models.flows models.tor_nodes models.correlations List.length
         keyed_in_turn Correlation.id Correlation.flow_id
         Correlation.correlated_flow_id].
    split; [auto|]. split; [reflexivity|]. split; [auto|].
    constructor; [split; reflexivity | constructor].
  - exists []. split; [apply appended_nil|]. cbn [List.length keyed_in_turn].
    split; [lia|]. split; [exact I | constructor].
Qed.

Lemma appended_correlations (s s' : models.Session) (rows : list Correlation.t) :
  appended s s' rows -> models.correlations s' = models.correlations s ++ rows.
Proof. intros (_ & _ & H). exact H. Qed.

Lemma inner_loop_rows (self : CorrelationEngine) (min_weight : float)
      (internal_ips : list string) (flow1 : Flow.t) (rest : list Flow.t) :
  forall s c s' c',
    inner_loop self min_weight internal_ips flow1 rest s c = py.Ok (s', c') ->
    exists rows,
      appended s s' rows /\
      c' = c + Z.of_nat (List.length rows) /\
      keyed_in_turn (models.correlations s) rows /\
      Forall (fun r =>
                exists flow2,
                  In flow2 rest /\
                  Correlation.flow_id r = Flow.id flow1 /\
                  Correlation.correlated_flow_id r = Flow.id flow2 /\
                  _is_internal_ip (Flow.src_ip flow2) (Some internal_ips) =
                    py.Ok true /\
                  PrimFloat.ltb (py.total_seconds (time_window self))
                    (time_diff_seconds flow1 flow2) = false) rows.
Proof.
  induction rest as [|flow2 rest IH]; intros s c s' c'; cbn [inner_loop].
  - intros H; injection H as <- <-.
    exists []. split; [apply appended_nil|]. cbn [List.length keyed_in_turn].
    split; [lia|]. split; [exact I | constructor].
  - destruct (_is_internal_ip (Flow.src_ip flow2) (Some internal_ips)) as [v|e]
      eqn:Hint; cbn [py.bind]; [|discriminate].
    destruct v; cbn [negb].
    + destruct (PrimFloat.ltb (py.total_seconds (time_window self))
                  (time_diff_seconds flow1 flow2)) eqn:Hwin.
      * intros H; injection H as <- <-.
        exists []. split; [apply appended_nil|]. cbn [List.length keyed_in_turn].
        split; [lia|]. split; [exact I | constructor].
      * destruct (correlate_pair min_weight flow1 flow2 s c) as [[s1 c1]|e]
          eqn:Hpair; cbn [py.bind fst snd]; [|discriminate].
        intros Hloop.
        destruct (correlate_pair_rows _ _ _ _ _ _ _ Hpair)
          as (rows1 & Ha1 & Hc1 & Hk1 & HF1).
        destruct (IH _ _ _ _ Hloop) as (rows2 & Ha2 & Hc2 & Hk2 & HF2).
        exists (rows1 ++ rows2).
        split; [eapply appended_trans; eassumption|].
        split; [rewrite length_app; lia|].
        split.
        { apply keyed_in_turn_app; [exact Hk1|].
          rewrite <- (appended_correlations _ _ _ Ha1). exact Hk2. }
        apply Forall_app. split.
        { eapply Forall_impl; [|exact HF1]. intros r [H1 H2].
          exists flow2. split; [left; reflexivity|]. auto. }
        { eapply Forall_impl; [|exact HF2].
          intros r (f2 & Hin & H). exists f2. split; [right; exact Hin | exact H]. }
    + intros Hloop. destruct (IH _ _ _ _ Hloop) as (rows & Ha & Hc & Hk & HF).
      exists rows. split; [exact Ha|]. split; [exact Hc|]. split; [exact Hk|].
      eapply Forall_impl; [|exact HF].
      intros r (f2 & Hin & H). exists f2. split; [right; exact Hin | exact H].
Qed.

Lemma precedes_cons (a c x : Flow.t) (l : list Flow.t) :
  precedes a c l -> precedes a c (x :: l).
Proof.
  intros (l1 & l2 & -> & Hin). exists (x :: l1), l2. split; [reflexivity | exact Hin].
Qed.

Lemma outer_loop_rows (self : CorrelationEngine) (min_weight : float)
      (internal_ips : list string) (tor_flows : list Flow.t) :
  forall s c s' c',
    outer_loop self min_weight internal_ips tor_flows s c = py.Ok (s', c') ->
    exists rows,
      appended s s' rows /\
      c' = c + Z.of_nat (List.length rows) /\
      keyed_in_turn (models.correlations s) rows /\
      Forall (fun r =>
                exists flow1 flow2,
                  precedes flow1 flow2 tor_flows /\
                  Correlation.flow_id r = Flow.id flow1 /\
                  Correlation.correlated_flow_id r = Flow.id flow2 /\
                  _is_internal_ip (Flow.src_ip flow1) (Some internal_ips) =
                    py.Ok true /\
                  _is_internal_ip (Flow.src_ip flow2) (Some internal_ips) =
                    py.Ok true /\
                  PrimFloat.ltb (py.total_seconds (time_window self))
                    (time_diff_seconds flow1 flow2) = false) rows.
Proof.
  induction tor_flows as [|flow1 rest IH]; intros s c s' c'; cbn [outer_loop].
  - intros H; injection H as <- <-.
    exists []. split; [apply appended_nil|]. cbn [List.length keyed_in_turn].
    split; [lia|]. split; [exact I | constructor].
  - destruct (_is_internal_ip (Flow.src_ip flow1) (Some internal_ips)) as [v|e]
      eqn:Hint; cbn [py.bind]; [|discriminate].
    destruct v; cbn [negb].
    + destruct (inner_loop self min_weight internal_ips flow1 rest s c)
        as [[s1 c1]|e] eqn:Hinner; cbn [py.bind fst snd]; [|discriminate].
      intros Hloop.
      destruct (inner_loop_rows _ _ _ _ _ _ _ _ _ Hinner)
        as (rows1 & Ha1 & Hc1 & Hk1 & HF1).
      destruct (IH _ _ _ _ Hloop) as (rows2 & Ha2 & Hc2 & Hk2 & HF2).
      exists (rows1 ++ rows2).
      split; [eapply appended_trans; eassumption|].
      split; [rewrite length_app; lia|].
      split.
      { apply keyed_in_turn_app; [exact Hk1|].
        rewrite <- (appended_correlations _ _ _ Ha1). exact Hk2. }
      apply Forall_app. split.
      { eapply Forall_impl; [|exact HF1].
        intros r (f2 & Hin & H1 & H2 & H3 & H4).
        exists flow1, f2. split; [exists [], rest; split; [reflexivity | exact Hin]|].
        auto. }
      { eapply Forall_impl; [|exact HF2].
        intros r (f1 & f2 & Hp & H). exists f1, f2.
        split; [apply precedes_cons; exact Hp | exact H]. }
    + intros Hloop. destruct (IH _ _ _ _ Hloop) as (rows & Ha & Hc & Hk & HF).
      exists rows. split; [exact Ha|]. split; [exact Hc|]. split; [exact Hk|].
      eapply Forall_impl; [|exact HF].
      intros r (f1 & f2 & Hp & H). exists f1, f2.
      split; [apply precedes_cons; exact Hp | exact H].
Qed.

Lemma insert_by_ts_start_in (f x : Flow.t) (l : list Flow.t) :
  In x (insert_by_ts_start f l) <-> x = f \/ In x l.
Proof.
  induction l as [|g l IH]; cbn [insert_by_ts_start In].
  - split; [intros [H|[]]; auto | intros [H|[]]; auto].
  - destruct (Flow.ts_start f <=? Flow.ts_start g); cbn [In].
    + split; [intros [H|H]; auto | intros [H|H]; auto].
    + rewrite IH. split; [intros [H|[H|H]]; auto | intros [H|[H|H]]; auto].
Qed.

Lemma insert_by_ts_start_sorted (f : Flow.t) (l : list Flow.t) :
  StronglySorted by_ts_start l -> StronglySorted by_ts_start (insert_by_ts_start f l).
Proof.
  induction l as [|g l IH]; intros Hs; cbn [insert_by_ts_start].
  - constructor; [constructor | constructor].
  - inversion Hs as [|? ? Hl Hg]; subst.
    destruct (Flow.ts_start f <=? Flow.ts_start g) eqn:E.
    + apply Z.leb_le in E. constructor; [exact Hs|].
      constructor; [exact E|].
      rewrite Forall_forall in *. intros x Hx. specialize (Hg x Hx).
      unfold by_ts_start in *. lia.
    + apply Z.leb_gt in E. constructor; [apply IH; exact Hl|].
      rewrite Forall_forall in *. intros x Hx.
      apply insert_by_ts_start_in in Hx. destruct Hx as [->|Hx].
      * unfold by_ts_start. lia.
      * exact (Hg x Hx).
Qed.

Lemma order_by_ts_start_sorted (l : list Flow.t) :
  StronglySorted by_ts_start (order_by_ts_start l).
Proof.
  unfold order_by_ts_start. induction l as [|f l IH]; cbn [fold_right].
  - constructor.
  - apply insert_by_ts_start_sorted. exact IH.
Qed.

Lemma order_by_ts_start_in (x : Flow.t) (l : list Flow.t) :
  In x (order_by_ts_start l) <-> In x l.
Proof.
  unfold order_by_ts_start. induction l as [|f l IH]; cbn [fold_right In];
    [tauto|].
  rewrite insert_by_ts_start_in, IH. split; intros [H|H]; auto.
Qed.

Lemma precedes_sorted (a c : Flow.t) (l : list Flow.t) :
  StronglySorted by_ts_start l -> precedes a c l ->
  Flow.ts_start a <= Flow.ts_start c.
Proof.
  intros Hs (l1 & l2 & -> & Hin).
  induction l1 as [|x l1 IH]; cbn [app] in Hs; inversion Hs as [|? ? Hl Hx]; subst.
  - rewrite Forall_forall in Hx. exact (Hx c Hin).
  - apply IH. exact Hl.
Qed.

(** The pass as its loops see it: whatever the outcome, only the
    correlation table can differ afterwards. *)
Lemma correlate_flows_run (self : CorrelationEngine) (min_weight : float) :
  let s := models.committed (db_manager self) in
  let out := correlate_flows self min_weight in
  time_window (snd out) = time_window self /\
  models.open_sessions (db_manager (snd out)) =
    models.open_sessions (db_manager self) /\
  match _get_internal_ips s with
  | py.Raise e => fst out = py.Raise e /\ models.committed (db_manager (snd out)) = s
  | py.Ok internal_ips =>
      match outer_loop self min_weight internal_ips (tor_flows_query s) s 0 with
      | py.Raise e =>
          fst out = py.Raise e /\ models.committed (db_manager (snd out)) = s
      | py.Ok (s', n) =>
          fst out = py.Ok n /\ models.committed (db_manager (snd out)) = s'
      end
  end.
Proof.
  cbv zeta. unfold correlate_flows, models.get_session.
  destruct (_get_internal_ips (models.committed (db_manager self))) as [ips|e];
    cbn [py.bind].
  - destruct (outer_loop self min_weight ips
                (tor_flows_query (models.committed (db_manager self)))
                (models.committed (db_manager self)) 0) as [[s' n]|e];
      cbn [fst snd db_manager time_window models.close models.commit
           models.committed models.open_sessions models.rollback Nat.pred];
      repeat split.
  - cbn [fst snd db_manager time_window models.close models.commit
         models.committed models.open_sessions models.rollback Nat.pred].
    repeat split.
Qed.

(** X21. What a pass may touch. [correlate_flows] never changes the flow
    table or the relay table and leaves no session open. When it raises,
    the correlation table is as before. When it returns [n], exactly [n]
    rows were appended, keyed one after the other with fresh keys. *)
Theorem correlate_flows_frame (self : CorrelationEngine) (min_weight : float) :
  let before := models.committed (db_manager self) in
  let out := correlate_flows self min_weight in
  let after := models.committed (db_manager (snd out)) in
  models.flows after = models.flows before /\
  models.tor_nodes after = models.tor_nodes before /\
  models.open_sessions (db_manager (snd out)) =
    models.open_sessions (db_manager self) /\
  time_window (snd out) = time_window self /\
  (forall e, fst out = py.Raise e ->
     models.correlations after = models.correlations before) /\
  (forall n, fst out = py.Ok n ->
     exists rows,
       models.correlations after = models.correlations before ++ rows /\
       Z.of_nat (List.length rows) = n /\
       keyed_in_turn (models.correlations before) rows /\
       (NoDup (map Correlation.id (models.correlations before)) ->
        NoDup (map Correlation.id (models.correlations after)))).
Proof.
  cbv zeta.
  destruct (correlate_flows_run self min_weight) as (Hw & Hopen & Hrun).
  cbv zeta in Hrun.
  destruct (_get_internal_ips (models.committed (db_manager self))) as [ips|e].
  - destruct (outer_loop self min_weight ips
                (tor_flows_query (models.committed (db_manager self)))
                (models.committed (db_manager self)) 0) as [[s' n]|e] eqn:Hout.
    + destruct Hrun as [Hfst Hafter]. rewrite Hafter, Hfst.
      destruct (outer_loop_rows _ _ _ _ _ _ _ _ Hout)
        as (rows & (Hf & Hn & Hc) & Hcount & Hk & _).
      split; [exact Hf|]. split; [exact Hn|]. split; [exact Hopen|].
      split; [exact Hw|]. split; [intros e He; discriminate He|].
      intros n' Hn'. injection Hn' as <-. exists rows.
      split; [exact Hc|]. split; [lia|]. split; [exact Hk|].
      intros Hnd. rewrite Hc. apply keyed_in_turn_nodup; assumption.
    + destruct Hrun as [Hfst Hafter]. rewrite Hafter, Hfst.
      repeat split; try assumption; intros n' Hn'; discriminate Hn'.
  - destruct Hrun as [Hfst Hafter]. rewrite Hafter, Hfst.
    repeat split; try assumption; intros n' Hn'; discriminate Hn'.
Qed.

(** X22. Which pairs a pass can join. Every row a pass appends joins two
    flows with an indicator: the first starts no later than the second,
    the two starts are within the window, and both source addresses pass
    the prefix test for private addresses. *)
Theorem correlate_flows_rows_in_window (self self1 : CorrelationEngine)
        (min_weight : float) (n : Z) :
  correlate_flows self min_weight = (py.Ok n, self1) ->
  exists rows,
    models.correlations (models.committed (db_manager self1)) =
      models.correlations (models.committed (db_manager self)) ++ rows /\
    Forall (window_row self
              (tor_flows_query (models.committed (db_manager self)))) rows /\
    Forall (fun row =>
              exists a c,
                In a (models.flows (models.committed (db_manager self))) /\
                In c (models.flows (models.committed (db_manager self))) /\
                is_tor_related a = true /\ is_tor_related c = true /\
                Correlation.flow_id row = Flow.id a /\
                Correlation.correlated_flow_id row = Flow.id c) rows.
Proof.
  intros Hrun.
  destruct (correlate_flows_run self min_weight) as (_ & _ & Hshape).
  cbv zeta in Hshape. rewrite Hrun in Hshape. cbn [fst snd] in Hshape.
  set (s := models.committed (db_manager self)) in *.
  destruct (_get_internal_ips s) as [ips|e] eqn:Hips;
    [|destruct Hshape as [H _]; discriminate H].
  destruct (outer_loop self min_weight ips (tor_flows_query s) s 0)
    as [[s' n']|e] eqn:Hout; [|destruct Hshape as [H _]; discriminate H].
  destruct Hshape as [_ Hafter]. rewrite Hafter.
  destruct (outer_loop_rows _ _ _ _ _ _ _ _ Hout)
    as (rows & (_ & _ & Hc) & _ & _ & HF).
  pose proof (internal_ips_redundant s ips Hips) as Hsame.
  assert (Hwin : Forall (window_row self (tor_flows_query s)) rows).
  { eapply Forall_impl; [|exact HF].
    intros r (a & c & Hp & H1 & H2 & H3 & H4 & H5).
    exists a, c. split; [exact Hp|]. split; [exact H1|]. split; [exact H2|].
    unfold private_source. rewrite <- !Hsame.
    split; [exact H3|]. split; [exact H4|]. split; [|exact H5].
    eapply precedes_sorted; [|exact Hp].
    unfold tor_flows_query. apply order_by_ts_start_sorted. }
  exists rows. split; [exact Hc|]. split; [exact Hwin|].
  eapply Forall_impl; [|exact Hwin].
  intros r (a & c & (l1 & l2 & Hl & Hin) & H1 & H2 & _).
  assert (Hmem : forall x, In x (tor_flows_query s) ->
                           In x (models.flows s) /\ is_tor_related x = true).
  { intros x Hx. unfold tor_flows_query in Hx.
    apply (proj1 (order_by_ts_start_in _ _)) in Hx.
    apply filter_In in Hx. exact Hx. }
  assert (Ha : In a (tor_flows_query s))
    by (rewrite Hl; apply in_or_app; right; left; reflexivity).
  assert (Hcc : In c (tor_flows_query s))
    by (rewrite Hl; apply in_or_app; right; right; exact Hin).
  exists a, c. destruct (Hmem a Ha), (Hmem c Hcc). auto 10.
Qed.

Lemma correlate_flows_rows_in_window_witness :
  exists rows,
    models.correlations
      (models.committed
         (db_manager (snd (correlate_flows fixtures.scenario2_engine 0.3%float)))) =
      models.correlations (models.committed fixtures.scenario2_db) ++ rows /\
    List.length rows = 1%nat /\
    Forall (window_row fixtures.scenario2_engine
              (tor_flows_query (models.committed fixtures.scenario2_db))) rows.
Proof.
  destruct (correlate_flows_rows_in_window fixtures.scenario2_engine
              (snd (correlate_flows fixtures.scenario2_engine 0.3%float))
              0.3%float 1 ltac:(vm_compute; reflexivity))
    as (rows & Hc & Hw & _).
  exists rows. split; [exact Hc|]. split; [|exact Hw].
  apply (f_equal (@List.length _)) in Hc. rewrite length_app in Hc.
  vm_compute in Hc. vm_compute. lia.
Defined.

(** X23. One unreadable source address stops the pass. If the prefix test
    raises for the source address of any flow of the table, with or without
    an indicator, [correlate_flows] raises before it looks at a pair, and
    nothing is written. *)
Theorem correlate_flows_bad_source_aborts (self : CorrelationEngine)
        (min_weight : float) (flow : Flow.t) (e : py.exn) :
  In flow (models.flows (models.committed (db_manager self))) ->
  _is_internal_ip (Flow.src_ip flow) None = py.Raise e ->
  exists e',
    fst (correlate_flows self min_weight) = py.Raise e' /\
    _get_internal_ips (models.committed (db_manager self)) = py.Raise e' /\
    models.committed (db_manager (snd (correlate_flows self min_weight))) =
      models.committed (db_manager self).
Proof.
  intros Hin Hbad.
  destruct (correlate_flows_run self min_weight) as (_ & _ & Hshape).
  cbv zeta in Hshape.
  assert (Hsrc : In (Flow.src_ip flow)
                   (distinct (map Flow.src_ip
                                (models.flows (models.committed (db_manager self))))
                      [])).
  { apply distinct_in. split; [apply in_map; exact Hin | intros []]. }
  destruct (internal_ips_loop_raises _ [] _ _ Hsrc Hbad) as [e' He'].
  unfold _get_internal_ips in *. rewrite He' in Hshape.
  exists e'. destruct Hshape as [H1 H2]. auto.
Qed.

Lemma correlate_flows_bad_source_aborts_witness :
  is_tor_related
    (fixtures.plain_flow 9 "172.x.1.1" 40000 "8.8.8.8" 53 0 1000000 1 60) = false /\
  exists e,
    fst (correlate_flows
           (CorrelationEngine_init samples.unmarked_bad_source_db 10) 0.3%float) =
    py.Raise e.
Proof.
  split; [reflexivity|].
  destruct (correlate_flows_bad_source_aborts
              (CorrelationEngine_init samples.unmarked_bad_source_db 10) 0.3%float
              (fixtures.plain_flow 9 "172.x.1.1" 40000 "8.8.8.8" 53 0 1000000 1 60)
              (py.ValueError "invalid literal for int() with base 10: 'x'")
              ltac:(right; right; left; reflexivity)
              ltac:(vm_compute; reflexivity))
    as (e' & He & _).
  exists e'. exact He.
Defined.

Lemma contains_in (x : string) (l : list string) :
  py.contains x l = true <-> In x l.
Proof.
  unfold py.contains. rewrite existsb_exists. split.
  - intros (y & Hy & Heq). apply String.eqb_eq in Heq. subst y. exact Hy.
  - intros H. exists x. split; [exact H | apply String.eqb_refl].
Qed.

(** X24. A relay row without flags. [_check_entry_exit_pattern] raises
    exactly when the first flow goes to a relay whose flags hold [Guard]
    and the second to a relay whose [flags] column is NULL; the [TypeError]
    then leaves [_calculate_correlation] and the pair step as well. *)
Theorem check_entry_exit_pattern_raises (flow1 flow2 : Flow.t)
        (session : models.Session) :
  let none_flags :=
    exists n1 n2 flags1,
      models.tor_node_by_ip session (Flow.dst_ip flow1) = Some n1 /\
      models.tor_node_by_ip session (Flow.dst_ip flow2) = Some n2 /\
      TorNode.flags n1 = Some flags1 /\ In "Guard"%string flags1 /\
      TorNode.flags n2 = None in
  let error := py.TypeError "argument of type 'NoneType' is not iterable" in
  (none_flags ->
   _check_entry_exit_pattern flow1 flow2 session = py.Raise error /\
   _calculate_correlation flow1 flow2 session = py.Raise error /\
   forall min_weight count,
     correlate_pair min_weight flow1 flow2 session count = py.Raise error) /\
  (forall e, _check_entry_exit_pattern flow1 flow2 session = py.Raise e ->
             none_flags).
Proof.
  cbv zeta. split.
  - intros (n1 & n2 & flags1 & H1 & H2 & Hf1 & Hg & Hf2).
    assert (Hcheck : _check_entry_exit_pattern flow1 flow2 session =
                     py.Raise (py.TypeError "argument of type 'NoneType' is not iterable")).
    { unfold _check_entry_exit_pattern, has_flags, flag_in. rewrite H1, H2, Hf1, Hf2.
      destruct flags1 as [|x flags1]; [destruct Hg|].
      cbn [py.bind]. rewrite (proj2 (contains_in _ _) Hg). reflexivity. }
    split; [exact Hcheck|].
    assert (Hcalc : _calculate_correlation flow1 flow2 session =
                    py.Raise (py.TypeError "argument of type 'NoneType' is not iterable")).
    { unfold _calculate_correlation. rewrite Hcheck. reflexivity. }
    split; [exact Hcalc|]. intros w c. unfold correlate_pair. rewrite Hcalc.
    reflexivity.
  - intros e. unfold _check_entry_exit_pattern, has_flags, flag_in.
    destruct (models.tor_node_by_ip session (Flow.dst_ip flow1)) as [n1|] eqn:H1.
    + destruct (TorNode.flags n1) as [[|x flags1]|] eqn:Hf1; cbn [py.bind].
      * destruct (models.tor_node_by_ip session (Flow.dst_ip flow2));
          intros H; discriminate H.
      * destruct (py.contains "Guard" (x :: flags1)) eqn:Hg.
        -- destruct (models.tor_node_by_ip session (Flow.dst_ip flow2))
             as [n2|] eqn:H2; [|intros H; discriminate H].
           destruct (TorNode.flags n2) as [flags2|] eqn:Hf2; cbn [py.bind].
           ++ destruct (py.contains "Exit" flags2); intros H; discriminate H.
           ++ intros _. exists n1, n2, (x :: flags1).
              rewrite Hf1, Hf2. repeat split; try reflexivity.
              apply contains_in. exact Hg.
        -- destruct (models.tor_node_by_ip session (Flow.dst_ip flow2));
             intros H; discriminate H.
      * destruct (models.tor_node_by_ip session (Flow.dst_ip flow2));
          intros H; discriminate H.
    + cbn [py.bind].
      destruct (models.tor_node_by_ip session (Flow.dst_ip flow2));
        intros H; discriminate H.
Qed.

Lemma check_entry_exit_pattern_raises_witness :
  _calculate_correlation samples.to_guard samples.to_flagless
    samples.flagless_tables =
  py.Raise (py.TypeError "argument of type 'NoneType' is not iterable").
Proof.
  apply (proj1 (check_entry_exit_pattern_raises samples.to_guard
                  samples.to_flagless samples.flagless_tables)).
  exists fixtures.guard_node, samples.flagless_node, ["Guard"; "Fast"; "Stable"]%string.
  repeat split; try reflexivity. left. reflexivity.
Defined.

End CorrelatorMore.

(* ----------------------------------------------------------------- *)
(** ** The collector *)

Section IngestMore.
Import pcap_ingest inv props.

Lemma packets_of_snoc (k : FlowKey) (seen : list Packet) (p : Packet) :
  packets_of k (seen ++ [p]) =
  packets_of k seen ++
  match packet_key p with
  | Some k' => if FlowKey_eq k' k then [p] else []
  | None => []
  end.
Proof.
  unfold packets_of. rewrite filter_app. f_equal. cbn [filter].
  destruct (packet_key p) as [k'|]; [|reflexivity].
  destruct (FlowKey_eq k' k); reflexivity.
Qed.

Lemma FlowKey_eq_false (a c : FlowKey) : a <> c -> FlowKey_eq a c = false.
Proof.
  intros Hne. destruct (FlowKey_eq a c) eqn:E; [|reflexivity].
  apply FlowKey_eq_true in E. contradiction.
Qed.

Lemma first_sample_truthy (ps : list Packet) :
  truthy (first_sample ps) =
  match find (fun p => truthy (Raw p)) ps with Some _ => true | None => false end.
Proof.
  unfold first_sample.
  destruct (find (fun p => truthy (Raw p)) ps) as [q|] eqn:E; [|reflexivity].
  apply find_some in E. destruct E as [_ E].
  destruct (Raw q) as [[|b bs]|]; try discriminate E. reflexivity.
Qed.

Lemma find_snoc {A : Type} (f : A -> bool) (l : list A) (x : A) :
  find f (l ++ [x]) =
  match find f l with
  | Some y => Some y
  | None => if f x then Some x else None
  end.
Proof.
  induction l as [|y l IH]; cbn [app find]; [reflexivity|].
  destruct (f y); [reflexivity | exact IH].
Qed.

Lemma sum_snoc (l : list Z) (x : Z) :
  fold_right Z.add 0 (l ++ [x]) = fold_right Z.add 0 l + x.
Proof.
  induction l as [|y l IH]; cbn [app fold_right]; lia.
Qed.

(** One more packet of a flow: [update] turns the summary of the packets
    so far into the summary with the new packet at the end. *)
Lemma update_summary (k : FlowKey) (ps : list Packet) (p : Packet)
      (r : FlowRecord) :
  summary k ps = Some r ->
  summary k (ps ++ [p]) = Some (update r (time p) (Raw p) (Z.pos (len p))).
Proof.
  destruct ps as [|p0 ps]; [discriminate|].
  unfold summary. intros H. injection H as <-.
  cbn [app]. f_equal. unfold update.
  cbn [key ts_start ts_end pkt_count byte_count payload_sample].
  f_equal.
  - change (p0 :: ps ++ [p]) with ((p0 :: ps) ++ [p]). rewrite last_last.
    reflexivity.
  - change (p0 :: ps ++ [p]) with ((p0 :: ps) ++ [p]).
    rewrite length_app. cbn [List.length]. lia.
  - cbn [map fold_right]. rewrite map_app. cbn [map]. rewrite sum_snoc.
    cbv beta.
    match goal with
    | |- _ = ?m + _ =>
        change m with (Z.pos (len p0) +
                       fold_right Z.add 0 (map (fun q => Z.pos (len q)) ps))
    end.
    lia.
  - change (p0 :: ps ++ [p]) with ((p0 :: ps) ++ [p]).
    rewrite first_sample_truthy. unfold first_sample. rewrite find_snoc.
    destruct (find (fun q => truthy (Raw q)) (p0 :: ps)) as [q|].
    + rewrite andb_false_r. reflexivity.
    + rewrite andb_true_r. destruct (truthy (Raw p)); reflexivity.
Qed.

Lemma init_summary (k : FlowKey) (p : Packet) :
  summary k [p] =
  Some (update (FlowRecord_init k (time p)) (time p) (Raw p) (Z.pos (len p))).
Proof.
  unfold summary, update, FlowRecord_init, first_sample.
  cbn [key ts_start ts_end pkt_count byte_count payload_sample last List.length
       map fold_right find truthy negb Z.of_nat].
  f_equal. f_equal; try lia.
  rewrite andb_true_r. destruct (truthy (Raw p)); reflexivity.
Qed.

Lemma dict_modify_summaries (k0 : FlowKey) (m : FlowRecord -> FlowRecord)
      (P P' : FlowKey -> FlowRecord -> Prop) (d : FlowDict) :
  NoDup (map fst d) ->
  (forall k r, k <> k0 -> P k r -> P' k r) ->
  (forall r, P k0 r -> P' k0 (m r)) ->
  Forall (fun kv => P (fst kv) (snd kv)) d ->
  Forall (fun kv => P' (fst kv) (snd kv)) (dict_modify k0 m d).
Proof.
  intros Hnd Hother Hown. induction d as [|[k r] d IH]; intros HF;
    cbn [dict_modify]; [constructor|].
  inversion HF as [|? ? Hk Hd]; subst. cbn [fst snd] in Hk.
  cbn [map fst] in Hnd. inversion Hnd as [|? ? Hnotin Hnd']; subst.
  destruct (FlowKey_eq k0 k) eqn:E.
  - apply FlowKey_eq_true in E. subst k. constructor.
    + cbn [fst snd]. apply Hown. exact Hk.
    + rewrite Forall_forall in *. intros [k' r'] Hin. cbn [fst snd].
      apply Hother; [|exact (Hd _ Hin)].
      intros ->. apply Hnotin. apply (in_map fst) in Hin. exact Hin.
  - constructor.
    + cbn [fst snd]. apply Hother; [|exact Hk].
      intros ->. rewrite FlowKey_eq_refl in E. discriminate.
    + apply IH; assumption.
Qed.

Lemma process_packet_summarises (self : PcapIngestor) (p : Packet)
      (seen : list Packet) :
  summarises seen (flows self) ->
  summarises (seen ++ [p]) (flows (snd (process_packet self p))).
Proof.
  intros (Hnd & Hout & HF). unfold process_packet.
  destruct (packet_key p) as [k0|] eqn:Hk; cbn [snd flows].
  - cbv zeta.
    destruct (dict_contains k0 (flows self)) eqn:Hc; cbn [negb].
    + (* a further packet of a known flow *)
      split; [rewrite dict_modify_keys; exact Hnd|]. split.
      * intros k Hnot. rewrite dict_modify_keys in Hnot.
        rewrite packets_of_snoc, Hk, (Hout k Hnot).
        rewrite FlowKey_eq_false; [reflexivity|].
        intros ->. apply Hnot. apply dict_contains_true. exact Hc.
      * apply (dict_modify_summaries k0 _
                 (fun k r => summary k (packets_of k seen) = Some r)
                 (fun k r => summary k (packets_of k (seen ++ [p])) = Some r));
          [exact Hnd | | | exact HF].
        -- intros k r Hne H. rewrite packets_of_snoc, Hk.
           rewrite FlowKey_eq_false by congruence. rewrite app_nil_r. exact H.
        -- intros r H. rewrite packets_of_snoc, Hk, FlowKey_eq_refl.
           apply update_summary. exact H.
    + (* the first packet of a flow *)
      rewrite (dict_set_new _ _ _ Hc), (dict_modify_new _ _ _ _ Hc).
      pose proof (proj1 (dict_contains_false _ _) Hc) as Hnew.
      split.
      { rewrite map_app. cbn [map fst].
        eapply Permutation_NoDup; [apply Permutation_cons_append|].
        constructor; assumption. }
      split.
      * intros k Hnot. rewrite map_app, in_app_iff in Hnot. cbn [map fst In] in Hnot.
        rewrite packets_of_snoc, Hk, (Hout k) by tauto.
        rewrite FlowKey_eq_false; [reflexivity|]. intros ->. tauto.
      * apply Forall_app. split.
        -- rewrite Forall_forall in *. intros [k r] Hin. cbn [fst snd].
           rewrite packets_of_snoc, Hk.
           rewrite FlowKey_eq_false.
           ++ rewrite app_nil_r. exact (HF _ Hin).
           ++ intros ->. apply Hnew. apply (in_map fst) in Hin. exact Hin.
        -- constructor; [|constructor]. cbn [fst snd].
           rewrite packets_of_snoc, Hk, FlowKey_eq_refl, (Hout k0 Hnew).
           cbn [app]. apply init_summary.
  - split; [exact Hnd|]. split.
    + intros k Hnot. rewrite packets_of_snoc, Hk, app_nil_r. exact (Hout k Hnot).
    + eapply Forall_impl; [|exact HF]. intros [k r] H. cbn [fst snd] in *.
      rewrite packets_of_snoc, Hk, app_nil_r. exact H.
Qed.

Lemma loop_summarises (streaming : bool) (pcap : list Packet) :
  forall self seen,
    summarises seen (flows self) ->
    summarises (seen ++ pcap)
      (flows (fold_left (if streaming then streaming_step else eager_step)
                pcap self)).
Proof.
  induction pcap as [|p pcap IH]; intros self seen H; cbn [fold_left].
  - rewrite app_nil_r. exact H.
  - replace (seen ++ p :: pcap) with ((seen ++ [p]) ++ pcap)
      by (rewrite <- app_assoc; reflexivity).
    apply IH.
    pose proof (process_packet_summarises self p seen H) as Hstep.
    destruct streaming; [|exact Hstep].
    unfold streaming_step.
    destruct (batch_size (snd (process_packet self p)) <=?
              Z.of_nat (List.length (flows (snd (process_packet self p)))));
      [|exact Hstep].
    rewrite (proj1 (flush_flows_spec _)). exact Hstep.
Qed.

Lemma packets_of_nonempty (k : FlowKey) (pcap : list Packet) :
  packets_of k pcap <> [] <-> In k (spec.parseable_keys pcap).
Proof.
  unfold packets_of, spec.parseable_keys. induction pcap as [|p pcap IH];
    cbn [filter flat_map]; [split; [congruence | intros []]|].
  rewrite in_app_iff.
  destruct (packet_key p) as [k'|]; cbn [In].
  - destruct (FlowKey_eq k' k) eqn:E.
    + apply FlowKey_eq_true in E. split; [auto | discriminate].
    + rewrite IH. split; [tauto|]. intros [[H|[]]|H]; [|exact H].
      subst k'. rewrite FlowKey_eq_refl in E. discriminate.
  - rewrite IH. tauto.
Qed.

Lemma ingest_accumulators_exact_aux (self : PcapIngestor) (pcap : list Packet)
      (streaming : bool) :
  let d := flows (snd (ingest_pcap self pcap streaming)) in
  NoDup (map fst d) /\
  (forall k, In k (map fst d) <-> In k (spec.parseable_keys pcap)).
Proof.
  cbv zeta. unfold ingest_pcap. cbn [snd].
  rewrite (proj1 (flush_flows_spec _)).
  assert (H0 : summarises [] (flows (mkPcapIngestor (db_manager self)
                                       (batch_size self) []))).
  { cbn [flows]. split; [constructor|]. split; [reflexivity | constructor]. }
  pose proof (loop_summarises streaming pcap _ [] H0) as (Hnd & Hout & HF).
  cbn [app] in Hnd, Hout, HF.
  replace (if streaming
           then fold_left streaming_step pcap
                  (mkPcapIngestor (db_manager self) (batch_size self) [])
           else fold_left eager_step pcap
                  (mkPcapIngestor (db_manager self) (batch_size self) []))
    with (fold_left (if streaming then streaming_step else eager_step) pcap
            (mkPcapIngestor (db_manager self) (batch_size self) []))
    by (destruct streaming; reflexivity).
  set (d := flows (fold_left (if streaming then streaming_step else eager_step)
                     pcap (mkPcapIngestor (db_manager self) (batch_size self) [])))
    in *.
  split; [exact Hnd|].
  intros k. rewrite <- packets_of_nonempty. split.
  - intros Hin Hnil. rewrite Forall_forall in HF.
    apply in_map_iff in Hin. destruct Hin as ([k' r] & <- & Hin).
    specialize (HF _ Hin). cbn [fst snd] in *. rewrite Hnil in HF.
    discriminate HF.
  - intros Hne. destruct (in_dec spec.FlowKey_eq_dec k (map fst d)) as [H|H];
      [exact H|]. exfalso. exact (Hne (Hout k H)).
Qed.

(** X25. What the collector accumulates. After [ingest_pcap], in either
    mode, the dictionary holds one record per 5-tuple of the capture, and
    the record of a 5-tuple sums up its packets in capture order: start
    time of the first, end time of the last, their number, the sum of
    their lengths, and the first non-empty load cut to 512 bytes. *)
Theorem ingest_accumulators_exact (self : PcapIngestor) (pcap : list Packet)
        (streaming : bool) :
  let d := flows (snd (ingest_pcap self pcap streaming)) in
  NoDup (map fst d) /\
  (forall k, In k (map fst d) <-> In k (spec.parseable_keys pcap)) /\
  Forall (fun kv =>
            exists p0 rest,
              packets_of (fst kv) pcap = p0 :: rest /\
              key (snd kv) = fst kv /\
              ts_start (snd kv) = time p0 /\
              ts_end (snd kv) = time (last rest p0) /\
              pkt_count (snd kv) = Z.of_nat (List.length (p0 :: rest)) /\
              byte_count (snd kv) = fold_right Z.add 0 (map (fun p => Z.pos (len p)) (p0 :: rest)) /\
              payload_sample (snd kv) = first_sample (p0 :: rest)) d.
Proof.
  cbv zeta. unfold ingest_pcap. cbn [snd].
  rewrite (proj1 (flush_flows_spec _)).
  assert (H0 : summarises [] (flows (mkPcapIngestor (db_manager self)
                                       (batch_size self) []))).
  { cbn [flows]. split; [constructor|]. split; [reflexivity | constructor]. }
  pose proof (loop_summarises streaming pcap _ [] H0) as (Hnd & Hout & HF).
  cbn [app] in Hnd, Hout, HF.
  replace (if streaming
           then fold_left streaming_step pcap
                  (mkPcapIngestor (db_manager self) (batch_size self) [])
           else fold_left eager_step pcap
                  (mkPcapIngestor (db_manager self) (batch_size self) []))
    with (fold_left (if streaming then streaming_step else eager_step) pcap
            (mkPcapIngestor (db_manager self) (batch_size self) []))
    by (destruct streaming; reflexivity).
  set (d := flows (fold_left (if streaming then streaming_step else eager_step)
                     pcap (mkPcapIngestor (db_manager self) (batch_size self) [])))
    in *.
  split; [exact Hnd|]. split.
  - intros k. rewrite <- packets_of_nonempty. split.
    + intros Hin Hnil. rewrite Forall_forall in HF.
      apply in_map_iff in Hin. destruct Hin as ([k' r] & <- & Hin).
      specialize (HF _ Hin). cbn [fst snd] in *. rewrite Hnil in HF.
      discriminate HF.
    + intros Hne. destruct (in_dec spec.FlowKey_eq_dec k (map fst d)) as [H|H];
        [exact H|]. exfalso. exact (Hne (Hout k H)).
  - eapply Forall_impl; [|exact HF]. intros [k r] H. cbn [fst snd] in *.
    destruct (packets_of k pcap) as [|p0 rest]; [discriminate H|].
    unfold summary in H. injection H as <-.
    exists p0, rest.
    cbn [key ts_start ts_end pkt_count byte_count payload_sample].
    split; [reflexivity|]. split; [reflexivity|]. split; [reflexivity|].
    split; [|split; [reflexivity | split; reflexivity]].
    destruct rest; reflexivity.
Qed.

(** *** What a run writes *)

Lemma rows_added_refl (db : models.DatabaseManager) : rows_added db db.
Proof.
  unfold rows_added. repeat split. exists []. rewrite app_nil_r.
  split; [reflexivity|]. split; [constructor | tauto].
Qed.

Lemma rows_added_trans (db1 db2 db3 : models.DatabaseManager) :
  rows_added db1 db2 -> rows_added db2 db3 -> rows_added db1 db3.
Proof.
  intros (Hn1 & Hc1 & Ho1 & a1 & Hf1 & Hu1 & Hd1)
         (Hn2 & Hc2 & Ho2 & a2 & Hf2 & Hu2 & Hd2).
  unfold rows_added. split; [congruence|]. split; [congruence|].
  split; [congruence|]. exists (a1 ++ a2).
  split; [rewrite Hf2, Hf1, app_assoc; reflexivity|].
  split; [apply Forall_app; split; assumption | tauto].
Qed.

Lemma to_flow_model_unclassified (r : FlowRecord) (k : Z) :
  unclassified (Flow.set_id (to_flow_model r) k).
Proof. unfold unclassified. repeat split. Qed.

Lemma bulk_save_flows_rows (objs : list Flow.t) :
  forall s,
    Forall (fun o => forall k, unclassified (Flow.set_id o k)) objs ->
    models.tor_nodes (models.bulk_save_flows objs s) = models.tor_nodes s /\
    models.correlations (models.bulk_save_flows objs s) = models.correlations s /\
    exists added,
      models.flows (models.bulk_save_flows objs s) = models.flows s ++ added /\
      Forall unclassified added /\
      (NoDup (map Flow.id (models.flows s)) ->
       NoDup (map Flow.id (models.flows (models.bulk_save_flows objs s)))).
Proof.
  induction objs as [|o objs IH]; intros s Hobjs; cbn [models.bulk_save_flows].
  - split; [reflexivity|]. split; [reflexivity|]. exists [].
    rewrite app_nil_r. split; [reflexivity|]. split; [constructor | tauto].
  - inversion Hobjs as [|? ? Ho Hrest]; subst.
    destruct (IH (models.mkTables
                    (models.flows s ++
                     [Flow.set_id o (models.next_id (map Flow.id (models.flows s)))])
                    (models.tor_nodes s) (models.correlations s)) Hrest)
      as (Hn & Hc & added & Hf & Hu & Hd).
    cbn [models.flows models.tor_nodes models.correlations] in *.
    split; [exact Hn|]. split; [exact Hc|].
    eexists (_ :: added). split; [rewrite Hf, <- app_assoc; reflexivity|].
    split; [constructor; [apply Ho | exact Hu]|].
    intros Hnd. apply Hd. rewrite map_app. cbn [map].
    eapply Permutation_NoDup; [apply Permutation_cons_append|].
    constructor; [|exact Hnd]. intros Hin.
    replace (Flow.id (Flow.set_id o (models.next_id (map Flow.id (models.flows s)))))
      with (models.next_id (map Flow.id (models.flows s))) in Hin
      by (destruct o; reflexivity).
    pose proof (proj2 (next_id_above (map Flow.id (models.flows s))) _ Hin). lia.
Qed.

Lemma flush_flows_rows (self : PcapIngestor) :
  rows_added (db_manager self) (db_manager (_flush_flows self)).
Proof.
  unfold _flush_flows. destruct (flows self) as [|kv d] eqn:Hd;
    [apply rows_added_refl|].
  unfold models.get_session. cbv zeta.
  cbn [db_manager models.close models.commit models.committed
       models.open_sessions Nat.pred].
  destruct (bulk_save_flows_rows (map to_flow_model (values (kv :: d)))
              (models.committed (db_manager self)))
    as (Hn & Hc & added & Hf & Hu & Hnd).
  { apply Forall_forall. intros o Ho k. apply in_map_iff in Ho.
    destruct Ho as (r & <- & _). apply to_flow_model_unclassified. }
  unfold rows_added.
  cbn [db_manager models.close models.commit models.committed
       models.open_sessions Nat.pred].
  split; [exact Hn|]. split; [exact Hc|]. split; [reflexivity|].
  exists added. auto.
Qed.

Lemma loop_rows (streaming : bool) (pcap : list Packet) :
  forall self,
    rows_added (db_manager self)
      (db_manager (fold_left (if streaming then streaming_step else eager_step)
                     pcap self)) /\
    batch_size (fold_left (if streaming then streaming_step else eager_step)
                  pcap self) = batch_size self /\
    (streaming = false ->
     db_manager (fold_left eager_step pcap self) = db_manager self).
Proof.
  induction pcap as [|p pcap IH]; intros self; cbn [fold_left].
  - split; [apply rows_added_refl|]. split; [reflexivity|]. reflexivity.
  - destruct (process_packet_db self p) as [Hdb Hbatch].
    destruct streaming.
    + destruct (IH (streaming_step self p)) as (Hrows & Hb & _).
      assert (Hstep : rows_added (db_manager self)
                        (db_manager (streaming_step self p)) /\
                      batch_size (streaming_step self p) = batch_size self).
      { unfold streaming_step.
        destruct (batch_size (snd (process_packet self p)) <=?
                  Z.of_nat (List.length (flows (snd (process_packet self p))))).
        - split.
          + rewrite <- Hdb. apply flush_flows_rows.
          + rewrite (proj1 (proj2 (flush_flows_spec _))). exact Hbatch.
        - split; [rewrite Hdb; apply rows_added_refl | exact Hbatch]. }
      split; [eapply rows_added_trans; [exact (proj1 Hstep) | exact Hrows]|].
      split; [rewrite Hb; exact (proj2 Hstep) | discriminate].
    + destruct (IH (eager_step self p)) as (Hrows & Hb & Hsame).
      unfold eager_step in *.
      split; [rewrite <- Hdb at 1; exact Hrows|].
      split; [rewrite Hb; exact Hbatch|].
      intros _. rewrite (Hsame eq_refl). exact Hdb.
Qed.

(** X26. What a run may touch. [ingest_pcap] only appends to the flow
    table: the relay and correlation tables are as before and no session is
    left open. Every row it writes is unclassified, with no indicator, score
    0 and no category, and gets a key that keeps the primary key unique. *)
Theorem ingest_pcap_frame (self : PcapIngestor) (pcap : list Packet)
        (streaming : bool) :
  let before := models.committed (db_manager self) in
  let self1 := snd (ingest_pcap self pcap streaming) in
  let after := models.committed (db_manager self1) in
  models.tor_nodes after = models.tor_nodes before /\
  models.correlations after = models.correlations before /\
  models.open_sessions (db_manager self1) =
    models.open_sessions (db_manager self) /\
  batch_size self1 = batch_size self /\
  exists added,
    models.flows after = models.flows before ++ added /\
    Forall unclassified added /\
    Forall (fun f => correlation_engine.is_tor_related f = false) added /\
    (NoDup (map Flow.id (models.flows before)) ->
     NoDup (map Flow.id (models.flows after))).
Proof.
  cbv zeta. unfold ingest_pcap. cbn [snd].
  set (self0 := mkPcapIngestor (db_manager self) (batch_size self) []).
  replace (if streaming then fold_left streaming_step pcap self0
           else fold_left eager_step pcap self0)
    with (fold_left (if streaming then streaming_step else eager_step) pcap self0)
    by (destruct streaming; reflexivity).
  destruct (loop_rows streaming pcap self0) as (Hloop & Hb & _).
  pose proof (flush_flows_rows
                (fold_left (if streaming then streaming_step else eager_step)
                   pcap self0)) as Hflush.
  destruct (rows_added_trans _ _ _ Hloop Hflush)
    as (Hn & Hc & Ho & added & Hf & Hu & Hnd).
  cbn [db_manager self0] in *.
  split; [exact Hn|]. split; [exact Hc|]. split; [exact Ho|].
  split; [rewrite (proj1 (proj2 (flush_flows_spec _))); exact Hb|].
  exists added. split; [exact Hf|]. split; [exact Hu|]. split; [|exact Hnd].
  eapply Forall_impl; [|exact Hu].
  intros f (H1 & H2 & H3 & H4 & _). unfold correlation_engine.is_tor_related.
  rewrite H1, H2, H3, H4. reflexivity.
Qed.

Lemma same_members_length (l : list FlowKey) (ks : list FlowKey) :
  NoDup l -> (forall k, In k l <-> In k ks) ->
  List.length l = List.length (nodup spec.FlowKey_eq_dec ks).
Proof.
  intros Hnd Hmem. apply Permutation_length.
  apply NoDup_Permutation; [exact Hnd | apply NoDup_nodup|].
  intros k. rewrite nodup_In. apply Hmem.
Qed.

(** X27. The rows of the last flush. In either mode the run ends with a
    flush that writes one row per accumulator, in dictionary order, so the
    last rows of the table are the models of the accumulators and the
    returned number is the number of distinct 5-tuples, whatever was
    written before; a run that is not streaming writes nothing else. *)
Theorem ingest_last_flush (self : PcapIngestor) (pcap : list Packet)
        (streaming : bool) :
  let out := ingest_pcap self pcap streaming in
  exists earlier final,
    models.flows (models.committed (db_manager (snd out))) =
      models.flows (models.committed (db_manager self)) ++ earlier ++ final /\
    Forall2 (fun r f => exists k, f = Flow.set_id (to_flow_model r) k)
      (values (flows (snd out))) final /\
    fst out = Z.of_nat (List.length final) /\
    fst out = spec.K pcap /\
    (streaming = false -> earlier = []).
Proof.
  cbv zeta.
  destruct (ingest_accumulators_exact_aux self pcap streaming) as (Hnd & Hmem).
  unfold ingest_pcap in *. cbn [fst snd] in *.
  set (self0 := mkPcapIngestor (db_manager self) (batch_size self) []) in *.
  replace (if streaming then fold_left streaming_step pcap self0
           else fold_left eager_step pcap self0)
    with (fold_left (if streaming then streaming_step else eager_step) pcap self0)
    in * by (destruct streaming; reflexivity).
  set (self1 := fold_left (if streaming then streaming_step else eager_step)
                  pcap self0) in *.
  destruct (loop_rows streaming pcap self0) as ((_ & _ & _ & earlier & He & _) & _ & Hsame).
  fold self1 in He.
  destruct (flush_flows_spec self1) as (Hflows & _ & _ & final & Hf & HF2).
  rewrite Hflows in *.
  assert (HF : Forall2 (fun r f => exists k, f = Flow.set_id (to_flow_model r) k)
                 (values (flows self1)) final).
  { clear - HF2. revert final HF2.
    induction (values (flows self1)) as [|r l IH]; intros final H;
      inversion H; subst; constructor; auto. }
  assert (Hlen : List.length (flows self1) = List.length final).
  { rewrite <- (Forall2_length HF). unfold values. rewrite length_map. reflexivity. }
  exists earlier, final.
  split; [rewrite Hf, He; cbn [db_manager self0]; rewrite app_assoc; reflexivity|].
  split; [exact HF|]. split; [rewrite Hlen; reflexivity|].
  split.
  - unfold spec.K. f_equal.
    rewrite <- (same_members_length _ _ Hnd Hmem). symmetry. apply length_map.
  - intros ->. specialize (Hsame eq_refl).
    cbn [self1] in He. unfold self1 in He. rewrite Hsame in He.
    cbn [db_manager self0] in He.
    apply (f_equal (@List.length _)) in He. rewrite length_app in He.
    destruct earlier; [reflexivity | cbn [List.length] in He; lia].
Qed.

Lemma b64encode_nonempty (x : byte) (data : py.bytes) :
  exists c s, base64.b64encode (x :: data) = String c s.
Proof.
  unfold base64.b64encode.
  destruct data as [|y [|z rest]]; cbn [base64.b2a]; eexists; eexists; reflexivity.
Qed.

Lemma decoded_payload_to_flow_model (r : FlowRecord) (k : Z) :
  decoded_payload (Flow.set_id (to_flow_model r) k) =
  if truthy (payload_sample r) then payload_sample r else None.
Proof.
  unfold decoded_payload, to_flow_model, Flow.set_id. cbn [Flow.payload_sample].
  destruct (payload_sample r) as [[|x data]|]; cbn [truthy option_map];
    [reflexivity | | reflexivity].
  destruct (b64encode_nonempty x data) as (c & s & He).
  pose proof (b64decode_b64encode (x :: data)) as Hd.
  rewrite He in *. rewrite Hd. reflexivity.
Qed.

(** X28. From the collector to the classifier. The sample the collector
    stores is the base64 text of the first 512 bytes it kept, and decoding
    gives back these bytes; so for a row written from an accumulator the
    payload rules of [_analyze_flow] are decided by the bytes the collector
    saw, and a row without a load gets neither payload flag. *)
Theorem collector_sample_reaches_classifier (self : tor_extractor.TorExtractor)
        (r : FlowRecord) (k : Z) :
  let flow := Flow.set_id (to_flow_model r) k in
  let sample := if truthy (payload_sample r) then payload_sample r else None in
  (forall payload, sample = Some payload ->
     exists text, Flow.payload_sample flow = Some text /\
                  base64.b64decode text = py.Ok payload) /\
  (sample = None -> Flow.payload_sample flow = None) /\
  Flow.possible_tor_handshake (fst (tor_extractor._analyze_flow self flow)) =
    match sample with
    | Some payload =>
        py.bytes_startswith payload [x16; x03]
        && (py.bytes_contains payload [x00; x00; x00]
            || py.bytes_contains payload [x03; x00])
    | None => false
    end /\
  Flow.obfsproxy_candidate (fst (tor_extractor._analyze_flow self flow)) =
    match sample with
    | Some payload => tor_extractor._check_obfsproxy_patterns payload
    | None => false
    end.
Proof.
  cbv zeta. split; [|split; [|split]].
  - intros payload Hs. unfold to_flow_model, Flow.set_id.
    cbn [Flow.payload_sample].
    destruct (truthy (payload_sample r)); [|discriminate Hs].
    rewrite Hs. cbn [option_map]. eexists. split; [reflexivity|].
    apply b64decode_b64encode.
  - intros Hs. unfold to_flow_model, Flow.set_id. cbn [Flow.payload_sample].
    destruct (truthy (payload_sample r)); [|reflexivity].
    rewrite Hs. reflexivity.
  - rewrite analyze_flow_eq. cbn [fst Flow.possible_tor_handshake Flow.set_indicators].
    unfold on_payload. rewrite decoded_payload_to_flow_model.
    destruct (if truthy (payload_sample r) then payload_sample r else None);
      reflexivity.
  - rewrite analyze_flow_eq. cbn [fst Flow.obfsproxy_candidate Flow.set_indicators].
    unfold on_payload. rewrite decoded_payload_to_flow_model.
    destruct (if truthy (payload_sample r) then payload_sample r else None);
      reflexivity.
Qed.

End IngestMore.

(* ----------------------------------------------------------------- *)
(** ** The scorer's query for high scores *)

Section ScorerQueries.
Import confidence confidence_queries props.

Lemma insert_by_score_desc_in (f x : Flow.t) (l : list Flow.t) :
  In x (insert_by_score_desc f l) <-> x = f \/ In x l.
Proof.
  induction l as [|g l IH]; cbn [insert_by_score_desc In].
  - split; [intros [H|[]]; auto | intros [H|[]]; auto].
  - destruct (PrimFloat.leb (Flow.confidence_score g) (Flow.confidence_score f));
      cbn [In].
    + split; [intros [H|H]; auto | intros [H|H]; auto].
    + rewrite IH. split; [intros [H|[H|H]]; auto | intros [H|[H|H]]; auto].
Qed.

Lemma sort_by_score_desc_in (x : Flow.t) (l : list Flow.t) :
  In x (fold_right insert_by_score_desc [] l) <-> In x l.
Proof.
  induction l as [|f l IH]; cbn [fold_right In]; [tauto|].
  rewrite insert_by_score_desc_in, IH. split; intros [H|H]; auto.
Qed.

(** From 0 on, a score is at least 60 exactly when its label is High or
    Critical. *)
Lemma sixty_is_high (score : float) :
  fle 0 score ->
  PrimFloat.leb 60 score = true <->
  _get_category score = "High" \/ _get_category score = "Critical".
Proof.
  unfold fle. intros H0.
  assert (Hge : forall b : float,
             PrimFloat.leb b b = true -> PrimFloat.ltb score b = false ->
             PrimFloat.leb b score = true).
  { intros b Hb Hlt. exact (not_ltb_leb score b 0 H0 Hb Hlt). }
  unfold _get_category, CATEGORIES, category_loop.
  change (py.float_of_int 0) with 0%float.
  change (py.float_of_int 30) with 30%float.
  change (py.float_of_int 60) with 60%float.
  change (py.float_of_int 85) with 85%float.
  change (py.float_of_int 100) with 100%float.
  rewrite H0. cbn [andb].
  destruct (PrimFloat.ltb score 30) eqn:H30.
  { split; [|intros [H|H]; discriminate H]. intros H60. exfalso.
    pose proof (ltb_not_leb score 30 H30) as Hn.
    rewrite (leb_trans 30 60 score eq_refl H60) in Hn. discriminate Hn. }
  rewrite (Hge 30%float eq_refl H30). cbn [andb].
  destruct (PrimFloat.ltb score 60) eqn:H60.
  { split; [|intros [H|H]; discriminate H]. intros H.
    rewrite (ltb_not_leb score 60 H60) in H. discriminate H. }
  rewrite (Hge 60%float eq_refl H60). cbn [andb].
  split; [intros _|reflexivity].
  destruct (PrimFloat.ltb score 85) eqn:H85; [left; reflexivity|].
  rewrite (Hge 85%float eq_refl H85). cbn [andb].
  destruct (PrimFloat.ltb score 100); right; reflexivity.
Qed.

(** X29. The query for high scores after a scoring pass. With the default
    minimum of 60, [get_high_confidence_flows] returns exactly the flows the
    pass labelled High or Critical; it changes nothing and leaves no
    session open. *)
Theorem high_confidence_flows_are_high_or_critical (self : ConfidenceScorer) :
  let self1 := snd (score_all_flows self) in
  let out := get_high_confidence_flows self1 60 in
  (forall f,
     In f (fst out) <->
     In f (models.flows (models.committed (db_manager self1))) /\
     (Flow.confidence_category f = Some "High" \/
      Flow.confidence_category f = Some "Critical")) /\
  db_manager (snd out) = db_manager self1.
Proof.
  cbv zeta. unfold get_high_confidence_flows, models.get_session.
  cbn [fst snd db_manager].
  split.
  - intros f. rewrite sort_by_score_desc_in, filter_In.
    split; (intros [Hin H]; split; [exact Hin|]).
    + unfold score_all_flows, models.get_session in Hin.
      cbn [snd db_manager models.committed models.close models.commit
           models.flows] in Hin.
      apply in_map_iff in Hin. destruct Hin as (f0 & <- & _).
      pose proof (score_one_spec (models.committed (db_manager self)) f0) as Hs.
      cbv zeta in Hs.
      set (g := score_one (models.committed (db_manager self)) f0) in *.
      clearbody g. destruct Hs as (_ & Hpos & _ & Hcat & _). rewrite Hcat.
      apply (proj1 (sixty_is_high _ Hpos)) in H.
      destruct H as [H|H]; rewrite H; auto.
    + unfold score_all_flows, models.get_session in Hin.
      cbn [snd db_manager models.committed models.close models.commit
           models.flows] in Hin.
      apply in_map_iff in Hin. destruct Hin as (f0 & <- & _).
      pose proof (score_one_spec (models.committed (db_manager self)) f0) as Hs.
      cbv zeta in Hs.
      set (g := score_one (models.committed (db_manager self)) f0) in *.
      clearbody g. destruct Hs as (_ & Hpos & _ & Hcat & _). rewrite Hcat in H.
      apply (proj2 (sixty_is_high _ Hpos)).
      destruct H as [H|H]; injection H as H; rewrite H; auto.
  - unfold models.close. cbn [models.committed models.open_sessions Nat.pred].
    destruct (db_manager (snd (score_all_flows self))). reflexivity.
Qed.

End ScorerQueries.

(* ----------------------------------------------------------------- *)
(** ** The rows of an ingest run *)

Section IngestRows.
Import pcap_ingest inv props.

Lemma summary_fields (k : FlowKey) (ps : list Packet) (r : FlowRecord) :
  summary k ps = Some r ->
  exists first others,
    ps = first :: others /\
    key r = k /\
    ts_start r = time first /\
    ts_end r = time (last others first) /\
    pkt_count r = Z.of_nat (List.length ps) /\
    byte_count r = fold_right Z.add 0 (map (fun p => Z.pos (len p)) ps) /\
    payload_sample r = first_sample ps.
Proof.
  destruct ps as [|first others]; [discriminate|].
  unfold summary. intros H. injection H as <-.
  exists first, others.
  cbn [key ts_start ts_end pkt_count byte_count payload_sample].
  repeat split. destruct others; reflexivity.
Qed.

Lemma lengths_add_up (ps : list Packet) :
  Z.of_nat (List.length ps) <=
  fold_right Z.add 0 (map (fun p => Z.pos (len p)) ps).
Proof.
  induction ps as [|p ps IH]; cbn [List.length map fold_right]; [lia|].
  pose proof (Pos2Z.is_pos (len p)). lia.
Qed.

Lemma first_sample_within (ps : list Packet) :
  match first_sample ps with
  | Some p => (1 <= List.length p <= 512)%nat
  | None => True
  end.
Proof.
  unfold first_sample.
  destruct (find (fun p => truthy (Raw p)) ps) as [q|] eqn:E; [|exact I].
  apply find_some in E. destruct E as [_ E].
  destruct (Raw q) as [[|b bs]|]; try discriminate E.
  cbn [option_map]. unfold py.slice_to.
  change (firstn 512 (b :: bs)) with (b :: firstn 511 bs).
  cbn [List.length]. pose proof (firstn_le_length 511 bs). lia.
Qed.

Lemma payload_within_row (r : FlowRecord) (k : Z) :
  match payload_sample r with
  | Some p => (1 <= List.length p <= 512)%nat
  | None => True
  end ->
  payload_within 512 (Flow.set_id (to_flow_model r) k).
Proof.
  intros H. unfold payload_within, to_flow_model, Flow.set_id.
  cbn [Flow.payload_sample].
  destruct (payload_sample r) as [[|x p]|]; cbn [truthy option_map]; auto.
  right. exists (base64.b64encode (x :: p)), (x :: p).
  split; [reflexivity|]. split; [apply b64decode_b64encode | exact H].
Qed.

Lemma sorted_app_left {A : Type} (R : A -> A -> Prop) (l l' : list A) :
  StronglySorted R (l ++ l') -> StronglySorted R l.
Proof.
  induction l as [|x l IH]; cbn [app]; intros H; [constructor|].
  inversion H as [|? ? Hl Hx]; subst. constructor; [apply IH; exact Hl|].
  apply Forall_app in Hx. exact (proj1 Hx).
Qed.

Lemma packets_of_sorted (k : FlowKey) (seen : list Packet) :
  StronglySorted Z.le (map time seen) ->
  StronglySorted Z.le (map time (packets_of k seen)).
Proof.
  unfold packets_of. induction seen as [|p seen IH]; cbn [map filter];
    intros H; [constructor|].
  inversion H as [|? ? Hl Hp]; subst.
  destruct (match packet_key p with
            | Some k' => FlowKey_eq k' k
            | None => false
            end); [|apply IH; exact Hl].
  cbn [map]. constructor; [apply IH; exact Hl|].
  rewrite Forall_forall in *. intros t Ht. apply Hp.
  apply in_map_iff in Ht. destruct Ht as (q & <- & Hq).
  apply filter_In in Hq. apply in_map. exact (proj1 Hq).
Qed.

Lemma first_before_last (first : Packet) (others : list Packet) :
  StronglySorted Z.le (map time (first :: others)) ->
  time first <= time (last others first).
Proof.
  cbn [map]. intros H. inversion H as [|? ? _ Hx]; subst.
  destruct (exists_last (l := first :: others) ltac:(discriminate))
    as (l' & z & Hz).
  assert (Hlast : last others first = last (first :: others) first)
    by (destruct others; reflexivity).
  rewrite Hlast, Hz, last_last.
  destruct l' as [|y l'].
  - cbn [app] in Hz. injection Hz as <- _. lia.
  - cbn [app] in Hz. injection Hz as <- Ho.
    rewrite Forall_forall in Hx. apply Hx. rewrite Ho, map_app.
    apply in_or_app. right. left. reflexivity.
Qed.

(** C4, as the code has it: every row written by an ingest run, in either
    mode and for any batch size, has [pkt_count >= 1],
    [byte_count >= pkt_count] and a payload sample of at least 1 and at
    most 512 bytes. Its [ts_start] is the stored time of the first packet of
    its 5-tuple and its [ts_end] the stored time of the last packet of the
    5-tuple read before the row was written: [update] sets [ts_end] to the
    time of the packet it is given, not to a maximum. So
    [ts_start <= ts_end] holds when the stored times of the capture are in
    non-decreasing order, and need not hold otherwise. *)
Theorem C4_ingest_invariants (self : PcapIngestor) (pcap : list Packet)
        (streaming : bool) :
  (forall r t payload n, ts_end (update r t payload n) = t) /\
  exists added,
    models.flows
      (models.committed (db_manager (snd (ingest_pcap self pcap streaming)))) =
      models.flows (models.committed (db_manager self)) ++ added /\
    forall f, In f added ->
      1 <= Flow.pkt_count f /\
      Flow.pkt_count f <= Flow.byte_count f /\
      payload_within 512 f /\
      (exists seen rest first others,
          pcap = seen ++ rest /\
          packets_of (spec.key_of f) seen = first :: others /\
          Flow.ts_start f = time first /\
          Flow.ts_end f = Some (time (last others first))) /\
      (in_time_order pcap ->
       exists te, Flow.ts_end f = Some te /\ Flow.ts_start f <= te).
Proof.
  split; [reflexivity|].
  destruct (ingest_pcap_inv
              (fun rest d => exists seen, pcap = seen ++ rest /\ summarises seen d)
              (fun r => exists seen rest,
                   pcap = seen ++ rest /\
                   summary (key r) (packets_of (key r) seen) = Some r))
    with (self := self) (pcap := pcap) (streaming := streaming)
    as (added & Hadded & Hrows).
  - intros rest d r (seen & Hp & _ & _ & HF) Hr.
    apply in_map_iff in Hr. destruct Hr as ([k r'] & Heq & Hin).
    cbn [snd] in Heq. subst r'. rewrite Forall_forall in HF.
    specialize (HF _ Hin). cbn [fst snd] in HF.
    destruct (summary_fields _ _ _ HF) as (_ & _ & _ & Hk & _).
    exists seen, rest. rewrite Hk. split; [exact Hp | exact HF].
  - intros p rest self0 (seen & Hp & Hs).
    exists (seen ++ [p]). split; [rewrite <- app_assoc; exact Hp|].
    apply process_packet_summarises. exact Hs.
  - exists []. split; [reflexivity|].
    split; [constructor|]. split; [reflexivity | constructor].
  - exists added. split; [exact Hadded|].
    intros f Hf. rewrite Forall_forall in Hrows.
    destruct (Hrows f Hf) as (r & id & -> & seen & rest & Hp & Hsum).
    destruct (summary_fields _ _ _ Hsum)
      as (first & others & Hps & Hk & Hstart & Hend & Hcount & Hbytes & Hpay).
    assert (Hkey : spec.key_of (Flow.set_id (to_flow_model r) id) = key r)
      by (unfold spec.key_of, to_flow_model, Flow.set_id;
          cbn [Flow.src_ip Flow.src_port Flow.dst_ip Flow.dst_port Flow.protocol];
          generalize (key r); intros []; reflexivity).
    change (Flow.pkt_count (Flow.set_id (to_flow_model r) id)) with (pkt_count r).
    change (Flow.byte_count (Flow.set_id (to_flow_model r) id))
      with (byte_count r).
    change (Flow.ts_start (Flow.set_id (to_flow_model r) id)) with (ts_start r).
    change (Flow.ts_end (Flow.set_id (to_flow_model r) id))
      with (Some (ts_end r)).
    split; [rewrite Hcount, Hps; cbn [List.length]; lia|].
    split; [rewrite Hcount, Hbytes; apply lengths_add_up|].
    split.
    { apply payload_within_row. rewrite Hpay. apply first_sample_within. }
    split.
    { exists seen, rest, first, others. rewrite Hkey, Hstart, Hend. auto. }
    intros Hord. exists (ts_end r). split; [reflexivity|].
    rewrite Hstart, Hend. apply first_before_last.
    rewrite <- Hps. apply packets_of_sorted.
    unfold in_time_order in Hord. rewrite Hp, map_app in Hord.
    apply sorted_app_left in Hord. exact Hord.
Qed.

(** C4 fails as stated: on a capture of two packets of one flow, the second
    one stored with a time five seconds before the first, the persisted row
    starts after it ends, and [update] lowered [ts_end] from the first
    packet's time to the second's. *)
Lemma C4_counterexample :
  map (fun f => (Flow.ts_start f, Flow.ts_end f, Flow.pkt_count f))
    (models.flows
       (models.committed
          (db_manager
             (snd (ingest_pcap (PcapIngestor_init fixtures.empty_db 1000)
                     fixtures.out_of_order_capture false))))) =
    [ (10000000, Some 5000000, 2) ] /\
  (5000000 <? 10000000) = true /\
  ts_end (update (update (FlowRecord_init
                            (mkFlowKey "192.168.1.100" 50000 "185.220.101.1" 9001 "TCP")
                            10000000)
                    10000000 None 60)
            5000000 None 60) = 5000000 /\
  Z.max 10000000 5000000 = 10000000.
Proof.
  repeat split.
Qed.

End IngestRows.

(* ----------------------------------------------------------------- *)
(** ** The pairs of a correlation pass *)

Section PassPairs.
Import correlation_engine inv props.

Lemma partners_spec (window : Z) (a c : Flow.t) (rest : list Flow.t) :
  In c (partners window a rest) <->
  exists l2 l3,
    rest = l2 ++ c :: l3 /\
    is_private c = true /\ outside window a c = false /\
    Forall (fun x => is_private x = true -> outside window a x = false) l2.
Proof.
  induction rest as [|x rest IH]; cbn [partners].
  - split; [intros [] | intros (l2 & l3 & H & _)].
    destruct l2; discriminate H.
  - destruct (is_private x) eqn:Hx.
    + destruct (outside window a x) eqn:Ho.
      * split; [intros []|]. intros (l2 & l3 & H & Hc & Hw & HF).
        destruct l2 as [|y l2]; cbn [app] in H; injection H as <- H.
        -- congruence.
        -- inversion HF as [|? ? Hy _]; subst. specialize (Hy Hx). congruence.
      * cbn [In]. rewrite IH. split.
        -- intros [<-|(l2 & l3 & -> & Hc & Hw & HF)].
           ++ exists [], rest. cbn [app]. auto.
           ++ exists (x :: l2), l3. cbn [app]. repeat split; auto.
        -- intros (l2 & l3 & H & Hc & Hw & HF).
           destruct l2 as [|y l2]; cbn [app] in H; injection H as <- H.
           ++ left. reflexivity.
           ++ right. exists l2, l3. inversion HF; subst. auto.
    + rewrite IH. split.
      * intros (l2 & l3 & -> & Hc & Hw & HF).
        exists (x :: l2), l3. cbn [app]. repeat split; auto.
        constructor; [congruence | exact HF].
      * intros (l2 & l3 & H & Hc & Hw & HF).
        destruct l2 as [|y l2]; cbn [app] in H; injection H as <- H.
        -- congruence.
        -- exists l2, l3. inversion HF; subst. auto.
Qed.

(** The pairs, in words: [a] comes before [c] in the list, both come from
    a private source, [c] starts inside the window of [a], and so does
    every flow from a private source between them. *)
Lemma candidate_pairs_spec (window : Z) (a c : Flow.t) (l : list Flow.t) :
  In (a, c) (candidate_pairs window l) <->
  exists l1 l2 l3,
    l = l1 ++ a :: l2 ++ c :: l3 /\
    is_private a = true /\ is_private c = true /\
    outside window a c = false /\
    Forall (fun x => is_private x = true -> outside window a x = false) l2.
Proof.
  induction l as [|x l IH]; cbn [candidate_pairs].
  - split; [intros [] | intros (l1 & l2 & l3 & H & _)].
    destruct l1; discriminate H.
  - rewrite in_app_iff, IH. split.
    + intros [H|(l1 & l2 & l3 & -> & H)].
      * destruct (is_private x) eqn:Hx; [|destruct H].
        apply in_map_iff in H. destruct H as (c' & Heq & Hin).
        injection Heq as <- <-.
        apply partners_spec in Hin. destruct Hin as (l2 & l3 & -> & H).
        exists [], l2, l3. cbn [app]. tauto.
      * exists (x :: l1), l2, l3. cbn [app]. tauto.
    + intros (l1 & l2 & l3 & H & Ha & Hrest).
      destruct l1 as [|y l1]; cbn [app] in H; injection H as <- H.
      * left. rewrite Ha. apply in_map.
        apply partners_spec. exists l2, l3. tauto.
      * right. exists l1, l2, l3. tauto.
Qed.

Lemma rows_due_app (min_weight : float) (s : models.Session)
      (l l' : list (Flow.t * Flow.t)) :
  rows_due min_weight s (l ++ l') =
  rows_due min_weight s l ++ rows_due min_weight s l'.
Proof. apply flat_map_app. Qed.

Lemma rows_due_same (min_weight : float) (s s2 : models.Session)
      (l : list (Flow.t * Flow.t)) :
  same_inputs s s2 -> rows_due min_weight s2 l = rows_due min_weight s l.
Proof.
  intros Hsame. unfold rows_due. apply flat_map_ext. intros [a c].
  cbn [fst snd]. rewrite (calculate_correlation_same s s2 a c Hsame).
  reflexivity.
Qed.

Lemma rows_due_in (min_weight : float) (s : models.Session)
      (l : list (Flow.t * Flow.t))
      (x : Z * Z * float * string * list (string * ev_value)) :
  In x (rows_due min_weight s l) <->
  exists a c w ev,
    In (a, c) l /\ _calculate_correlation a c s = py.Ok (w, ev) /\
    PrimFloat.leb min_weight w = true /\ x = pair_body a c w ev.
Proof.
  unfold rows_due. rewrite in_flat_map. split.
  - intros ([a c] & Hin & Hx). cbn [fst snd] in Hx.
    destruct (_calculate_correlation a c s) as [[w ev]|e] eqn:Hc; [|destruct Hx].
    destruct (PrimFloat.leb min_weight w) eqn:Hg; [|destruct Hx].
    destruct Hx as [<-|[]]. exists a, c, w, ev. auto.
  - intros (a & c & w & ev & Hin & Hc & Hg & ->).
    exists (a, c). split; [exact Hin|]. cbn [fst snd]. rewrite Hc, Hg.
    left. reflexivity.
Qed.

(** The pair step, told by what it appends. *)
Lemma correlate_pair_exact (min_weight : float) (flow1 flow2 : Flow.t)
      (s0 s : models.Session) (c : Z) (s' : models.Session) (c' : Z) :
  same_inputs s0 s ->
  correlate_pair min_weight flow1 flow2 s c = py.Ok (s', c') ->
  (exists w ev, _calculate_correlation flow1 flow2 s0 = py.Ok (w, ev)) /\
  exists rows,
    appended s s' rows /\
    c' = c + Z.of_nat (List.length rows) /\
    keyed_in_turn (models.correlations s) rows /\
    map body rows = rows_due min_weight s0 [(flow1, flow2)].
Proof.
  intros Hsame. unfold correlate_pair, rows_due. cbn [flat_map fst snd].
  rewrite (calculate_correlation_same s0 s flow1 flow2 Hsame).
  destruct (_calculate_correlation flow1 flow2 s0) as [[w ev]|e];
    cbn [py.bind]; [|discriminate].
  intros Hpair. split; [exists w, ev; reflexivity|]. revert Hpair.
  destruct (PrimFloat.leb min_weight w); intros H; injection H as <- <-.
  - eexists [_]. unfold appended, add_correlation.
    cbn [models.flows models.tor_nodes models.correlations List.length
         keyed_in_turn Correlation.id map app].
    split; [auto|]. split; [reflexivity|]. split; [auto|]. reflexivity.
  - exists []. split; [apply appended_nil|]. cbn [List.length keyed_in_turn map app].
    split; [lia|]. split; [exact I | reflexivity].
Qed.

Lemma is_private_known (internal_ips : list string) (f : Flow.t) :
  (forall x, _is_internal_ip x (Some internal_ips) = _is_internal_ip x None) ->
  forall v, _is_internal_ip (Flow.src_ip f) (Some internal_ips) = py.Ok v ->
            is_private f = v.
Proof.
  intros Hred v H. unfold is_private. rewrite <- Hred, H.
  destruct v; reflexivity.
Qed.

Lemma inner_loop_exact (self : CorrelationEngine) (min_weight : float)
      (internal_ips : list string) (s0 : models.Session) (flow1 : Flow.t)
      (rest : list Flow.t) :
  (forall x, _is_internal_ip x (Some internal_ips) = _is_internal_ip x None) ->
  forall s c s' c',
    same_inputs s0 s ->
    inner_loop self min_weight internal_ips flow1 rest s c = py.Ok (s', c') ->
    Forall (fun flow2 =>
              exists w ev, _calculate_correlation flow1 flow2 s0 = py.Ok (w, ev))
      (partners (time_window self) flow1 rest) /\
    exists rows,
      appended s s' rows /\
      c' = c + Z.of_nat (List.length rows) /\
      keyed_in_turn (models.correlations s) rows /\
      map body rows =
        rows_due min_weight s0
          (map (pair flow1) (partners (time_window self) flow1 rest)).
Proof.
  intros Hred. induction rest as [|flow2 rest IH]; intros s c s' c' Hsame;
    cbn [inner_loop partners].
  - intros H; injection H as <- <-. split; [constructor|].
    exists []. split; [apply appended_nil|]. cbn [List.length keyed_in_turn map].
    split; [lia|]. split; [exact I | reflexivity].
  - destruct (_is_internal_ip (Flow.src_ip flow2) (Some internal_ips)) as [v|e]
      eqn:Hint; cbn [py.bind]; [|discriminate].
    rewrite (is_private_known internal_ips flow2 Hred v Hint).
    destruct v; cbn [negb]; [|apply IH; exact Hsame].
    unfold outside.
    destruct (PrimFloat.ltb (py.total_seconds (time_window self))
                (time_diff_seconds flow1 flow2)).
    + intros H; injection H as <- <-. split; [constructor|].
      exists []. split; [apply appended_nil|].
      cbn [List.length keyed_in_turn map].
      split; [lia|]. split; [exact I | reflexivity].
    + destruct (correlate_pair min_weight flow1 flow2 s c) as [[s1 c1]|e]
        eqn:Hpair; cbn [py.bind fst snd]; [|discriminate].
      intros Hloop.
      destruct (correlate_pair_exact _ _ _ s0 _ _ _ _ Hsame Hpair)
        as (Hcalc & rows1 & Ha1 & Hc1 & Hk1 & Hb1).
      destruct (IH _ _ _ _ (same_inputs_appended _ _ _ _ Hsame Ha1) Hloop)
        as (Hall & rows2 & Ha2 & Hc2 & Hk2 & Hb2).
      split; [constructor; assumption|].
      exists (rows1 ++ rows2).
      split; [eapply appended_trans; eassumption|].
      split; [rewrite length_app; lia|].
      split.
      { apply keyed_in_turn_app; [exact Hk1|].
        rewrite <- (appended_correlations _ _ _ Ha1). exact Hk2. }
      rewrite map_app, Hb1, Hb2. cbn [map].
      change ((flow1, flow2)
              :: map (pair flow1) (partners (time_window self) flow1 rest))
        with ([(flow1, flow2)]
              ++ map (pair flow1) (partners (time_window self) flow1 rest)).
      rewrite rows_due_app. reflexivity.
Qed.

Lemma outer_loop_exact (self : CorrelationEngine) (min_weight : float)
      (internal_ips : list string) (s0 : models.Session)
      (tor_flows : list Flow.t) :
  (forall x, _is_internal_ip x (Some internal_ips) = _is_internal_ip x None) ->
  forall s c s' c',
    same_inputs s0 s ->
    outer_loop self min_weight internal_ips tor_flows s c = py.Ok (s', c') ->
    Forall (fun ac =>
              exists w ev,
                _calculate_correlation (fst ac) (snd ac) s0 = py.Ok (w, ev))
      (candidate_pairs (time_window self) tor_flows) /\
    exists rows,
      appended s s' rows /\
      c' = c + Z.of_nat (List.length rows) /\
      keyed_in_turn (models.correlations s) rows /\
      map body rows =
        rows_due min_weight s0 (candidate_pairs (time_window self) tor_flows).
Proof.
  intros Hred. induction tor_flows as [|flow1 rest IH];
    intros s c s' c' Hsame; cbn [outer_loop candidate_pairs].
  - intros H; injection H as <- <-. split; [constructor|].
    exists []. split; [apply appended_nil|]. cbn [List.length keyed_in_turn map].
    split; [lia|]. split; [exact I | reflexivity].
  - destruct (_is_internal_ip (Flow.src_ip flow1) (Some internal_ips)) as [v|e]
      eqn:Hint; cbn [py.bind]; [|discriminate].
    rewrite (is_private_known internal_ips flow1 Hred v Hint).
    destruct v; cbn [negb app]; [|apply IH; exact Hsame].
    destruct (inner_loop self min_weight internal_ips flow1 rest s c)
      as [[s1 c1]|e] eqn:Hinner; cbn [py.bind fst snd]; [|discriminate].
    intros Hloop.
    destruct (inner_loop_exact self min_weight internal_ips s0 flow1 rest Hred
                _ _ _ _ Hsame Hinner) as (Hall1 & rows1 & Ha1 & Hc1 & Hk1 & Hb1).
    destruct (IH _ _ _ _ (same_inputs_appended _ _ _ _ Hsame Ha1) Hloop)
      as (Hall2 & rows2 & Ha2 & Hc2 & Hk2 & Hb2).
    split.
    { apply Forall_app. split; [|exact Hall2].
      apply Forall_forall. intros [a c0] Hin. apply in_map_iff in Hin.
      destruct Hin as (x & Heq & Hx). injection Heq as <- <-. cbn [fst snd].
      rewrite Forall_forall in Hall1. exact (Hall1 x Hx). }
    exists (rows1 ++ rows2).
    split; [eapply appended_trans; eassumption|].
    split; [rewrite length_app; lia|].
    split.
    { apply keyed_in_turn_app; [exact Hk1|].
      rewrite <- (appended_correlations _ _ _ Ha1). exact Hk2. }
    rewrite map_app, Hb1, Hb2, rows_due_app. reflexivity.
Qed.

(** A pass that returns, told by what it appends: one row for each pair
    whose weight reaches the minimum, in the order of the pairs, each under
    the next key. *)
Lemma correlate_flows_exact (self self1 : CorrelationEngine)
      (min_weight : float) (n : Z) :
  correlate_flows self min_weight = (py.Ok n, self1) ->
  let s := models.committed (db_manager self) in
  let pairs := candidate_pairs (time_window self) (tor_flows_query s) in
  time_window self1 = time_window self /\
  same_inputs s (models.committed (db_manager self1)) /\
  Forall (fun ac =>
            exists w ev,
              _calculate_correlation (fst ac) (snd ac) s = py.Ok (w, ev)) pairs /\
  exists rows,
    models.correlations (models.committed (db_manager self1)) =
      models.correlations s ++ rows /\
    n = Z.of_nat (List.length rows) /\
    keyed_in_turn (models.correlations s) rows /\
    map body rows = rows_due min_weight s pairs.
Proof.
  intros Hrun. cbv zeta.
  destruct (correlate_flows_run self min_weight) as (Hw & _ & Hshape).
  cbv zeta in Hshape. rewrite Hrun in Hshape, Hw. cbn [fst snd] in Hshape, Hw.
  set (s := models.committed (db_manager self)) in *.
  destruct (_get_internal_ips s) as [ips|e] eqn:Hips;
    [|destruct Hshape as [H _]; discriminate H].
  destruct (outer_loop self min_weight ips (tor_flows_query s) s 0)
    as [[s' n']|e] eqn:Hout; [|destruct Hshape as [H _]; discriminate H].
  destruct Hshape as [Hn Hafter]. injection Hn as <-. rewrite Hafter.
  destruct (outer_loop_exact self min_weight ips s (tor_flows_query s)
              (internal_ips_redundant s ips Hips) _ _ _ _
              (conj eq_refl eq_refl) Hout)
    as (Hall & rows & Ha & Hc & Hk & Hb).
  split; [exact Hw|].
  split; [exact (appended_same_inputs _ _ _ Ha)|].
  split; [exact Hall|].
  exists rows. split; [exact (appended_correlations _ _ _ Ha)|].
  split; [lia|]. split; assumption.
Qed.

(** After a pass that returns, a second pass returns too. *)
Lemma second_pass_returns (self self1 : CorrelationEngine)
      (min_weight : float) (n : Z) :
  correlate_flows self min_weight = (py.Ok n, self1) ->
  exists n2 self2, correlate_flows self1 min_weight = (py.Ok n2, self2).
Proof.
  intros Hrun.
  destruct (correlate_flows_exact self self1 min_weight n Hrun)
    as (Hw & Hsame & _).
  destruct (correlate_flows_run self min_weight) as (_ & _ & Hshape).
  destruct (correlate_flows_run self1 min_weight) as (_ & _ & Hshape1).
  cbv zeta in Hshape, Hshape1. rewrite Hrun in Hshape. cbn [fst snd] in Hshape.
  set (s := models.committed (db_manager self)) in *.
  set (s1 := models.committed (db_manager self1)) in *.
  assert (Hq : tor_flows_query s1 = tor_flows_query s)
    by (unfold tor_flows_query; rewrite (proj1 Hsame); reflexivity).
  assert (Hi : _get_internal_ips s1 = _get_internal_ips s)
    by (unfold _get_internal_ips; rewrite (proj1 Hsame); reflexivity).
  rewrite Hq, Hi in Hshape1.
  destruct (_get_internal_ips s) as [ips|e];
    [|destruct Hshape as [H _]; discriminate H].
  pose proof (outer_loop_agree self self1 min_weight ips (tor_flows_query s)
                Hw s 0 s1 0 Hsame) as Hagree.
  destruct (outer_loop self min_weight ips (tor_flows_query s) s 0)
    as [[s' n']|e]; [|destruct Hshape as [H _]; discriminate H].
  destruct (outer_loop self1 min_weight ips (tor_flows_query s) s1 0)
    as [[s2 n2]|e2]; [|destruct Hagree].
  destruct Hshape1 as [Hfst _].
  exists n2, (snd (correlate_flows self1 min_weight)).
  rewrite <- Hfst. destruct (correlate_flows self1 min_weight); reflexivity.
Qed.

(** C2, as the code has it: a pass deletes nothing. A pass that returns
    appends, to the rows it finds, one row for each pair of the pass whose
    weight reaches the minimum, in the order of the pairs and each under
    the next free key. A second pass with the same window and minimum
    returns the same count and appends rows for the same pairs, which say
    the same (flow ids, weight, type and evidence), again under new keys:
    the table then holds the earlier rows followed by the rows of the pairs
    twice. *)
Theorem C2_second_pass_appends_again (self self1 : CorrelationEngine)
        (min_correlation_weight : float) (n : Z) :
  correlate_flows self min_correlation_weight = (py.Ok n, self1) ->
  let s := models.committed (db_manager self) in
  let due :=
    rows_due min_correlation_weight s
      (candidate_pairs (time_window self) (tor_flows_query s)) in
  let self2 := snd (correlate_flows self1 min_correlation_weight) in
  exists rows rows2,
    models.correlations (models.committed (db_manager self1)) =
      models.correlations s ++ rows /\
    fst (correlate_flows self1 min_correlation_weight) = py.Ok n /\
    models.correlations (models.committed (db_manager self2)) =
      models.correlations s ++ rows ++ rows2 /\
    map body rows = due /\
    map body rows2 = due /\
    Z.of_nat (List.length due) = n /\
    keyed_in_turn (models.correlations s) rows /\
    keyed_in_turn (models.correlations s ++ rows) rows2 /\
    (NoDup (map Correlation.id (models.correlations s)) ->
     NoDup (map Correlation.id (models.correlations s ++ rows ++ rows2))).
Proof.
  intros Hrun. cbv zeta.
  destruct (correlate_flows_exact self self1 _ n Hrun)
    as (Hw & Hsame & _ & rows & Hrows & Hn & Hk & Hb).
  destruct (second_pass_returns self self1 _ n Hrun) as (n2 & self2 & Hrun2).
  destruct (correlate_flows_exact self1 self2 _ n2 Hrun2)
    as (_ & _ & _ & rows2 & Hrows2 & Hn2 & Hk2 & Hb2).
  rewrite Hrun2. cbn [fst snd].
  assert (Hq : tor_flows_query (models.committed (db_manager self1)) =
               tor_flows_query (models.committed (db_manager self)))
    by (unfold tor_flows_query; rewrite (proj1 Hsame); reflexivity).
  rewrite Hq, Hw, (rows_due_same _ _ _ _ Hsame) in Hb2.
  exists rows, rows2.
  split; [exact Hrows|].
  split.
  { f_equal. rewrite Hn2, Hn, <- (length_map body rows2), Hb2, <- Hb.
    rewrite length_map. reflexivity. }
  split; [rewrite Hrows2, Hrows, app_assoc; reflexivity|].
  split; [exact Hb|]. split; [exact Hb2|].
  split; [rewrite <- Hb, length_map; symmetry; exact Hn|].
  split; [exact Hk|].
  split; [rewrite <- Hrows; exact Hk2|].
  intros Hnd. rewrite app_assoc.
  apply keyed_in_turn_nodup; [rewrite <- Hrows; exact Hk2|].
  apply keyed_in_turn_nodup; assumption.
Qed.

Lemma C2_second_pass_appends_again_witness :
  exists rows rows2,
    models.correlations
      (models.committed
         (db_manager
            (snd (correlate_flows
                    (snd (correlate_flows fixtures.scenario2_engine 0.3%float))
                    0.3%float)))) =
      models.correlations (models.committed fixtures.scenario2_db)
      ++ rows ++ rows2 /\
    map (fun c => (Correlation.flow_id c, Correlation.correlated_flow_id c)) rows
      = [(1, 2)] /\
    map body rows2 = map body rows /\
    fst (correlate_flows
           (snd (correlate_flows fixtures.scenario2_engine 0.3%float)) 0.3%float) =
      py.Ok 1.
Proof.
  destruct (C2_second_pass_appends_again fixtures.scenario2_engine
              (snd (correlate_flows fixtures.scenario2_engine 0.3%float))
              0.3%float 1 ltac:(vm_compute; reflexivity))
    as (rows & rows2 & _ & Hfst & Hall & Hb & Hb2 & _).
  exists rows, rows2. split; [exact Hall|]. split.
  - assert (Hids : forall l : list Correlation.t,
               map (fun c => (Correlation.flow_id c,
                              Correlation.correlated_flow_id c)) l =
               map (fun b => (fst (fst (fst (fst b))), snd (fst (fst (fst b)))))
                 (map body l))
      by (intros l; rewrite map_map; reflexivity).
    rewrite Hids, Hb. vm_compute. reflexivity.
  - split; [rewrite Hb, Hb2; reflexivity | exact Hfst].
Defined.

(** C2 fails as stated: on scenario 2 the first pass leaves one
    correlation row and the second pass leaves two, which say the same
    under the keys 1 and 2. *)
Lemma C2_counterexample :
  let pass1 := snd (correlate_flows fixtures.scenario2_engine 0.3%float) in
  let pass2 := snd (correlate_flows pass1 0.3%float) in
  map Correlation.id (models.correlations (models.committed (db_manager pass1))) =
    [1] /\
  map Correlation.id (models.correlations (models.committed (db_manager pass2))) =
    [1; 2] /\
  map (fun c => (Correlation.flow_id c, Correlation.correlated_flow_id c))
    (models.correlations (models.committed (db_manager pass2))) =
    [(1, 2); (1, 2)] /\
  models.flows (models.committed (db_manager pass2)) =
    models.flows (models.committed fixtures.scenario2_db).
Proof.
  repeat split; vm_compute; reflexivity.
Qed.

(** C7, as the code has it. The pairs of a pass are the ordered pairs
    [(a, c)] of flows with an indicator, in [ts_start] order, whose source
    addresses are both private and where [c], and every flow from a private
    source between [a] and [c], starts within the window of [a]. A pass
    that raises leaves the store as it was. In a pass that returns, the
    weight of every such pair is computed and equals [t], + 0.3 on an
    entry/exit match, + 0.2 * ratio when both packet counts are positive,
    + 0.1 on equal source addresses; the rows appended are, in the order of
    the pairs, one row for each pair whose weight reaches the minimum: a row
    for the pair is appended if and only if its weight is at least the
    minimum, and every appended row stores the two flow ids and that weight
    unchanged, with the type [entry_exit] on a match and [timing]
    otherwise. *)
Theorem C7_correlation_weight_and_gate (self : CorrelationEngine)
        (min_correlation_weight : float) :
  let s := models.committed (db_manager self) in
  let out := correlate_flows self min_correlation_weight in
  let after := models.committed (db_manager (snd out)) in
  let pairs := candidate_pairs (time_window self) (tor_flows_query s) in
  (forall e, fst out = py.Raise e -> after = s) /\
  (forall n, fst out = py.Ok n ->
     exists rows,
       models.correlations after = models.correlations s ++ rows /\
       n = Z.of_nat (List.length rows) /\
       map body rows = rows_due min_correlation_weight s pairs /\
       (forall a c, In (a, c) pairs ->
          exists ratio evidence,
            spec.size_ratio a c = option_map py.Ok ratio /\
            let w := spec.weight (time_diff_seconds a c) (spec.entry_exit s a c)
                       ratio (String.eqb (Flow.src_ip a) (Flow.src_ip c)) in
            _calculate_correlation a c s = py.Ok (w, evidence) /\
            (PrimFloat.leb min_correlation_weight w = true <->
             In (pair_body a c w evidence) (map body rows))) /\
       (forall row, In row rows ->
          exists a c ratio,
            In (a, c) pairs /\
            Correlation.flow_id row = Flow.id a /\
            Correlation.correlated_flow_id row = Flow.id c /\
            spec.size_ratio a c = option_map py.Ok ratio /\
            Correlation.correlation_weight row =
              spec.weight (time_diff_seconds a c) (spec.entry_exit s a c)
                ratio (String.eqb (Flow.src_ip a) (Flow.src_ip c)) /\
            PrimFloat.leb min_correlation_weight
              (Correlation.correlation_weight row) = true /\
            Correlation.correlation_type row =
              (if spec.entry_exit s a c then "entry_exit" else "timing"))).
Proof.
  cbv zeta. split.
  - intros e He.
    destruct (correlate_flows_run self min_correlation_weight) as (_ & _ & Hshape).
    cbv zeta in Hshape.
    destruct (_get_internal_ips (models.committed (db_manager self))) as [ips|e1].
    + destruct (outer_loop self min_correlation_weight ips
                  (tor_flows_query (models.committed (db_manager self)))
                  (models.committed (db_manager self)) 0) as [[s' n']|e2].
      * destruct Hshape as [Hfst _]. rewrite Hfst in He. discriminate He.
      * exact (proj2 Hshape).
    + exact (proj2 Hshape).
  - intros n Hn.
    destruct (correlate_flows self min_correlation_weight) as [r self1] eqn:Hrun.
    cbn [fst snd] in Hn |- *. subst r.
    destruct (correlate_flows_exact self self1 _ n Hrun)
      as (_ & _ & Hall & rows & Hrows & Hcount & _ & Hb).
    exists rows. split; [exact Hrows|]. split; [exact Hcount|].
    split; [exact Hb|]. split.
    + intros a c Hin. rewrite Forall_forall in Hall.
      destruct (Hall (a, c) Hin) as (w & ev & Hcalc). cbn [fst snd] in Hcalc.
      destruct (calculate_correlation_ok _ _ _ _ _ Hcalc) as (ratio & Hr & Hw & _).
      exists ratio, ev. split; [exact Hr|]. cbv zeta. rewrite <- Hw.
      split; [exact Hcalc|]. rewrite Hb, rows_due_in. split.
      * intros Hg. exists a, c, w, ev. auto.
      * intros (a' & c' & w' & ev' & _ & _ & Hg & Heq).
        unfold pair_body in Heq. injection Heq as _ _ Hww _ _.
        rewrite Hww. exact Hg.
    + intros row Hrow.
      assert (Hbody : In (body row) (map body rows)) by (apply in_map; exact Hrow).
      rewrite Hb in Hbody. apply rows_due_in in Hbody.
      destruct Hbody as (a & c & w & ev & Hin & Hcalc & Hg & Heq).
      destruct (calculate_correlation_ok _ _ _ _ _ Hcalc) as (ratio & Hr & Hw & Ht).
      unfold body, pair_body in Heq. rewrite Ht in Heq.
      injection Heq as Hid1 Hid2 Hweight Htype _.
      exists a, c, ratio. split; [exact Hin|]. split; [exact Hid1|].
      split; [exact Hid2|]. split; [exact Hr|].
      split; [rewrite Hweight; exact Hw|]. split; [rewrite Hweight; exact Hg|].
      rewrite Htype. destruct (spec.entry_exit _ a c); reflexivity.
Qed.

Lemma C7_correlation_weight_and_gate_witness :
  exists rows,
    models.correlations
      (models.committed
         (db_manager (snd (correlate_flows fixtures.scenario2_engine 0.3%float)))) =
      rows /\
    map (fun c => (Correlation.flow_id c, Correlation.correlated_flow_id c,
                   Correlation.correlation_type c)) rows =
      [(1, 2, "entry_exit")] /\
    map Correlation.correlation_weight rows =
      [spec.weight 0.5%float true (Some 1%float) true].
Proof.
  destruct (C7_correlation_weight_and_gate fixtures.scenario2_engine 0.3%float)
    as [_ Hok].
  destruct (Hok 1 ltac:(vm_compute; reflexivity)) as (rows & Hrows & _ & Hb & _).
  exists rows. split; [exact Hrows|].
  assert (Hids : forall l : list Correlation.t,
             map (fun c => (Correlation.flow_id c, Correlation.correlated_flow_id c,
                            Correlation.correlation_type c)) l =
             map (fun b => (fst (fst (fst (fst b))), snd (fst (fst (fst b))),
                            snd (fst b)))
               (map body l))
    by (intros l; rewrite map_map; reflexivity).
  assert (Hws : forall l : list Correlation.t,
             map Correlation.correlation_weight l =
             map (fun b => snd (fst (fst b))) (map body l))
    by (intros l; rewrite map_map; reflexivity).
  rewrite Hids, Hws, Hb. split; vm_compute; reflexivity.
Defined.

(** C7 fails for pairs of flows with an indicator in general: two flows
    from the public address 8.8.4.4 both carry an indicator and start half
    a second apart, the weight of the pair is computed and is at least 0.3,
    and a pass with the minimum 0.3 and a window of 10 seconds returns 0
    and leaves no row. *)
Lemma C7_counterexample :
  let s := models.committed (db_manager samples.public_pair_engine) in
  let out := correlate_flows samples.public_pair_engine 0.3%float in
  tor_flows_query s = [samples.public_entry; samples.public_exit] /\
  time_diff_seconds samples.public_entry samples.public_exit = 0.5%float /\
  match _calculate_correlation samples.public_entry samples.public_exit s with
  | py.Ok (w, _) =>
      w = spec.weight 0.5%float true (Some 1%float) true /\
      PrimFloat.leb 0.3%float w = true
  | py.Raise _ => False
  end /\
  candidate_pairs (time_window samples.public_pair_engine) (tor_flows_query s) = [] /\
  fst out = py.Ok 0 /\
  models.correlations (models.committed (db_manager (snd out))) = [].
Proof.
  repeat split; vm_compute; reflexivity.
Qed.

End PassPairs.
